(** * isolation-sphere: the test-orchestration framework

    A shallow embedding of [components/test_framework]
    ([base_test.hpp], [base_test.cpp], [test_manager.hpp],
    [test_manager.cpp]) and the properties its design document states
    about it.

    Conventions of the embedding:
    - [uint32_t] values are integers in [Z], every arithmetic result
      being reduced by [wrap32];
    - test objects live in an object store addressed by handles (the
      [std::shared_ptr<BaseTest>] of the source), so that a test
      registered twice is one object;
    - the step actions are functions of the environment (peripherals,
      clock and the members of the derived classes);
    - the body of a virtual phase is a program over what the derived
      classes of the repository use: code of their own on the
      environment, [addStep] and [runSteps] on the object itself, and
      [return]; [status_] is written by [BaseTest] only;
    - every call of a phase, of [run] and of a step is appended to a
      call log, which is a ghost field: no function reads it;
    - the ESP_LOG output and the two printing functions of the manager
      change no state and are left out. *)

From Stdlib Require Import ZArith List String Ascii Bool Lia.
From Stdlib Require Import SpecFloat QArith.
Import ListNotations.

Local Open Scope string_scope.
Local Open Scope Z_scope.
Local Open Scope list_scope.

(** ** Platform types and constants *)

(** [esp_err.h] of ESP-IDF: [typedef int esp_err_t] and its codes. *)
Definition esp_err_t := Z.
Definition ESP_OK : esp_err_t := 0.
Definition ESP_FAIL : esp_err_t := -1.
Definition ESP_ERR_INVALID_ARG : esp_err_t := 258. (* 0x102 *)

Definition wrap32 (z : Z) : Z := z mod 2 ^ 32.

(** ** base_test.hpp *)

Inductive TestResult : Set :=
| NOT_RUN
| RUNNING
| PASSED
| FAILED
| SKIPPED
| TIMEOUT.

Definition TestResult_eqb (a b : TestResult) : bool :=
  match a, b with
  | NOT_RUN, NOT_RUN | RUNNING, RUNNING | PASSED, PASSED
  | FAILED, FAILED | SKIPPED, SKIPPED | TIMEOUT, TIMEOUT => true
  | _, _ => false
  end.

Record TestStatus : Set := mkTestStatus {
  result : TestResult;
  message : string;
  duration_ms : Z;
  start_time : Z;
  error_code : Z
}.

(** Handles stand for [std::shared_ptr<BaseTest>]: two equal handles
    designate the same object. *)
Definition handle := nat.

(** The call log. *)
Inductive Event : Set :=
| EvRun (h : handle)        (* BaseTest::run entered on object h *)
| EvSetup (h : handle)      (* h->setup() called *)
| EvExecute (h : handle)    (* h->execute() called *)
| EvTeardown (h : handle)   (* h->teardown() called *)
| EvStep (n : string)       (* executeStep called for the step named n *)
| EvAction (n : string).    (* the bound action of step n invoked *)

Definition is_execute_of (h : handle) (e : Event) : bool :=
  match e with EvExecute k => Nat.eqb h k | _ => false end.
Definition is_teardown_of (h : handle) (e : Event) : bool :=
  match e with EvTeardown k => Nat.eqb h k | _ => false end.

Definition calls (p : Event -> bool) (log : list Event) : nat :=
  List.length (filter p log).

(** The handles on which [run] was entered, in order. *)
Fixpoint runs_of (log : list Event) : list handle :=
  match log with
  | [] => []
  | EvRun h :: l => h :: runs_of l
  | _ :: l => runs_of l
  end.

(** The names of the steps handed to [executeStep], in order. *)
Fixpoint steps_of (log : list Event) : list string :=
  match log with
  | [] => []
  | EvStep n :: l => n :: steps_of l
  | _ :: l => steps_of l
  end.

(** The environment of the firmware, with the FreeRTOS tick clock read
    from it ([task.h], [portmacro.h]). *)
Class Platform (World : Type) : Type := {
  xTaskGetTickCount : World -> Z;
  portTICK_PERIOD_MS : Z
}.

Section Objects.

Context {World : Type}.

(** [std::function<esp_err_t()>], and the member functions of the
    derived classes. *)
Definition Action : Type := World -> esp_err_t * World.

Record TestStep : Type := mkTestStep {
  name : string;
  execute : option Action;      (* an empty std::function is None *)
  timeout_ms : Z;
  critical : bool
}.

(** The body of a virtual phase, statement by statement:
    - [Return r] is [return r;]
    - [Call f k] runs code of the derived class on the environment and
      goes on with the value it yields;
    - [AddStep nm step tmo crit k] is [addStep(nm, step, tmo, crit);]
    - [RunSteps k] is [esp_err_t ret = runSteps();]. *)
Inductive Phase : Type :=
| Return (r : esp_err_t)
| Call (f : Action) (k : esp_err_t -> Phase)
| AddStep (nm : string) (step : option Action) (tmo : Z) (crit : bool)
    (k : Phase)
| RunSteps (k : esp_err_t -> Phase).

(** A phase that is code of the derived class only. *)
Definition body (f : Action) : Phase := Call f Return.

Record BaseTest : Type := mkBaseTest {
  test_name_ : string;
  test_description_ : string;
  status_ : TestStatus;
  test_steps_ : list TestStep;
  v_setup : Phase;              (* virtual esp_err_t setup() *)
  v_execute : Phase;            (* virtual esp_err_t execute() *)
  v_teardown : Phase            (* virtual esp_err_t teardown() *)
}.

(** BaseTest::BaseTest *)
Definition BaseTest_new (nm descr : string) (su ex td : Phase) : BaseTest :=
  {| test_name_ := nm;
     test_description_ := descr;
     status_ := {| result := NOT_RUN; message := ""; duration_ms := 0;
                   start_time := 0; error_code := 0 |};
     test_steps_ := [];
     v_setup := su; v_execute := ex; v_teardown := td |}.

Definition getName (t : BaseTest) : string := test_name_ t.
Definition getStatus (t : BaseTest) : TestStatus := status_ t.

Definition with_status (t : BaseTest) (st : TestStatus) : BaseTest :=
  {| test_name_ := test_name_ t;
     test_description_ := test_description_ t;
     status_ := st;
     test_steps_ := test_steps_ t;
     v_setup := v_setup t; v_execute := v_execute t;
     v_teardown := v_teardown t |}.

Definition with_test_steps (t : BaseTest) (steps : list TestStep)
  : BaseTest :=
  {| test_name_ := test_name_ t;
     test_description_ := test_description_ t;
     status_ := status_ t;
     test_steps_ := steps;
     v_setup := v_setup t; v_execute := v_execute t;
     v_teardown := v_teardown t |}.

(** ** The machine: environment, object store, call log *)

Record Machine : Type := mkMachine {
  world : World;
  heap : handle -> BaseTest;
  events : list Event
}.

Definition M (A : Type) : Type := Machine -> A * Machine.

Definition ret {A : Type} (a : A) : M A := fun s => (a, s).

Definition bind {A B : Type} (c : M A) (k : A -> M B) : M B :=
  fun s => let (a, s') := c s in k a s'.

End Objects.

Arguments Action World : clear implicits.
Arguments TestStep World : clear implicits.
Arguments Phase World : clear implicits.
Arguments BaseTest World : clear implicits.
Arguments Machine World : clear implicits.
Arguments M World A : clear implicits.

Declare Scope machine_scope.
Delimit Scope machine_scope with machine.
Notation "x <- c ;; k" := (bind c (fun x => k))
  (at level 61, c at next level, right associativity) : machine_scope.
Notation "c ;; k" := (bind c (fun _ => k))
  (at level 61, right associativity) : machine_scope.
Local Open Scope machine_scope.

Section BaseTestImpl.

Context {World : Type} {platform : Platform World}.

Definition emit (e : Event) : M World unit :=
  fun s => (tt, {| world := world s; heap := heap s;
                   events := events s ++ [e] |}).

(** Calling into the environment. *)
Definition invoke (f : Action World) : M World esp_err_t :=
  fun s => let (r, w) := f (world s) in
           (r, {| world := w; heap := heap s; events := events s |}).

Definition deref (h : handle) : M World (BaseTest World) := fun s => (heap s h, s).

Definition store (h : handle) (t : BaseTest World) : M World unit :=
  fun s => (tt, {| world := world s;
                   heap := fun k => if Nat.eqb k h then t else heap s k;
                   events := events s |}).

(** [xTaskGetTickCount() * portTICK_PERIOD_MS] in [uint32_t]. *)
Definition now_ms : M World Z :=
  fun s => (wrap32 (xTaskGetTickCount (world s) * portTICK_PERIOD_MS), s).

(** ** base_test.cpp *)

(** BaseTest::addStep *)
Definition addStep (t : BaseTest World) (nm : string)
    (step : option (Action World)) (tmo : Z) (crit : bool) : BaseTest World :=
  {| test_name_ := test_name_ t;
     test_description_ := test_description_ t;
     status_ := status_ t;
     test_steps_ := test_steps_ t ++
       [{| name := nm; execute := step; timeout_ms := tmo;
           critical := crit |}];
     v_setup := v_setup t; v_execute := v_execute t;
     v_teardown := v_teardown t |}.

(** BaseTest::executeStep *)
Definition executeStep (step : TestStep World) : M World esp_err_t :=
  match execute step with
  | None => ret ESP_ERR_INVALID_ARG
  | Some f =>
      emit (EvAction (name step)) ;;
      r <- invoke f ;;
      ret r
  end.

(** The loop of BaseTest::runSteps over the remaining steps. *)
Fixpoint runSteps_from (steps : list (TestStep World)) : M World esp_err_t :=
  match steps with
  | [] => ret ESP_OK
  | step :: rest =>
      emit (EvStep (name step)) ;;
      r <- executeStep step ;;
      if negb (Z.eqb r ESP_OK) then
        if critical step then ret r else runSteps_from rest
      else runSteps_from rest
  end.

(** BaseTest::runSteps *)
Definition runSteps (this : handle) : M World esp_err_t :=
  t <- deref this ;;
  runSteps_from (test_steps_ t).

(** BaseTest::updateStatus *)
Definition updateStatus (this : handle) (res : TestResult) (msg : string)
  : M World unit :=
  t <- deref this ;;
  let st := status_ t in
  let code :=
    match res with
    | RUNNING | NOT_RUN => error_code st
    | FAILED => wrap32 ESP_FAIL
    | _ => wrap32 ESP_OK
    end in
  store this (with_status t
    {| result := res; message := msg; duration_ms := duration_ms st;
       start_time := start_time st; error_code := code |}).

(** BaseTest::startTimer *)
Definition startTimer (this : handle) : M World unit :=
  t <- deref this ;;
  n <- now_ms ;;
  let st := status_ t in
  store this (with_status t
    {| result := result st; message := message st;
       duration_ms := duration_ms st; start_time := n;
       error_code := error_code st |}).

(** BaseTest::stopTimer *)
Definition stopTimer (this : handle) : M World unit :=
  current_time <- now_ms ;;
  t <- deref this ;;
  let st := status_ t in
  store this (with_status t
    {| result := result st; message := message st;
       duration_ms := wrap32 (current_time - start_time st);
       start_time := start_time st; error_code := error_code st |}).

(** The body of a phase, run on the object [this]. *)
Fixpoint perform (this : handle) (p : Phase World) : M World esp_err_t :=
  match p with
  | Return r => ret r
  | Call f k => r <- invoke f ;; perform this (k r)
  | AddStep nm step tmo crit k =>
      t <- deref this ;;
      store this (addStep t nm step tmo crit) ;;
      perform this k
  | RunSteps k => r <- runSteps this ;; perform this (k r)
  end.

(** The virtual calls [setup()], [execute()] and [teardown()]. *)
Definition call_setup (this : handle) : M World esp_err_t :=
  t <- deref this ;; emit (EvSetup this) ;; perform this (v_setup t).
Definition call_execute (this : handle) : M World esp_err_t :=
  t <- deref this ;; emit (EvExecute this) ;; perform this (v_execute t).
Definition call_teardown (this : handle) : M World esp_err_t :=
  t <- deref this ;; emit (EvTeardown this) ;; perform this (v_teardown t).

(** BaseTest::run *)
Definition run (this : handle) : M World TestResult :=
  emit (EvRun this) ;;
  updateStatus this RUNNING "Test execution started" ;;
  startTimer this ;;
  r1 <- call_setup this ;;
  if negb (Z.eqb r1 ESP_OK) then
    stopTimer this ;;
    updateStatus this FAILED "Setup phase failed" ;;
    ret FAILED
  else
    r2 <- call_execute this ;;
    if negb (Z.eqb r2 ESP_OK) then
      stopTimer this ;;
      updateStatus this FAILED "Execute phase failed" ;;
      call_teardown this ;;
      ret FAILED
    else
      r3 <- call_teardown this ;;
      if negb (Z.eqb r3 ESP_OK) then
        stopTimer this ;;
        updateStatus this FAILED "Teardown phase failed" ;;
        ret FAILED
      else
        stopTimer this ;;
        updateStatus this PASSED "Test completed successfully" ;;
        ret PASSED.

End BaseTestImpl.

(** ** test_manager.hpp *)

Record TestManager : Set := mkTestManager {
  tests_ : list handle;
  stop_on_first_failure_ : bool;
  parallel_execution_ : bool;
  test_timeout_ms_ : Z;
  overall_result_ : TestResult;
  execution_start_time_ : Z;
  execution_end_time_ : Z
}.

Definition set_tests_ (m : TestManager) (l : list handle) : TestManager :=
  {| tests_ := l;
     stop_on_first_failure_ := stop_on_first_failure_ m;
     parallel_execution_ := parallel_execution_ m;
     test_timeout_ms_ := test_timeout_ms_ m;
     overall_result_ := overall_result_ m;
     execution_start_time_ := execution_start_time_ m;
     execution_end_time_ := execution_end_time_ m |}.

Definition set_overall_result_ (m : TestManager) (r : TestResult)
  : TestManager :=
  {| tests_ := tests_ m;
     stop_on_first_failure_ := stop_on_first_failure_ m;
     parallel_execution_ := parallel_execution_ m;
     test_timeout_ms_ := test_timeout_ms_ m;
     overall_result_ := r;
     execution_start_time_ := execution_start_time_ m;
     execution_end_time_ := execution_end_time_ m |}.

Definition set_execution_start_time_ (m : TestManager) (t : Z)
  : TestManager :=
  {| tests_ := tests_ m;
     stop_on_first_failure_ := stop_on_first_failure_ m;
     parallel_execution_ := parallel_execution_ m;
     test_timeout_ms_ := test_timeout_ms_ m;
     overall_result_ := overall_result_ m;
     execution_start_time_ := t;
     execution_end_time_ := execution_end_time_ m |}.

Definition set_execution_end_time_ (m : TestManager) (t : Z)
  : TestManager :=
  {| tests_ := tests_ m;
     stop_on_first_failure_ := stop_on_first_failure_ m;
     parallel_execution_ := parallel_execution_ m;
     test_timeout_ms_ := test_timeout_ms_ m;
     overall_result_ := overall_result_ m;
     execution_start_time_ := execution_start_time_ m;
     execution_end_time_ := t |}.

(** TestManager::setStopOnFirstFailure, setParallelExecution,
    setTestTimeout *)
Definition setStopOnFirstFailure (m : TestManager) (stop : bool)
  : TestManager :=
  {| tests_ := tests_ m;
     stop_on_first_failure_ := stop;
     parallel_execution_ := parallel_execution_ m;
     test_timeout_ms_ := test_timeout_ms_ m;
     overall_result_ := overall_result_ m;
     execution_start_time_ := execution_start_time_ m;
     execution_end_time_ := execution_end_time_ m |}.

Definition setParallelExecution (m : TestManager) (parallel : bool)
  : TestManager :=
  {| tests_ := tests_ m;
     stop_on_first_failure_ := stop_on_first_failure_ m;
     parallel_execution_ := parallel;
     test_timeout_ms_ := test_timeout_ms_ m;
     overall_result_ := overall_result_ m;
     execution_start_time_ := execution_start_time_ m;
     execution_end_time_ := execution_end_time_ m |}.

Definition setTestTimeout (m : TestManager) (tmo : Z) : TestManager :=
  {| tests_ := tests_ m;
     stop_on_first_failure_ := stop_on_first_failure_ m;
     parallel_execution_ := parallel_execution_ m;
     test_timeout_ms_ := wrap32 tmo;
     overall_result_ := overall_result_ m;
     execution_start_time_ := execution_start_time_ m;
     execution_end_time_ := execution_end_time_ m |}.

(** TestManager::TestStatistics; [success_rate] is an IEEE 754 binary32
    number. *)
Record TestStatistics : Set := mkTestStatistics {
  total_tests : Z;
  passed_tests : Z;
  failed_tests : Z;
  skipped_tests : Z;
  timeout_tests : Z;
  total_duration_ms : Z;
  success_rate : spec_float
}.

(** Single precision arithmetic: 24 bits of mantissa, exponents below
    128, rounding to nearest even. *)
Definition float_of_uint32 (z : Z) : spec_float :=
  binary_normalize 24 128 z 0 false.
Definition float_div (x y : spec_float) : spec_float := SFdiv 24 128 x y.
Definition float_mul (x y : spec_float) : spec_float := SFmul 24 128 x y.
Definition float_zero : spec_float := S754_zero false.   (* 0.0f *)
Definition float_100 : spec_float := float_of_uint32 100. (* 100.0f *)

(** ** test_manager.cpp *)

(** TestManager::TestManager *)
Definition TestManager_new : TestManager :=
  {| tests_ := [];
     stop_on_first_failure_ := false;
     parallel_execution_ := false;
     test_timeout_ms_ := 300000;
     overall_result_ := NOT_RUN;
     execution_start_time_ := 0;
     execution_end_time_ := 0 |}.

(** TestManager::addTest, for both overloads: a null pointer is
    ignored. *)
Definition addTest (m : TestManager) (test : option handle) : TestManager :=
  match test with
  | Some h => set_tests_ m (tests_ m ++ [h])
  | None => m
  end.

(** TestManager::updateOverallResult *)
Definition updateOverallResult (m : TestManager) (test_result : TestResult)
  : TestManager :=
  if TestResult_eqb test_result FAILED then set_overall_result_ m FAILED
  else if TestResult_eqb test_result TIMEOUT
          && negb (TestResult_eqb (overall_result_ m) FAILED)
       then set_overall_result_ m TIMEOUT
       else m.

(** [::tolower] in the C locale. *)
Definition tolower (c : ascii) : ascii :=
  let n := nat_of_ascii c in
  if (65 <=? n)%nat && (n <=? 90)%nat then ascii_of_nat (n + 32) else c.

(** [std::transform(s.begin(), s.end(), s.begin(), ::tolower)] *)
Fixpoint transform_tolower (s : string) : string :=
  match s with
  | EmptyString => EmptyString
  | String c t => String (tolower c) (transform_tolower t)
  end.

Fixpoint starts_with (pattern text : string) : bool :=
  match pattern, text with
  | EmptyString, _ => true
  | String p ps, String c cs => Ascii.eqb p c && starts_with ps cs
  | String _ _, EmptyString => false
  end.

(** [text.find(pattern)], from offset [pos] of the whole text on; [None]
    is [std::string::npos]. *)
Fixpoint find_from (pos : nat) (text pattern : string) : option nat :=
  if starts_with pattern text then Some pos
  else match text with
       | EmptyString => None
       | String _ rest => find_from (S pos) rest pattern
       end.

Definition find (text pattern : string) : option nat :=
  find_from 0 text pattern.

(** TestManager::matchesPattern *)
Definition matchesPattern (text pattern : string) : bool :=
  if String.eqb pattern "*" then true
  else
    let lower_text := transform_tolower text in
    let lower_pattern := transform_tolower pattern in
    match find lower_text lower_pattern with
    | Some _ => true
    | None => false
    end.

Section TestManagerImpl.

Context {World : Type} {platform : Platform World}.

(** TestManager::getTestCount, getTestNames, getTest *)
Definition getTestCount (m : TestManager) : nat := List.length (tests_ m).

Definition getTestNames (m : TestManager) (hp : handle -> BaseTest World)
  : list string :=
  map (fun h => getName (hp h)) (tests_ m).

Definition getTest (m : TestManager) (hp : handle -> BaseTest World)
    (nm : string) : option handle :=
  List.find (fun h => String.eqb (getName (hp h)) nm) (tests_ m).

(** TestManager::executeTest *)
Definition executeTest (test : option handle) : M World bool :=
  match test with
  | None => ret false
  | Some h =>
      start_time <- now_ms ;;
      r <- run h ;;
      end_time <- now_ms ;;
      ret (TestResult_eqb r PASSED)
  end.

(** The loop shared, verbatim, by TestManager::runAllTests and
    TestManager::runTestsMatching; the first component is
    [all_passed]. *)
Fixpoint run_each (m : TestManager) (ts : list handle) (all_passed : bool)
  : M World (bool * TestManager) :=
  match ts with
  | [] => ret (all_passed, m)
  | test :: rest =>
      test_passed <- executeTest (Some test) ;;
      if negb test_passed then
        t <- deref test ;;
        let m' := updateOverallResult m (result (getStatus t)) in
        if stop_on_first_failure_ m' then ret (false, m')
        else run_each m' rest false
      else run_each m rest all_passed
  end.

(** TestManager::runAllTests *)
Definition runAllTests (m : TestManager) : M World (bool * TestManager) :=
  match tests_ m with
  | [] => ret (true, set_overall_result_ m SKIPPED)
  | _ :: _ =>
      t0 <- now_ms ;;
      let m1 := set_overall_result_ (set_execution_start_time_ m t0) PASSED in
      r <- run_each m1 (tests_ m1) true ;;
      t1 <- now_ms ;;
      ret (fst r, set_execution_end_time_ (snd r) t1)
  end.

(** TestManager::runTest *)
Definition runTest (m : TestManager) (test_name : string)
  : M World (bool * TestManager) :=
  fun s =>
    match List.find (fun h => String.eqb (getName (heap s h)) test_name)
                    (tests_ m) with
    | None => (false, m, s)
    | Some it =>
        (t0 <- now_ms ;;
         r <- executeTest (Some it) ;;
         t1 <- now_ms ;;
         ret (r, set_execution_end_time_
                   (set_execution_start_time_ m t0) t1)) s
    end.

(** The first loop of TestManager::runTestsMatching: [matching_tests]. *)
Definition matching_tests (m : TestManager) (hp : handle -> BaseTest World)
    (pattern : string) : list handle :=
  filter (fun h => matchesPattern (getName (hp h)) pattern) (tests_ m).

(** TestManager::runTestsMatching *)
Definition runTestsMatching (m : TestManager) (pattern : string)
  : M World (bool * TestManager) :=
  fun s =>
    match matching_tests m (heap s) pattern with
    | [] => (true, m, s)
    | (_ :: _) as matching =>
        (t0 <- now_ms ;;
         let m1 :=
           set_overall_result_ (set_execution_start_time_ m t0) PASSED in
         r <- run_each m1 matching true ;;
         t1 <- now_ms ;;
         ret (fst r, set_execution_end_time_ (snd r) t1)) s
    end.

(** The flags of TestManager::getOverallResult:
    [has_failures], [has_timeouts], [all_passed]. *)
Definition overall_flags (hp : handle -> BaseTest World)
    (acc : bool * bool * bool) (test : handle) : bool * bool * bool :=
  let '(has_failures, has_timeouts, all_passed) := acc in
  match result (getStatus (hp test)) with
  | FAILED => (true, has_timeouts, false)
  | TIMEOUT => (has_failures, true, false)
  | NOT_RUN | RUNNING | SKIPPED => (has_failures, has_timeouts, false)
  | PASSED => (has_failures, has_timeouts, all_passed)
  end.

(** TestManager::getOverallResult *)
Definition getOverallResult (m : TestManager) (hp : handle -> BaseTest World)
  : TestResult :=
  match tests_ m with
  | [] => NOT_RUN
  | _ :: _ =>
      let '(has_failures, has_timeouts, all_passed) :=
        fold_left (overall_flags hp) (tests_ m) (false, false, true) in
      if has_failures then FAILED
      else if has_timeouts then TIMEOUT
      else if all_passed then PASSED
      else SKIPPED
  end.

(** The body of the loop of TestManager::getStatistics. *)
Definition count_test (hp : handle -> BaseTest World)
    (stats : TestStatistics) (test : handle) : TestStatistics :=
  let status := getStatus (hp test) in
  let total := wrap32 (total_duration_ms stats + duration_ms status) in
  let bump (r : TestResult) (n : Z) : Z :=
    if TestResult_eqb (result status) r then wrap32 (n + 1) else n in
  {| total_tests := total_tests stats;
     passed_tests := bump PASSED (passed_tests stats);
     failed_tests := bump FAILED (failed_tests stats);
     skipped_tests := bump SKIPPED (skipped_tests stats);
     timeout_tests := bump TIMEOUT (timeout_tests stats);
     total_duration_ms := total;
     success_rate := success_rate stats |}.

(** TestManager::getStatistics *)
Definition getStatistics (m : TestManager) (hp : handle -> BaseTest World)
  : TestStatistics :=
  let stats0 :=
    {| total_tests := wrap32 (Z.of_nat (List.length (tests_ m)));
       passed_tests := 0; failed_tests := 0; skipped_tests := 0;
       timeout_tests := 0; total_duration_ms := 0;
       success_rate := float_zero |} in
  let stats := fold_left (count_test hp) (tests_ m) stats0 in
  if (0 <? total_tests stats)%Z then
    {| total_tests := total_tests stats;
       passed_tests := passed_tests stats;
       failed_tests := failed_tests stats;
       skipped_tests := skipped_tests stats;
       timeout_tests := timeout_tests stats;
       total_duration_ms := total_duration_ms stats;
       success_rate :=
         float_mul
           (float_div (float_of_uint32 (passed_tests stats))
                      (float_of_uint32 (total_tests stats)))
           float_100 |}
  else stats.

End TestManagerImpl.

(** ** Reference definitions used by the statements *)

Section Reference.

Context {World : Type} {platform : Platform World}.

(** Handing every step of a sequence to [executeStep], in declaration
    order and whatever the outcomes. *)
Fixpoint attempt_all (steps : list (TestStep World))
  : M World (list esp_err_t) :=
  match steps with
  | [] => ret []
  | step :: rest =>
      emit (EvStep (name step)) ;;
      r <- executeStep step ;;
      rs <- attempt_all rest ;;
      ret (r :: rs)
  end.

(** No step of the sequence that is critical has failed. *)
Definition no_critical_failure (steps : list (TestStep World))
    (rs : list esp_err_t) : Prop :=
  Forall2 (fun step r => critical step = true -> r = ESP_OK) steps rs.

(** What a step sequence amounts to, read off the steps alone: the
    value returned, the environment left and the calls logged. Steps
    are taken in order up to the first critical one that fails; a step
    without action counts as failed with [ESP_ERR_INVALID_ARG]. *)
Fixpoint steps_outcome (steps : list (TestStep World)) (w : World)
  : esp_err_t * World * list Event :=
  match steps with
  | [] => (ESP_OK, w, [])
  | step :: rest =>
      let '(r, w1, called) :=
        match execute step with
        | None => (ESP_ERR_INVALID_ARG, w, [])
        | Some f => (fst (f w), snd (f w), [EvAction (name step)])
        end in
      if negb (Z.eqb r ESP_OK) && critical step
      then (r, w1, EvStep (name step) :: called)
      else
        let '(r', w', l) := steps_outcome rest w1 in
        (r', w', EvStep (name step) :: called ++ l)
  end.

(** What the body of a phase amounts to on an object with the given
    steps, in the given environment. *)
Record Outcome : Type := mkOutcome {
  out_code : esp_err_t;                   (* the value returned *)
  out_world : World;                      (* the environment left *)
  out_steps : list (TestStep World);      (* the steps of the object *)
  out_log : list Event                    (* the calls logged *)
}.

Fixpoint phase_outcome (p : Phase World) (steps : list (TestStep World))
    (w : World) : Outcome :=
  match p with
  | Return r =>
      {| out_code := r; out_world := w; out_steps := steps; out_log := [] |}
  | Call f k => phase_outcome (k (fst (f w))) steps (snd (f w))
  | AddStep nm step tmo crit k =>
      phase_outcome k
        (steps ++ [{| name := nm; execute := step; timeout_ms := tmo;
                      critical := crit |}]) w
  | RunSteps k =>
      let '(r, w', l) := steps_outcome steps w in
      let o := phase_outcome (k r) steps w' in
      {| out_code := out_code o; out_world := out_world o;
         out_steps := out_steps o; out_log := l ++ out_log o |}
  end.

(** The outcomes of [setup()], [execute()] and [teardown()] called one
    after the other on an object, each on the steps and the environment
    the one before left. *)
Definition setup_outcome (t : BaseTest World) (w : World) : Outcome :=
  phase_outcome (v_setup t) (test_steps_ t) w.

Definition execute_outcome (t : BaseTest World) (w : World) : Outcome :=
  let o1 := setup_outcome t w in
  phase_outcome (v_execute t) (out_steps o1) (out_world o1).

Definition teardown_outcome (t : BaseTest World) (w : World) : Outcome :=
  let o2 := execute_outcome t w in
  phase_outcome (v_teardown t) (out_steps o2) (out_world o2).

(** Where a machine stands with respect to the one [run] started from:
    the environment, the calls logged since, and the status and steps
    of the object [run] works on; nothing else differs. *)
Definition at_point (this : handle) (s s' : Machine World) (w : World)
    (log : list Event) (st : TestStatus) (steps : list (TestStep World))
  : Prop :=
  world s' = w /\
  events s' = events s ++ log /\
  forall k : handle,
    heap s' k =
      if Nat.eqb k this
      then with_test_steps (with_status (heap s this) st) steps
      else heap s k.

(** The events of step sequences: [executeStep] called, action
    invoked. *)
Definition is_step_event (e : Event) : bool :=
  match e with EvStep _ | EvAction _ => true | _ => false end.

(** Running every test of a list, in order and whatever the results. *)
Fixpoint run_in_order (ts : list handle) : M World (list TestResult) :=
  match ts with
  | [] => ret []
  | h :: rest =>
      r <- run h ;;
      rs <- run_in_order rest ;;
      ret (r :: rs)
  end.

(** The result recorded in the status of a test object. *)
Definition result_of (hp : handle -> BaseTest World) (h : handle)
  : TestResult :=
  result (getStatus (hp h)).

(** The tracked overall result agrees with the results recorded by the
    tests of a list: [PASSED] with all of them passed, or [FAILED] with
    one of them failed. *)
Definition tracked_agrees (m : TestManager) (hp : handle -> BaseTest World)
    (l : list handle) : Prop :=
  (overall_result_ m = PASSED /\
   Forall (fun k => result_of hp k = PASSED) l) \/
  (overall_result_ m = FAILED /\
   Exists (fun k => result_of hp k = FAILED) l).

(** How many registry entries are in a given state. *)
Definition count_result (hp : handle -> BaseTest World) (r : TestResult)
    (l : list handle) : Z :=
  Z.of_nat (List.length
              (filter (fun h => TestResult_eqb (result_of hp h) r) l)).

(** The exact sum of the recorded durations. *)
Definition sum_durations (hp : handle -> BaseTest World) (l : list handle)
  : Z :=
  fold_right (fun h acc => duration_ms (getStatus (hp h)) + acc) 0 l.

End Reference.

(** The name contains the pattern, letter case being ignored. *)
Definition contains_ci (text pattern : string) : Prop :=
  exists pre post : string,
    transform_tolower text =
    (pre ++ transform_tolower pattern ++ post)%string.

(** ** A concrete platform and registry

    The environment is the number of calls made into it so far; a tick
    lasts ten milliseconds. *)

Module Demo.

#[global] Instance platform : Platform nat :=
  {| xTaskGetTickCount := Z.of_nat; portTICK_PERIOD_MS := 10 |}.

Definition succeed : Action nat := fun w => (ESP_OK, S w).
Definition fail : Action nat := fun w => (ESP_FAIL, S w).

(** Fails as long as fewer than [n] calls were made. *)
Definition fails_before (n : nat) : Action nat :=
  fun w => (if (w <? n)%nat then ESP_FAIL else ESP_OK, S w).

Definition bno055 : BaseTest nat :=
  BaseTest_new "BNO055" "orientation sensor"
    (body succeed) (body succeed) (body succeed).
Definition psram : BaseTest nat :=
  BaseTest_new "PSRAM" "external memory"
    (body succeed) (body fail) (body succeed).
Definition wifi : BaseTest nat :=
  BaseTest_new "WiFi" "network association"
    (body succeed) (body succeed) (body succeed).
Definition broken : BaseTest nat :=
  BaseTest_new "broken" "setup fails"
    (body fail) (body succeed) (body succeed).
Definition flaky : BaseTest nat :=
  BaseTest_new "flaky" "passes on the second run"
    (body succeed) (body (fails_before 3)) (body succeed).

(** Objects 0, 1 and 2 pass, fail and pass. *)
Definition objects (h : handle) : BaseTest nat :=
  match h with
  | 0%nat => bno055
  | 1%nat => psram
  | 2%nat => wifi
  | 3%nat => broken
  | _ => flaky
  end.

Definition machine : Machine nat :=
  {| world := 0%nat; heap := objects; events := [] |}.

Definition manager : TestManager :=
  addTest (addTest (addTest TestManager_new (Some 0%nat)) (Some 1%nat))
          (Some 2%nat).

(** The same object registered twice. *)
Definition manager_twice : TestManager :=
  addTest (addTest TestManager_new (Some 4%nat)) (Some 4%nat).

(** The first object registered again after the second. *)
Definition manager_again : TestManager :=
  addTest (addTest (addTest TestManager_new (Some 0%nat)) (Some 1%nat))
          (Some 0%nat).

(** Step sequences: [A(critical), B(critical, fails), C(critical)] and
    [A(non-critical, fails), B(critical)]. *)
Definition steps_abc : list (TestStep nat) :=
  [ {| name := "A"; execute := Some succeed; timeout_ms := 5000;
       critical := true |};
    {| name := "B"; execute := Some fail; timeout_ms := 5000;
       critical := true |};
    {| name := "C"; execute := Some succeed; timeout_ms := 5000;
       critical := true |} ].

Definition steps_ab : list (TestStep nat) :=
  [ {| name := "A"; execute := Some fail; timeout_ms := 5000;
       critical := false |};
    {| name := "B"; execute := Some succeed; timeout_ms := 5000;
       critical := true |} ].

Definition unbound_step : TestStep nat :=
  {| name := "unbound"; execute := None; timeout_ms := 5000;
     critical := true |}.

Definition with_steps (steps : list (TestStep nat)) : Machine nat :=
  {| world := 0%nat;
     heap := fun _ =>
       {| test_name_ := "steps"; test_description_ := "";
          status_ := status_ bno055; test_steps_ := steps;
          v_setup := body succeed; v_execute := body succeed;
          v_teardown := body succeed |};
     events := [] |}.

(** Two tests that each ran for 2^31 ms. *)
Definition long_status : TestStatus :=
  {| result := PASSED; message := "Test completed successfully";
     duration_ms := 2147483648; start_time := 0; error_code := 0 |}.

Definition long_objects (h : handle) : BaseTest nat :=
  with_status bno055 long_status.

Definition manager_two : TestManager :=
  addTest (addTest TestManager_new (Some 0%nat)) (Some 1%nat).

End Demo.

(** ** The rest of base_test.cpp and test_manager.cpp *)

(** BaseTest::resultToString; the [default] branch is out of reach of
    the six values of the enumeration. *)
Definition resultToString (r : TestResult) : string :=
  match r with
  | NOT_RUN => "NOT_RUN"
  | RUNNING => "RUNNING"
  | PASSED => "PASSED"
  | FAILED => "FAILED"
  | SKIPPED => "SKIPPED"
  | TIMEOUT => "TIMEOUT"
  end.

(** The escape character of the colour sequences. *)
Definition ESC : ascii := ascii_of_nat 27.

(** BaseTest::getResultColor, which is also
    TestManager::getResultColorCode. *)
Definition getResultColor (r : TestResult) : string :=
  match r with
  | PASSED => String ESC "[32m"
  | FAILED => String ESC "[31m"
  | RUNNING => String ESC "[33m"
  | TIMEOUT => String ESC "[35m"
  | SKIPPED => String ESC "[36m"
  | NOT_RUN => String ESC "[37m"
  end.

Definition getResultColorCode (r : TestResult) : string := getResultColor r.

(** A string given by its bytes. *)
Fixpoint string_of_bytes (l : list nat) : string :=
  match l with
  | [] => EmptyString
  | b :: rest => String (ascii_of_nat b) (string_of_bytes rest)
  end.

(** TestManager::getResultIcon: the UTF-8 encodings of a check mark, a
    ballot x, an hourglass, an alarm clock, a circled minus and a white
    circle. *)
Definition getResultIcon (r : TestResult) : string :=
  match r with
  | PASSED => string_of_bytes [226; 156; 147]%nat
  | FAILED => string_of_bytes [226; 156; 151]%nat
  | RUNNING => string_of_bytes [226; 143; 179]%nat
  | TIMEOUT => string_of_bytes [226; 143; 176]%nat
  | SKIPPED => string_of_bytes [226; 138; 157]%nat
  | NOT_RUN => string_of_bytes [226; 151; 139]%nat
  end.

Section MoreImpl.

Context {World : Type} {platform : Platform World}.

(** The clock reading [xTaskGetTickCount() * portTICK_PERIOD_MS] of an
    environment. *)
Definition clock_ms (w : World) : Z :=
  wrap32 (xTaskGetTickCount w * portTICK_PERIOD_MS).

(** TestManager::checkTestTimeout *)
Definition checkTestTimeout (m : TestManager) (test : option handle)
    (start_time : Z) : M World bool :=
  current_time <- now_ms ;;
  ret (test_timeout_ms_ m <? wrap32 (current_time - start_time)).

(** The verdicts of a list of results under
    TestManager::updateOverallResult, from the first on. *)
Definition update_all (m : TestManager) (rs : list TestResult)
  : TestManager :=
  fold_left updateOverallResult rs m.

(** ** test_main.cpp *)

(** [test_execution_task], from the creation of the manager to the final
    statistics: the two tests are the objects made and configured for
    the task, the value of [runAllTests()] is dropped, and the verdict
    logged is the one of [getOverallResult()]. The delay before and the
    idle loop after are not part of it. *)
Definition test_execution_task (psram_test bno055_test : handle)
  : M World (TestResult * TestStatistics) :=
  let test_manager := TestManager_new in
  let test_manager := setStopOnFirstFailure test_manager false in
  let test_manager := setTestTimeout test_manager 300000 in
  let test_manager := addTest test_manager (Some psram_test) in
  let test_manager := addTest test_manager (Some bno055_test) in
  r <- runAllTests test_manager ;;
  fun s =>
    let test_manager := snd r in
    let overall_result := getOverallResult test_manager (heap s) in
    let stats := getStatistics test_manager (heap s) in
    (overall_result, stats, s).

End MoreImpl.

(** ** bno055.h, bno055.c: the driver of the orientation sensor

    The I2C driver of ESP-IDF is the environment: a transaction is the
    list of the commands linked into it, and the bus answers with a
    result code and the bytes delivered to the read commands, in
    order. *)

Definition ESP_ERR_INVALID_STATE : esp_err_t := 259. (* 0x103 *)
Definition ESP_ERR_NOT_FOUND : esp_err_t := 261.     (* 0x105 *)

Module Bno055.

Definition BNO055_I2C_ADDR : Z := 40.                     (* 0x28 *)
Definition BNO055_CHIP_ID_ADDR : Z := 0.
Definition BNO055_OPR_MODE_ADDR : Z := 61.                (* 0x3D *)
Definition BNO055_PWR_MODE_ADDR : Z := 62.                (* 0x3E *)
Definition BNO055_SYS_TRIGGER_ADDR : Z := 63.             (* 0x3F *)
Definition BNO055_QUATERNION_DATA_W_LSB_ADDR : Z := 32.   (* 0x20 *)

Definition BNO055_OPERATION_MODE_CONFIG : Z := 0.
Definition BNO055_OPERATION_MODE_NDOF : Z := 12.          (* 0x0C *)

(** [driver/i2c.h] *)
Definition I2C_NUM_0 : Z := 0.
Definition I2C_MODE_MASTER : Z := 1.
Definition I2C_MASTER_WRITE : Z := 0.
Definition I2C_MASTER_READ : Z := 1.
Definition GPIO_PULLUP_ENABLE : Z := 1.

Inductive i2c_ack_type_t : Set := I2C_MASTER_ACK | I2C_MASTER_NACK.

Inductive i2c_cmd : Set :=
| I2cStart
| I2cWriteByte (data : Z) (ack_en : bool)
| I2cReadByte (ack : i2c_ack_type_t)
| I2cStop.

Record i2c_config_t : Set := {
  mode : Z;
  sda_io_num : Z;
  scl_io_num : Z;
  sda_pullup_en : Z;
  scl_pullup_en : Z;
  clk_speed : Z
}.

Record bno055_config_t : Set := {
  i2c_port : Z;
  sda_pin : Z;
  scl_pin : Z;
  i2c_freq : Z;
  i2c_addr : Z
}.

Record bno055_quaternion_t : Set := {
  w : spec_float;
  x : spec_float;
  y : spec_float;
  z : spec_float
}.

(** The static variables of bno055.c. *)
Record driver : Set := {
  bno055_i2c_port : Z;
  bno055_i2c_addr : Z;
  bno055_initialized : bool
}.

Definition driver_initial : driver :=
  {| bno055_i2c_port := I2C_NUM_0; bno055_i2c_addr := BNO055_I2C_ADDR;
     bno055_initialized := false |}.

Class I2cBus (Bus : Type) : Type := {
  i2c_param_config : Z -> i2c_config_t -> Bus -> esp_err_t * Bus;
  i2c_driver_install : Z -> Z -> Bus -> esp_err_t * Bus;
  i2c_driver_delete : Z -> Bus -> esp_err_t * Bus;
  i2c_master_cmd_begin :
    Z -> list i2c_cmd -> Z -> Bus -> esp_err_t * (nat -> Z) * Bus;
  vTaskDelay : Z -> Bus -> Bus
}.

(** [i2c_master_write_byte] takes a [uint8_t]. *)
Definition i2c_master_write_byte (cmd : list i2c_cmd) (data : Z)
    (ack_en : bool) : list i2c_cmd :=
  cmd ++ [I2cWriteByte (data mod 256) ack_en].

Definition i2c_master_read_byte (cmd : list i2c_cmd) (ack : i2c_ack_type_t)
  : list i2c_cmd :=
  cmd ++ [I2cReadByte ack].

(** The [for] loop of [bno055_read_burst], [n] iterations. *)
Fixpoint read_ack_loop (cmd : list i2c_cmd) (n : nat) : list i2c_cmd :=
  match n with
  | O => cmd
  | S k => read_ack_loop (i2c_master_read_byte cmd I2C_MASTER_ACK) k
  end.

(** [(int16_t)((msb << 8) | lsb)] *)
Definition to_int16 (v : Z) : Z :=
  let u := v mod 65536 in if u <? 32768 then u else u - 65536.

Definition int16_of_bytes (lsb msb : Z) : Z :=
  to_int16 (Z.lor (Z.shiftl msb 8) lsb).

(** Conversion of an [int] to [float], and [1.0f / 16384.0f]. *)
Definition float_of_int (v : Z) : spec_float := binary_normalize 24 128 v 0 false.
Definition scale : spec_float :=
  float_div (float_of_int 1) (float_of_int 16384).

Section Driver.

Context {Bus : Type} {platform : Platform Bus} {i2c : I2cBus Bus}.

(** bno055_write_reg *)
Definition bno055_write_reg (reg_addr data : Z) (d : driver) (bus : Bus)
  : esp_err_t * Bus :=
  if negb (bno055_initialized d) then (ESP_ERR_INVALID_STATE, bus)
  else
    let cmd := [I2cStart] in
    let cmd :=
      i2c_master_write_byte cmd
        (Z.lor (Z.shiftl (bno055_i2c_addr d) 1) I2C_MASTER_WRITE) true in
    let cmd := i2c_master_write_byte cmd reg_addr true in
    let cmd := i2c_master_write_byte cmd data true in
    let cmd := cmd ++ [I2cStop] in
    let '(ret, _, bus) :=
      i2c_master_cmd_begin (bno055_i2c_port d) cmd
        (100 / portTICK_PERIOD_MS) bus in
    (ret, bus).

(** The transaction of bno055_read_burst for [len] bytes. *)
Definition read_burst_cmd (d : driver) (reg_addr : Z) (len : Z)
  : list i2c_cmd :=
  let cmd := [I2cStart] in
  let cmd :=
    i2c_master_write_byte cmd
      (Z.lor (Z.shiftl (bno055_i2c_addr d) 1) I2C_MASTER_WRITE) true in
  let cmd := i2c_master_write_byte cmd reg_addr true in
  let cmd := cmd ++ [I2cStart] in
  let cmd :=
    i2c_master_write_byte cmd
      (Z.lor (Z.shiftl (bno055_i2c_addr d) 1) I2C_MASTER_READ) true in
  let cmd := read_ack_loop cmd (Z.to_nat (len - 1)) in
  let cmd := i2c_master_read_byte cmd I2C_MASTER_NACK in
  cmd ++ [I2cStop].

(** bno055_read_reg; [data] tells whether the pointer is not null, and
    the byte is what the transaction stored there. *)
Definition bno055_read_reg (reg_addr : Z) (data : bool) (d : driver)
    (bus : Bus) : esp_err_t * option Z * Bus :=
  if negb (bno055_initialized d) || negb data
  then (ESP_ERR_INVALID_ARG, None, bus)
  else
    let cmd := [I2cStart] in
    let cmd :=
      i2c_master_write_byte cmd
        (Z.lor (Z.shiftl (bno055_i2c_addr d) 1) I2C_MASTER_WRITE) true in
    let cmd := i2c_master_write_byte cmd reg_addr true in
    let cmd := cmd ++ [I2cStart] in
    let cmd :=
      i2c_master_write_byte cmd
        (Z.lor (Z.shiftl (bno055_i2c_addr d) 1) I2C_MASTER_READ) true in
    let cmd := i2c_master_read_byte cmd I2C_MASTER_NACK in
    let cmd := cmd ++ [I2cStop] in
    let '(ret, bytes, bus) :=
      i2c_master_cmd_begin (bno055_i2c_port d) cmd
        (100 / portTICK_PERIOD_MS) bus in
    (ret, Some (bytes 0%nat mod 256), bus).

(** bno055_read_burst; the list is what the transaction stored in
    [data[0 .. len-1]]. *)
Definition bno055_read_burst (reg_addr : Z) (data : bool) (len : Z)
    (d : driver) (bus : Bus) : esp_err_t * list Z * Bus :=
  if negb (bno055_initialized d) || negb data || (len =? 0)
  then (ESP_ERR_INVALID_ARG, [], bus)
  else
    let '(ret, bytes, bus) :=
      i2c_master_cmd_begin (bno055_i2c_port d)
        (read_burst_cmd d reg_addr len) (200 / portTICK_PERIOD_MS) bus in
    (ret, map (fun i => bytes i mod 256) (seq 0 (Z.to_nat len)), bus).

(** bno055_deinit *)
Definition bno055_deinit (port : Z) (d : driver) (bus : Bus)
  : esp_err_t * driver * Bus :=
  let (ret, bus) := i2c_driver_delete port bus in
  (ret,
   {| bno055_i2c_port := bno055_i2c_port d;
      bno055_i2c_addr := bno055_i2c_addr d;
      bno055_initialized := false |},
   bus).

(** bno055_set_mode *)
Definition bno055_set_mode (opmode : Z) (d : driver) (bus : Bus)
  : esp_err_t * Bus :=
  let (ret, bus) := bno055_write_reg BNO055_OPR_MODE_ADDR opmode d bus in
  if negb (ret =? ESP_OK) then (ret, bus)
  else if opmode =? BNO055_OPERATION_MODE_CONFIG
       then (ESP_OK, vTaskDelay (19 / portTICK_PERIOD_MS) bus)
       else (ESP_OK, vTaskDelay (7 / portTICK_PERIOD_MS) bus).

(** bno055_set_power_mode *)
Definition bno055_set_power_mode (power_mode : Z) (d : driver) (bus : Bus)
  : esp_err_t * Bus :=
  bno055_write_reg BNO055_PWR_MODE_ADDR power_mode d bus.

(** bno055_reset *)
Definition bno055_reset (d : driver) (bus : Bus) : esp_err_t * Bus :=
  let (ret, bus) := bno055_set_mode BNO055_OPERATION_MODE_CONFIG d bus in
  if negb (ret =? ESP_OK) then (ret, bus)
  else
    let (ret, bus) := bno055_write_reg BNO055_SYS_TRIGGER_ADDR 32 d bus in
    if negb (ret =? ESP_OK) then (ret, bus)
    else (ESP_OK, vTaskDelay (1000 / portTICK_PERIOD_MS) bus).

(** bno055_get_chip_id *)
Definition bno055_get_chip_id (chip_id : bool) (d : driver) (bus : Bus)
  : esp_err_t * option Z * Bus :=
  bno055_read_reg BNO055_CHIP_ID_ADDR chip_id d bus.

(** bno055_init; a null [config] is [None]. *)
Definition bno055_init (config : option bno055_config_t) (d : driver)
    (bus : Bus) : esp_err_t * driver * Bus :=
  match config with
  | None => (ESP_ERR_INVALID_ARG, d, bus)
  | Some config =>
      let d := {| bno055_i2c_port := i2c_port config;
                  bno055_i2c_addr := i2c_addr config mod 256;
                  bno055_initialized := bno055_initialized d |} in
      let i2c_config :=
        {| mode := I2C_MODE_MASTER;
           sda_io_num := sda_pin config;
           scl_io_num := scl_pin config;
           sda_pullup_en := GPIO_PULLUP_ENABLE;
           scl_pullup_en := GPIO_PULLUP_ENABLE;
           clk_speed := i2c_freq config |} in
      let (ret, bus) := i2c_param_config (bno055_i2c_port d) i2c_config bus in
      if negb (ret =? ESP_OK) then (ret, d, bus)
      else
        let (ret, bus) :=
          i2c_driver_install (bno055_i2c_port d) I2C_MODE_MASTER bus in
        if negb (ret =? ESP_OK) then (ret, d, bus)
        else
          let d := {| bno055_i2c_port := bno055_i2c_port d;
                      bno055_i2c_addr := bno055_i2c_addr d;
                      bno055_initialized := true |} in
          let bus := vTaskDelay (100 / portTICK_PERIOD_MS) bus in
          let '(ret, chip_id, bus) := bno055_get_chip_id true d bus in
          if negb (ret =? ESP_OK) then
            let '(_, d, bus) := bno055_deinit (bno055_i2c_port d) d bus in
            (ret, d, bus)
          else if negb (match chip_id with
                        | Some id => id =? 160
                        | None => false
                        end) then
            let '(_, d, bus) := bno055_deinit (bno055_i2c_port d) d bus in
            (ESP_ERR_NOT_FOUND, d, bus)
          else
            let (ret, bus) := bno055_reset d bus in
            if negb (ret =? ESP_OK) then
              let '(_, d, bus) := bno055_deinit (bno055_i2c_port d) d bus in
              (ret, d, bus)
            else
              let (ret, bus) :=
                bno055_set_mode BNO055_OPERATION_MODE_NDOF d bus in
              if negb (ret =? ESP_OK) then
                let '(_, d, bus) :=
                  bno055_deinit (bno055_i2c_port d) d bus in
                (ret, d, bus)
              else (ESP_OK, d, bus)
  end.

(** The component of a quaternion from its two bytes:
    [(int16_t)((msb << 8) | lsb) * scale]. *)
Definition quat_component (lsb msb : Z) : spec_float :=
  float_mul (float_of_int (int16_of_bytes lsb msb)) scale.

(** bno055_get_quaternion; the quaternion is what is stored in [*quat],
    if anything. *)
Definition bno055_get_quaternion (quat : bool) (d : driver) (bus : Bus)
  : esp_err_t * option bno055_quaternion_t * Bus :=
  if negb quat then (ESP_ERR_INVALID_ARG, None, bus)
  else
    let '(ret, buffer, bus) :=
      bno055_read_burst BNO055_QUATERNION_DATA_W_LSB_ADDR true 8 d bus in
    if negb (ret =? ESP_OK) then (ret, None, bus)
    else
      let b (i : nat) := nth i buffer 0 in
      (ESP_OK,
       Some {| w := quat_component (b 0%nat) (b 1%nat);
               x := quat_component (b 2%nat) (b 3%nat);
               y := quat_component (b 4%nat) (b 5%nat);
               z := quat_component (b 6%nat) (b 7%nat) |},
       bus).

(** bno055_is_initialized *)
Definition bno055_is_initialized (d : driver) : bool := bno055_initialized d.

End Driver.

End Bno055.

(** The value of a single precision number, when it is finite. *)
Definition float_value (f : spec_float) : option Q :=
  match f with
  | S754_zero _ => Some 0%Q
  | S754_finite s m e =>
      let v := (inject_Z (Z.pos m) * Qpower 2 e)%Q in
      Some (if s then Qopp v else v)
  | _ => None
  end.

(** The signed 16-bit number whose two's complement is the bytes [lsb]
    and [msb], the least significant first. *)
Definition int16_le (lsb msb : Z) : Z :=
  lsb + 256 * msb - (if 128 <=? msb then 65536 else 0).

(** The number [f] is exactly the signed 16-bit number of the two bytes
    divided by 16384, which lies between -2 and 2. *)
Definition exact_component (f : spec_float) (lsb msb : Z) : Prop :=
  exists v : Q,
    float_value f = Some v /\
    (v == int16_le lsb msb # 16384)%Q /\
    (-2 <= v)%Q /\ (v < 2)%Q.

(** ** psram_test.cpp *)

(** The member functions of [PSRAMTest] that its phases and steps call;
    they act on the members of the class and on the heap allocator.
    [logMemoryInfo], which reads and logs only, is left out with the
    rest of the log output. *)
Class PSRAMTest_members (World : Type) : Type := {
  initializeHardwareInfo : Action World;
  checkPSRAMAvailability : Action World;
  verifyPSRAMSize : Action World;
  testPSRAMAllocation : Action World;
  testPSRAMReadWrite : Action World;
  measurePSRAMPerformance : Action World;
  cleanupTestBuffer : Action World;
  delete_hw_info : World -> World      (* delete hw_info_; hw_info_ = nullptr *)
}.

Section PSRAMTestPhases.

Context {World : Type} {members : PSRAMTest_members World}.


(** PSRAMTest::setup *)
Definition PSRAMTest_setup : Phase World :=
  Call initializeHardwareInfo (fun ret =>
  if negb (Z.eqb ret ESP_OK) then Return ret
  else
    AddStep "Check PSRAM availability" (Some checkPSRAMAvailability) 5000 true
   (AddStep "Verify PSRAM size" (Some verifyPSRAMSize) 5000 true
   (AddStep "Test PSRAM allocation" (Some testPSRAMAllocation) 5000 true
   (AddStep "Test PSRAM read/write" (Some testPSRAMReadWrite) 5000 true
   (AddStep "Measure PSRAM performance" (Some measurePSRAMPerformance)
      5000 true
   (Return ESP_OK)))))).

(** PSRAMTest::execute *)
Definition PSRAMTest_execute : Phase World :=
  RunSteps (fun ret =>
  if negb (Z.eqb ret ESP_OK) then Return ret else Return ESP_OK).

(** PSRAMTest::teardown; the value of [cleanupTestBuffer] is logged
    only, and [delete_hw_info] is the deletion guarded by
    [if (hw_info_)]. *)
Definition PSRAMTest_teardown : Phase World :=
  Call cleanupTestBuffer (fun _ =>
  Call (fun w => (ESP_OK, delete_hw_info w)) (fun _ =>
  Return ESP_OK)).

(** PSRAMTest::PSRAMTest *)
Definition PSRAMTest_new : BaseTest World :=
  BaseTest_new "PSRAM" "PSRAM memory verification and performance test"
    PSRAMTest_setup PSRAMTest_execute PSRAMTest_teardown.

End PSRAMTestPhases.

(** Conversion to [uint8_t]. *)
Definition to_uint8 (v : Z) : Z := v mod 256.

(** The loop of PSRAMTest::validateMemoryPattern from offset [i] on,
    over the bytes of the buffer; next to the code it yields the offset
    and the byte that are logged at a mismatch. *)
Fixpoint validateMemoryPattern_from (i : nat) (buffer : list Z)
    (pattern : Z) : esp_err_t * option (nat * Z) :=
  match buffer with
  | [] => (ESP_OK, None)
  | b :: rest =>
      if negb (b =? pattern) then (ESP_FAIL, Some (i, b))
      else validateMemoryPattern_from (S i) rest pattern
  end.

(** PSRAMTest::validateMemoryPattern; the parameter [pattern] is a
    [uint8_t], to which the argument is converted at the call. *)
Definition validateMemoryPattern (buffer : list Z) (pattern : Z)
  : esp_err_t * option (nat * Z) :=
  validateMemoryPattern_from 0 buffer (to_uint8 pattern).

(** [memset(buffer, value, size)] on a buffer of [size] bytes: the
    value is converted to [unsigned char]. *)
Definition memset (value : Z) (size : nat) : list Z :=
  repeat (value mod 256) size.

(** ** ros2_manager.h, ros2_manager.c: the messaging bridge

    The functions called from the application, each taken as one
    uninterrupted call; FreeRTOS is the environment and the registered
    callbacks act on it. Handles are numbers, zero being the null
    handle. *)

Definition ESP_ERR_NO_MEM : esp_err_t := 257.    (* 0x101 *)

Definition wrap64 (v : Z) : Z := v mod 2 ^ 64.

Module Ros2.

Inductive ros2_status_t : Set :=
| ROS2_STATUS_DISCONNECTED
| ROS2_STATUS_CONNECTING
| ROS2_STATUS_CONNECTED
| ROS2_STATUS_PUBLISHING
| ROS2_STATUS_SUBSCRIBING
| ROS2_STATUS_ERROR
| ROS2_STATUS_TIMEOUT.

Definition ros2_status_eqb (a b : ros2_status_t) : bool :=
  match a, b with
  | ROS2_STATUS_DISCONNECTED, ROS2_STATUS_DISCONNECTED
  | ROS2_STATUS_CONNECTING, ROS2_STATUS_CONNECTING
  | ROS2_STATUS_CONNECTED, ROS2_STATUS_CONNECTED
  | ROS2_STATUS_PUBLISHING, ROS2_STATUS_PUBLISHING
  | ROS2_STATUS_SUBSCRIBING, ROS2_STATUS_SUBSCRIBING
  | ROS2_STATUS_ERROR, ROS2_STATUS_ERROR
  | ROS2_STATUS_TIMEOUT, ROS2_STATUS_TIMEOUT => true
  | _, _ => false
  end.

Record ros2_imu_msg_t : Set := {
  seq : Z;
  timestamp_ns : Z;
  frame_id : string;
  orientation_x : spec_float;
  orientation_y : spec_float;
  orientation_z : spec_float;
  orientation_w : spec_float;
  orientation_covariance : list spec_float;
  angular_velocity_x : spec_float;
  angular_velocity_y : spec_float;
  angular_velocity_z : spec_float;
  angular_velocity_covariance : list spec_float;
  linear_acceleration_x : spec_float;
  linear_acceleration_y : spec_float;
  linear_acceleration_z : spec_float;
  linear_acceleration_covariance : list spec_float
}.

Record ros2_statistics_t : Set := {
  messages_published : Z;
  messages_received : Z;
  publish_errors : Z;
  receive_errors : Z;
  connection_attempts : Z;
  successful_connections : Z;
  disconnection_events : Z;
  total_uptime_ms : Z
}.

(** [-1.0f] *)
Definition float_minus_one : spec_float := SFopp (Bno055.float_of_int 1).

(** The loops that fill a covariance array:
    [(i % 4 == 0) ? -1.0f : 0.0f] for [i] from 0 to 8. *)
Definition unknown_covariance : list spec_float :=
  map (fun i => if (Z.of_nat i mod 4 =? 0) then float_minus_one
                else float_zero)
      (List.seq 0 9).

Class Rtos (Env : Type) : Type := {
  xTaskCreate : string -> Env -> bool * Z * Env;
  vTaskDelete : Z -> Env -> Env;
  xTimerStart : Z -> Env -> Env;
  xTimerStop : Z -> Env -> Env
}.

Section Manager.

Context {Env : Type} {platform : Platform Env} {rtos : Rtos Env}.

(** The static variables of ros2_manager.c that the functions below
    use. *)
Record manager : Type := {
  ros2_manager_initialized : bool;
  ros2_manager_started : bool;
  current_status : ros2_status_t;
  current_stats : ros2_statistics_t;
  connection_callback : option (ros2_status_t -> Env -> Env);
  publish_task_handle : Z;
  subscribe_task_handle : Z;
  connection_timer : Z;
  sequence_number : Z
}.

Definition with_disconnection_events (st : ros2_statistics_t) (v : Z)
  : ros2_statistics_t :=
  {| messages_published := messages_published st;
     messages_received := messages_received st;
     publish_errors := publish_errors st;
     receive_errors := receive_errors st;
     connection_attempts := connection_attempts st;
     successful_connections := successful_connections st;
     disconnection_events := v;
     total_uptime_ms := total_uptime_ms st |}.

Definition with_connection_attempts (st : ros2_statistics_t) (v : Z)
  : ros2_statistics_t :=
  {| messages_published := messages_published st;
     messages_received := messages_received st;
     publish_errors := publish_errors st;
     receive_errors := receive_errors st;
     connection_attempts := v;
     successful_connections := successful_connections st;
     disconnection_events := disconnection_events st;
     total_uptime_ms := total_uptime_ms st |}.

(** notify_status_change *)
Definition notify_status_change (new_status : ros2_status_t) (g : manager)
    (env : Env) : manager * Env :=
  if negb (ros2_status_eqb (current_status g) new_status) then
    let old_status := current_status g in
    let env :=
      match connection_callback g with
      | Some callback => callback new_status env
      | None => env
      end in
    let stats :=
      if negb (ros2_status_eqb old_status ROS2_STATUS_DISCONNECTED)
         && ros2_status_eqb new_status ROS2_STATUS_DISCONNECTED
      then with_disconnection_events (current_stats g)
             (wrap32 (disconnection_events (current_stats g) + 1))
      else current_stats g in
    ({| ros2_manager_initialized := ros2_manager_initialized g;
        ros2_manager_started := ros2_manager_started g;
        current_status := new_status;
        current_stats := stats;
        connection_callback := connection_callback g;
        publish_task_handle := publish_task_handle g;
        subscribe_task_handle := subscribe_task_handle g;
        connection_timer := connection_timer g;
        sequence_number := sequence_number g |}, env)
  else (g, env).

Definition set_tasks (g : manager) (started : bool) (pub sub : Z)
    (stats : ros2_statistics_t) : manager :=
  {| ros2_manager_initialized := ros2_manager_initialized g;
     ros2_manager_started := started;
     current_status := current_status g;
     current_stats := stats;
     connection_callback := connection_callback g;
     publish_task_handle := pub;
     subscribe_task_handle := sub;
     connection_timer := connection_timer g;
     sequence_number := sequence_number g |}.

(** ros2_manager_start *)
Definition ros2_manager_start (g : manager) (env : Env)
  : esp_err_t * manager * Env :=
  if negb (ros2_manager_initialized g) then (ESP_ERR_INVALID_STATE, g, env)
  else if ros2_manager_started g then (ESP_OK, g, env)
  else
    let (g, env) := notify_status_change ROS2_STATUS_CONNECTING g env in
    let '(passed, handle, env) := xTaskCreate "ros2_publish" env in
    if negb passed then (ESP_ERR_NO_MEM, g, env)
    else
      let g := set_tasks g (ros2_manager_started g) handle
                 (subscribe_task_handle g) (current_stats g) in
      let '(passed, handle, env) := xTaskCreate "ros2_subscribe" env in
      if negb passed then
        let env := vTaskDelete (publish_task_handle g) env in
        (ESP_ERR_NO_MEM,
         set_tasks g (ros2_manager_started g) 0 (subscribe_task_handle g)
           (current_stats g),
         env)
      else
        let g := set_tasks g (ros2_manager_started g) (publish_task_handle g)
                   handle (current_stats g) in
        let env := xTimerStart (connection_timer g) env in
        (ESP_OK,
         set_tasks g true (publish_task_handle g) (subscribe_task_handle g)
           (with_connection_attempts (current_stats g)
              (wrap32 (connection_attempts (current_stats g) + 1))),
         env).

(** ros2_manager_stop *)
Definition ros2_manager_stop (g : manager) (env : Env)
  : esp_err_t * manager * Env :=
  if negb (ros2_manager_started g) then (ESP_OK, g, env)
  else
    let env :=
      if negb (connection_timer g =? 0)
      then xTimerStop (connection_timer g) env else env in
    let env :=
      if negb (publish_task_handle g =? 0)
      then vTaskDelete (publish_task_handle g) env else env in
    let env :=
      if negb (subscribe_task_handle g =? 0)
      then vTaskDelete (subscribe_task_handle g) env else env in
    let g := set_tasks g false 0 0 (current_stats g) in
    let (g, env) := notify_status_change ROS2_STATUS_DISCONNECTED g env in
    (ESP_OK, g, env).

(** ros2_manager_is_connected *)
Definition ros2_manager_is_connected (g : manager) : bool :=
  ros2_status_eqb (current_status g) ROS2_STATUS_CONNECTED
  || ros2_status_eqb (current_status g) ROS2_STATUS_PUBLISHING
  || ros2_status_eqb (current_status g) ROS2_STATUS_SUBSCRIBING.

(** ros2_manager_bno055_to_imu_msg; [None] and [false] are the null
    pointers, and the message is what is stored in [*imu_msg]. *)
Definition ros2_manager_bno055_to_imu_msg
    (quat : option Bno055.bno055_quaternion_t) (imu_msg : bool)
    (g : manager) (env : Env) : esp_err_t * option ros2_imu_msg_t * manager :=
  match quat with
  | Some q =>
      if negb imu_msg then (ESP_ERR_INVALID_ARG, None, g)
      else
        (ESP_OK,
         Some {| seq := sequence_number g;
                 timestamp_ns :=
                   wrap64 (wrap32 (xTaskGetTickCount env * portTICK_PERIOD_MS)
                           * 1000000);
                 frame_id := "m5atom_imu";
                 orientation_x := Bno055.x q;
                 orientation_y := Bno055.y q;
                 orientation_z := Bno055.z q;
                 orientation_w := Bno055.w q;
                 orientation_covariance := unknown_covariance;
                 angular_velocity_x := float_zero;
                 angular_velocity_y := float_zero;
                 angular_velocity_z := float_zero;
                 angular_velocity_covariance := unknown_covariance;
                 linear_acceleration_x := float_zero;
                 linear_acceleration_y := float_zero;
                 linear_acceleration_z := float_zero;
                 linear_acceleration_covariance := unknown_covariance |},
         {| ros2_manager_initialized := ros2_manager_initialized g;
            ros2_manager_started := ros2_manager_started g;
            current_status := current_status g;
            current_stats := current_stats g;
            connection_callback := connection_callback g;
            publish_task_handle := publish_task_handle g;
            subscribe_task_handle := subscribe_task_handle g;
            connection_timer := connection_timer g;
            sequence_number := wrap32 (sequence_number g + 1) |})
  | None => (ESP_ERR_INVALID_ARG, None, g)
  end.

(** A series of notifications, one after the other. *)
Fixpoint notify_each (l : list ros2_status_t) (g : manager) (env : Env)
  : manager * Env :=
  match l with
  | [] => (g, env)
  | n :: rest =>
      let (g, env) := notify_status_change n g env in
      notify_each rest g env
  end.

End Manager.

(** The notifications of a series that change the status, from the
    status [cur] on. *)
Fixpoint changes (cur : ros2_status_t) (l : list ros2_status_t)
  : list ros2_status_t :=
  match l with
  | [] => []
  | n :: rest =>
      if ros2_status_eqb cur n then changes cur rest
      else n :: changes n rest
  end.

End Ros2.

Arguments Ros2.manager Env : clear implicits.

(** ** A concrete bus

    Every transaction succeeds and every byte read is 0xA0; the bus
    counts the transactions. *)

Module DemoBus.

#[global] Instance bus : Bno055.I2cBus nat :=
  {| Bno055.i2c_param_config := fun _ _ b => (ESP_OK, b);
     Bno055.i2c_driver_install := fun _ _ b => (ESP_OK, b);
     Bno055.i2c_driver_delete := fun _ b => (ESP_OK, b);
     Bno055.i2c_master_cmd_begin := fun _ _ _ b => (ESP_OK, fun _ => 160, S b);
     Bno055.vTaskDelay := fun _ b => b |}.

Definition config : Bno055.bno055_config_t :=
  {| Bno055.i2c_port := 0; Bno055.sda_pin := 2; Bno055.scl_pin := 1;
     Bno055.i2c_freq := 100000; Bno055.i2c_addr := 40 |}.

Definition ready : Bno055.driver :=
  {| Bno055.bno055_i2c_port := 0; Bno055.bno055_i2c_addr := 40;
     Bno055.bno055_initialized := true |}.

(** A bus on which the sensor answers a burst with the bytes of the
    quaternion (1, 1/16384, -1/16384, -1). *)
Definition quaternion_bus : Bno055.I2cBus nat :=
  {| Bno055.i2c_param_config := fun _ _ b => (ESP_OK, b);
     Bno055.i2c_driver_install := fun _ _ b => (ESP_OK, b);
     Bno055.i2c_driver_delete := fun _ b => (ESP_OK, b);
     Bno055.i2c_master_cmd_begin := fun _ _ _ b =>
       (ESP_OK, fun i => nth i [0; 64; 1; 0; 255; 255; 0; 192] 0, S b);
     Bno055.vTaskDelay := fun _ b => b |}.

(** The machine of [Demo] when the clock reads 50 ms. *)
Definition machine_at_50 : Machine nat :=
  {| world := 5%nat; heap := Demo.objects; events := [] |}.

End DemoBus.

(** ** A concrete task scheduler

    Every task is created, with handle 7; the environment counts the
    calls made into it, also by the connection callback. *)

Module DemoRtos.

#[global] Instance rtos : Ros2.Rtos nat :=
  {| Ros2.xTaskCreate := fun _ e => (true, 7, S e);
     Ros2.vTaskDelete := fun _ e => S e;
     Ros2.xTimerStart := fun _ e => S e;
     Ros2.xTimerStop := fun _ e => S e |}.

Definition no_statistics : Ros2.ros2_statistics_t :=
  {| Ros2.messages_published := 0; Ros2.messages_received := 0;
     Ros2.publish_errors := 0; Ros2.receive_errors := 0;
     Ros2.connection_attempts := 0; Ros2.successful_connections := 0;
     Ros2.disconnection_events := 0; Ros2.total_uptime_ms := 0 |}.

(** The manager after [ros2_manager_init], with a callback set. *)
Definition initialized : Ros2.manager nat :=
  {| Ros2.ros2_manager_initialized := true;
     Ros2.ros2_manager_started := false;
     Ros2.current_status := Ros2.ROS2_STATUS_DISCONNECTED;
     Ros2.current_stats := no_statistics;
     Ros2.connection_callback := Some (fun _ e => S e);
     Ros2.publish_task_handle := 0;
     Ros2.subscribe_task_handle := 0;
     Ros2.connection_timer := 3;
     Ros2.sequence_number := 4294967295 |}.

Definition identity : Bno055.bno055_quaternion_t :=
  {| Bno055.w := Bno055.quat_component 0 64;
     Bno055.x := Bno055.quat_component 0 0;
     Bno055.y := Bno055.quat_component 0 0;
     Bno055.z := Bno055.quat_component 0 0 |}.

End DemoRtos.

(** ** A concrete memory test

    On this board the PSRAM is smaller than expected: the second step
    of the test fails. *)

Module DemoPsram.

#[global] Instance members : PSRAMTest_members nat :=
  {| initializeHardwareInfo := Demo.succeed;
     checkPSRAMAvailability := Demo.succeed;
     verifyPSRAMSize := Demo.fail;
     testPSRAMAllocation := Demo.succeed;
     testPSRAMReadWrite := Demo.succeed;
     measurePSRAMPerformance := Demo.succeed;
     cleanupTestBuffer := Demo.succeed;
     delete_hw_info := S |}.

Definition machine : Machine nat :=
  {| world := 0%nat; heap := fun _ => PSRAMTest_new; events := [] |}.

End DemoPsram.

(** ** Properties of the call log *)

Lemma calls_app (p : Event -> bool) (l1 l2 : list Event) :
  calls p (l1 ++ l2) = (calls p l1 + calls p l2)%nat.
Proof. unfold calls. now rewrite filter_app, length_app. Qed.

Lemma runs_of_app (l1 l2 : list Event) :
  runs_of (l1 ++ l2) = runs_of l1 ++ runs_of l2.
Proof.
  induction l1 as [|e l1 IH]; simpl; [reflexivity|].
  destruct e; simpl; now rewrite IH.
Qed.

Lemma steps_of_app (l1 l2 : list Event) :
  steps_of (l1 ++ l2) = steps_of l1 ++ steps_of l2.
Proof.
  induction l1 as [|e l1 IH]; simpl; [reflexivity|].
  destruct e; simpl; now rewrite IH.
Qed.

Lemma TestResult_eqb_eq (a b : TestResult) :
  TestResult_eqb a b = true <-> a = b.
Proof. destruct a, b; simpl; split; congruence. Qed.

Lemma TestResult_eqb_refl (a : TestResult) : TestResult_eqb a a = true.
Proof. now destruct a. Qed.

(** ** Properties of BaseTest *)

Section BaseTestProperties.

Context {World : Type} {platform : Platform World}.

Lemma bind_eq {A B : Type} (c : M World A) (k : A -> M World B)
    (s : Machine World) :
  bind c k s = k (fst (c s)) (snd (c s)).
Proof. unfold bind. now destruct (c s). Qed.

(** The loop of [runSteps] against the outcome of the steps. *)
Lemma runSteps_from_outcome (steps : list (TestStep World))
    (s : Machine World) :
  runSteps_from steps s =
    (fst (fst (steps_outcome steps (world s))),
     {| world := snd (fst (steps_outcome steps (world s)));
        heap := heap s;
        events := events s ++ snd (steps_outcome steps (world s)) |}).
Proof.
  revert s. induction steps as [|step rest IH]; intros s.
  - destruct s. simpl. now rewrite app_nil_r.
  - cbn [runSteps_from steps_outcome]. unfold bind, emit, executeStep.
    destruct (execute step) as [f|]; cbn [fst snd world heap events].
    + unfold bind, emit, invoke, ret. cbn [fst snd world heap events].
      destruct (f (world s)) as [r w1]. cbn [fst snd world heap events].
      destruct (negb (r =? ESP_OK)); destruct (critical step);
        cbn [andb]; rewrite ?IH; cbn [fst snd world heap events];
        destruct (steps_outcome rest w1) as [[r' w'] l];
        cbn [fst snd]; rewrite <- ?app_assoc; reflexivity.
    + unfold ret. cbn [fst snd world heap events Z.eqb negb].
      change (negb (ESP_ERR_INVALID_ARG =? ESP_OK)) with true.
      destruct (critical step);
        cbn [andb]; rewrite ?IH; cbn [fst snd world heap events];
        destruct (steps_outcome rest (world s)) as [[r' w'] l];
        cbn [fst snd app]; rewrite <- ?app_assoc; reflexivity.
Qed.

(** The body of a phase against its outcome: it acts on the
    environment and on the steps of its own object. *)
Lemma perform_outcome (this : handle) (p : Phase World) (s : Machine World) :
  let o := phase_outcome p (test_steps_ (heap s this)) (world s) in
  fst (perform this p s) = out_code o /\
  world (snd (perform this p s)) = out_world o /\
  events (snd (perform this p s)) = events s ++ out_log o /\
  forall k : handle,
    heap (snd (perform this p s)) k =
      if Nat.eqb k this
      then with_test_steps (heap s this) (out_steps o)
      else heap s k.
Proof.
  cbv zeta. revert s.
  induction p as [r | f k IH | nm step tmo crit k IH | k IH]; intros s;
    cbn [perform phase_outcome].
  - unfold ret. cbn [fst snd out_code out_world out_steps out_log].
    rewrite app_nil_r. repeat split.
    intros k. destruct (Nat.eqb_spec k this) as [->|_]; [|reflexivity].
    now destruct (heap s this).
  - rewrite bind_eq. unfold invoke.
    destruct (f (world s)) as [r w]. cbn [fst snd].
    apply (IH r {| world := w; heap := heap s; events := events s |}).
  - rewrite !bind_eq. unfold deref, store. cbn [fst snd].
    pose proof (IH {| world := world s;
                      heap := fun k => if Nat.eqb k this
                                       then addStep (heap s this) nm step
                                              tmo crit
                                       else heap s k;
                      events := events s |}) as H.
    cbn [world heap events] in H. rewrite Nat.eqb_refl in H.
    cbn [addStep test_steps_] in H.
    destruct H as (H1 & H2 & H3 & H4). repeat split; try assumption.
    intros k'. rewrite H4. now destruct (Nat.eqb k' this).
  - rewrite bind_eq. unfold runSteps. rewrite bind_eq. unfold deref.
    cbn [fst snd]. rewrite runSteps_from_outcome. cbn [fst snd].
    destruct (steps_outcome (test_steps_ (heap s this)) (world s))
      as [[r w'] l]. cbn [fst snd].
    pose proof (IH r {| world := w'; heap := heap s;
                        events := events s ++ l |}) as H.
    cbn [world heap events] in H.
    destruct H as (H1 & H2 & H3 & H4).
    cbn [out_code out_world out_steps out_log].
    rewrite <- app_assoc in H3. now repeat split.
Qed.

(** A phase logs step events only, and adds steps to those the object
    has. *)
Lemma steps_outcome_log (steps : list (TestStep World)) (w : World) :
  forallb is_step_event (snd (steps_outcome steps w)) = true.
Proof.
  revert w. induction steps as [|step rest IH]; intros w; [reflexivity|].
  cbn [steps_outcome].
  destruct (execute step) as [f|];
    [destruct (negb (fst (f w) =? ESP_OK) && critical step);
     [reflexivity|];
     specialize (IH (snd (f w)));
     destruct (steps_outcome rest (snd (f w))) as [[r' w'] l]
    |destruct (negb (ESP_ERR_INVALID_ARG =? ESP_OK) && critical step);
     [reflexivity|];
     specialize (IH w); destruct (steps_outcome rest w) as [[r' w'] l]];
    cbn [snd forallb is_step_event andb app] in *; exact IH.
Qed.

Lemma phase_outcome_log (p : Phase World) (steps : list (TestStep World))
    (w : World) :
  forallb is_step_event (out_log (phase_outcome p steps w)) = true.
Proof.
  revert steps w.
  induction p as [r | f k IH | nm step tmo crit k IH | k IH];
    intros steps w; cbn [phase_outcome].
  - reflexivity.
  - apply IH.
  - apply IH.
  - pose proof (steps_outcome_log steps w) as Hl.
    destruct (steps_outcome steps w) as [[r w'] l].
    cbn [snd out_log] in *. rewrite forallb_app, Hl. apply IH.
Qed.


Lemma step_events_calls (p : Event -> bool) (l : list Event) :
  (forall e, is_step_event e = true -> p e = false) ->
  forallb is_step_event l = true ->
  calls p l = 0%nat.
Proof.
  intros Hp. unfold calls. induction l as [|e l IH]; [reflexivity|].
  cbn [forallb filter]. intros H. apply andb_true_iff in H as [He Hl].
  rewrite (Hp e He). now apply IH.
Qed.

Lemma step_events_runs (l : list Event) :
  forallb is_step_event l = true -> runs_of l = [].
Proof.
  induction l as [|e l IH]; [reflexivity|].
  cbn [forallb]. intros H. apply andb_true_iff in H as [He Hl].
  destruct e; try discriminate He; cbn [runs_of]; now apply IH.
Qed.

(** The three virtual calls. *)
Lemma call_setup_outcome (this : handle) (s : Machine World) :
  let o := phase_outcome (v_setup (heap s this))
             (test_steps_ (heap s this)) (world s) in
  fst (call_setup this s) = out_code o /\
  world (snd (call_setup this s)) = out_world o /\
  events (snd (call_setup this s)) =
    events s ++ EvSetup this :: out_log o /\
  forall k : handle,
    heap (snd (call_setup this s)) k =
      if Nat.eqb k this
      then with_test_steps (heap s this) (out_steps o)
      else heap s k.
Proof.
  cbv zeta. unfold call_setup. rewrite !bind_eq. unfold deref, emit.
  cbn [fst snd].
  pose proof (perform_outcome this (v_setup (heap s this))
                {| world := world s; heap := heap s;
                   events := events s ++ [EvSetup this] |}) as H.
  cbv zeta in H. cbn [world heap events] in H.
  rewrite <- app_assoc in H. exact H.
Qed.

Lemma call_execute_outcome (this : handle) (s : Machine World) :
  let o := phase_outcome (v_execute (heap s this))
             (test_steps_ (heap s this)) (world s) in
  fst (call_execute this s) = out_code o /\
  world (snd (call_execute this s)) = out_world o /\
  events (snd (call_execute this s)) =
    events s ++ EvExecute this :: out_log o /\
  forall k : handle,
    heap (snd (call_execute this s)) k =
      if Nat.eqb k this
      then with_test_steps (heap s this) (out_steps o)
      else heap s k.
Proof.
  cbv zeta. unfold call_execute. rewrite !bind_eq. unfold deref, emit.
  cbn [fst snd].
  pose proof (perform_outcome this (v_execute (heap s this))
                {| world := world s; heap := heap s;
                   events := events s ++ [EvExecute this] |}) as H.
  cbv zeta in H. cbn [world heap events] in H.
  rewrite <- app_assoc in H. exact H.
Qed.

Lemma call_teardown_outcome (this : handle) (s : Machine World) :
  let o := phase_outcome (v_teardown (heap s this))
             (test_steps_ (heap s this)) (world s) in
  fst (call_teardown this s) = out_code o /\
  world (snd (call_teardown this s)) = out_world o /\
  events (snd (call_teardown this s)) =
    events s ++ EvTeardown this :: out_log o /\
  forall k : handle,
    heap (snd (call_teardown this s)) k =
      if Nat.eqb k this
      then with_test_steps (heap s this) (out_steps o)
      else heap s k.
Proof.
  cbv zeta. unfold call_teardown. rewrite !bind_eq. unfold deref, emit.
  cbn [fst snd].
  pose proof (perform_outcome this (v_teardown (heap s this))
                {| world := world s; heap := heap s;
                   events := events s ++ [EvTeardown this] |}) as H.
  cbv zeta in H. cbn [world heap events] in H.
  rewrite <- app_assoc in H. exact H.
Qed.

Lemma at_point_start (this : handle) (s : Machine World) :
  at_point this s s (world s) [] (status_ (heap s this))
    (test_steps_ (heap s this)).
Proof.
  repeat split; [now rewrite app_nil_r|].
  intros k. destruct (Nat.eqb_spec k this) as [->|_]; [|reflexivity].
  now destruct (heap s this).
Qed.

Lemma at_point_emit (e : Event) (this : handle) (s s' : Machine World)
    (w : World) (log : list Event) (st : TestStatus)
    (steps : list (TestStep World)) :
  at_point this s s' w log st steps ->
  at_point this s (snd (emit e s')) w (log ++ [e]) st steps.
Proof.
  intros (Hw & He & Hh). unfold emit. cbn [snd]. repeat split; cbn.
  - exact Hw.
  - now rewrite He, app_assoc.
  - exact Hh.
Qed.

Lemma at_point_updateStatus (res : TestResult) (msg : string)
    (this : handle) (s s' : Machine World)
    (w : World) (log : list Event) (st : TestStatus)
    (steps : list (TestStep World)) :
  at_point this s s' w log st steps ->
  at_point this s (snd (updateStatus this res msg s')) w log
    {| result := res; message := msg; duration_ms := duration_ms st;
       start_time := start_time st;
       error_code :=
         match res with
         | RUNNING | NOT_RUN => error_code st
         | FAILED => wrap32 ESP_FAIL
         | _ => wrap32 ESP_OK
         end |}
    steps.
Proof.
  intros (Hw & He & Hh). unfold updateStatus, bind, deref, store.
  cbn [snd]. repeat split; cbn [world events heap]; try assumption.
  intros k. rewrite !Hh, Nat.eqb_refl.
  now destruct (Nat.eqb k this).
Qed.

Lemma at_point_startTimer (this : handle) (s s' : Machine World)
    (w : World) (log : list Event) (st : TestStatus)
    (steps : list (TestStep World)) :
  at_point this s s' w log st steps ->
  at_point this s (snd (startTimer this s')) w log
    {| result := result st; message := message st;
       duration_ms := duration_ms st; start_time := clock_ms w;
       error_code := error_code st |}
    steps.
Proof.
  intros (Hw & He & Hh). unfold startTimer, bind, deref, store, now_ms.
  cbn [fst snd]. repeat split; cbn [world events heap]; try assumption.
  intros k. rewrite !Hh, Nat.eqb_refl, Hw.
  now destruct (Nat.eqb k this).
Qed.

Lemma at_point_stopTimer (this : handle) (s s' : Machine World)
    (w : World) (log : list Event) (st : TestStatus)
    (steps : list (TestStep World)) :
  at_point this s s' w log st steps ->
  at_point this s (snd (stopTimer this s')) w log
    {| result := result st; message := message st;
       duration_ms := wrap32 (clock_ms w - start_time st);
       start_time := start_time st; error_code := error_code st |}
    steps.
Proof.
  intros (Hw & He & Hh). unfold stopTimer, bind, deref, store, now_ms.
  cbn [fst snd]. repeat split; cbn [world events heap]; try assumption.
  intros k. rewrite !Hh, Nat.eqb_refl, Hw.
  now destruct (Nat.eqb k this).
Qed.

Lemma at_point_perform (p : Phase World) (this : handle)
    (s s' : Machine World) (w : World) (log : list Event) (st : TestStatus)
    (steps : list (TestStep World)) :
  at_point this s s' w log st steps ->
  let o := phase_outcome p steps w in
  fst (perform this p s') = out_code o /\
  at_point this s (snd (perform this p s')) (out_world o)
    (log ++ out_log o) st (out_steps o).
Proof.
  intros (Hw & He & Hh). cbv zeta.
  destruct (perform_outcome this p s') as (H1 & H2 & H3 & H4).
  cbv zeta in *. rewrite Hh, Nat.eqb_refl, Hw in *.
  cbn [with_test_steps test_steps_] in *.
  split; [exact H1|]. repeat split.
  - exact H2.
  - now rewrite H3, He, app_assoc.
  - intros k. rewrite H4, Hh. now destruct (Nat.eqb k this).
Qed.

Lemma at_point_setup (this : handle) (s s' : Machine World)
    (w : World) (log : list Event) (st : TestStatus)
    (steps : list (TestStep World)) :
  at_point this s s' w log st steps ->
  let o := phase_outcome (v_setup (heap s this)) steps w in
  fst (call_setup this s') = out_code o /\
  at_point this s (snd (call_setup this s')) (out_world o)
    (log ++ EvSetup this :: out_log o) st (out_steps o).
Proof.
  intros H. cbv zeta. unfold call_setup. rewrite !bind_eq.
  unfold deref. cbn [fst snd].
  rewrite (proj2 (proj2 H) this), Nat.eqb_refl.
  cbn [with_test_steps with_status v_setup].
  apply (at_point_emit (EvSetup this)) in H.
  apply (at_point_perform (v_setup (heap s this))) in H.
  cbv zeta in H. rewrite <- app_assoc in H. exact H.
Qed.

Lemma at_point_execute (this : handle) (s s' : Machine World)
    (w : World) (log : list Event) (st : TestStatus)
    (steps : list (TestStep World)) :
  at_point this s s' w log st steps ->
  let o := phase_outcome (v_execute (heap s this)) steps w in
  fst (call_execute this s') = out_code o /\
  at_point this s (snd (call_execute this s')) (out_world o)
    (log ++ EvExecute this :: out_log o) st (out_steps o).
Proof.
  intros H. cbv zeta. unfold call_execute. rewrite !bind_eq.
  unfold deref. cbn [fst snd].
  rewrite (proj2 (proj2 H) this), Nat.eqb_refl.
  cbn [with_test_steps with_status v_execute].
  apply (at_point_emit (EvExecute this)) in H.
  apply (at_point_perform (v_execute (heap s this))) in H.
  cbv zeta in H. rewrite <- app_assoc in H. exact H.
Qed.

Lemma at_point_teardown (this : handle) (s s' : Machine World)
    (w : World) (log : list Event) (st : TestStatus)
    (steps : list (TestStep World)) :
  at_point this s s' w log st steps ->
  let o := phase_outcome (v_teardown (heap s this)) steps w in
  fst (call_teardown this s') = out_code o /\
  at_point this s (snd (call_teardown this s')) (out_world o)
    (log ++ EvTeardown this :: out_log o) st (out_steps o).
Proof.
  intros H. cbv zeta. unfold call_teardown. rewrite !bind_eq.
  unfold deref. cbn [fst snd].
  rewrite (proj2 (proj2 H) this), Nat.eqb_refl.
  cbn [with_test_steps with_status v_teardown].
  apply (at_point_emit (EvTeardown this)) in H.
  apply (at_point_perform (v_teardown (heap s this))) in H.
  cbv zeta in H. rewrite <- app_assoc in H. exact H.
Qed.

(** One statement of [run] further. *)
Ltac run_step H :=
  rewrite bind_eq;
  match type of H with
  | at_point _ _ ?s' _ _ _ _ =>
      match goal with
      | |- context [emit ?e s'] => apply (at_point_emit e) in H
      | |- context [updateStatus _ ?r ?m s'] =>
          apply (at_point_updateStatus r m) in H
      | |- context [startTimer _ s'] => apply at_point_startTimer in H
      | |- context [stopTimer _ s'] => apply at_point_stopTimer in H
      end
  end;
  cbn [result message duration_ms start_time error_code] in H.

(** [run], start to end. *)
Lemma run_eq (this : handle) (s : Machine World) :
  let t := heap s this in
  let o1 := setup_outcome t (world s) in
  let o2 := execute_outcome t (world s) in
  let o3 := teardown_outcome t (world s) in
  let f1 := negb (out_code o1 =? ESP_OK) in
  let f2 := negb (out_code o2 =? ESP_OK) in
  let f3 := negb (out_code o3 =? ESP_OK) in
  fst (run this s) = (if f1 || f2 || f3 then FAILED else PASSED) /\
  at_point this s (snd (run this s))
    (out_world (if f1 then o1 else o3))
    (EvRun this :: EvSetup this :: out_log o1 ++
       (if f1 then []
        else EvExecute this :: out_log o2 ++ EvTeardown this :: out_log o3))
    {| result := if f1 || f2 || f3 then FAILED else PASSED;
       message :=
         if f1 then "Setup phase failed"
         else if f2 then "Execute phase failed"
         else if f3 then "Teardown phase failed"
         else "Test completed successfully";
       duration_ms :=
         wrap32 (clock_ms (out_world
                             (if f1 then o1 else if f2 then o2 else o3))
                 - clock_ms (world s));
       start_time := clock_ms (world s);
       error_code := wrap32 (if f1 || f2 || f3 then ESP_FAIL else ESP_OK) |}
    (out_steps (if f1 then o1 else o3)).
Proof.
  intros t o1 o2 o3 f1 f2 f3.
  pose proof (at_point_start this s) as P.
  unfold run.
  run_step P. run_step P. run_step P.
  rewrite bind_eq.
  apply at_point_setup in P. cbv zeta in P. destruct P as [C1 P].
  change (phase_outcome _ _ _) with o1 in C1, P.
  rewrite C1. fold f1. destruct f1.
  { run_step P. run_step P. unfold ret. cbn [fst snd orb].
    split; [reflexivity|]. cbn [app] in P. now rewrite app_nil_r. }
  rewrite bind_eq.
  apply at_point_execute in P. cbv zeta in P. destruct P as [C2 P].
  change (phase_outcome _ _ _) with o2 in C2, P.
  rewrite C2. fold f2. destruct f2.
  { run_step P. run_step P. rewrite bind_eq.
    apply at_point_teardown in P. cbv zeta in P. destruct P as [C3 P].
    change (phase_outcome _ _ _) with o3 in C3, P.
    unfold ret. cbn [fst snd orb].
    split; [reflexivity|]. cbn [app] in P.
    rewrite <- !app_assoc in P. exact P. }
  rewrite bind_eq.
  apply at_point_teardown in P. cbv zeta in P. destruct P as [C3 P].
  change (phase_outcome _ _ _) with o3 in C3, P.
  rewrite C3. fold f3. destruct f3.
  - run_step P. run_step P. unfold ret. cbn [fst snd orb].
    split; [reflexivity|]. cbn [app] in P.
    rewrite <- !app_assoc in P. exact P.
  - run_step P. run_step P. unfold ret. cbn [fst snd orb].
    split; [reflexivity|]. cbn [app] in P.
    rewrite <- !app_assoc in P. exact P.
Qed.

Lemma run_outcomes_log (t : BaseTest World) (w : World) :
  forallb is_step_event (out_log (setup_outcome t w)) = true /\
  forallb is_step_event (out_log (execute_outcome t w)) = true /\
  forallb is_step_event (out_log (teardown_outcome t w)) = true.
Proof. repeat split; apply phase_outcome_log. Qed.

(** [run] writes to no other object. *)
Lemma run_frame (this k : handle) (s : Machine World) :
  k <> this -> heap (snd (run this s)) k = heap s k.
Proof.
  intros Hk. apply Nat.eqb_neq in Hk.
  destruct (run_eq this s) as (_ & _ & _ & Hh). now rewrite Hh, Hk.
Qed.

(** [run] returns [PASSED] or [FAILED], which is also the result it
    records, and enters the log once. *)
Lemma run_summary (this : handle) (s : Machine World) :
  result_of (heap (snd (run this s))) this = fst (run this s) /\
  (fst (run this s) = PASSED \/ fst (run this s) = FAILED) /\
  runs_of (events (snd (run this s))) = runs_of (events s) ++ [this].
Proof.
  destruct (run_eq this s) as (Hr & _ & He & Hh). cbv zeta in *.
  unfold result_of, getStatus. rewrite Hh, Nat.eqb_refl, Hr, He.
  split; [reflexivity|]. split.
  - match goal with |- context [if ?b then FAILED else PASSED] =>
      destruct b; auto end.
  - destruct (run_outcomes_log (heap s this) (world s)) as (L1 & L2 & L3).
    apply step_events_runs in L1, L2, L3.
    rewrite runs_of_app. f_equal. cbn [runs_of]. f_equal.
    rewrite runs_of_app, L1.
    destruct (negb _); [reflexivity|]. cbn [app runs_of].
    rewrite runs_of_app, L2. cbn [app runs_of]. exact L3.
Qed.

(** C1: whenever [setup()] succeeds, [run()] calls [teardown()] exactly
    once, whatever [execute()] returns: the calls made are [setup],
    [execute], [teardown], in this order, each followed by the calls of
    the steps it runs, and the environment and the steps of the object
    are left as [teardown()], coming after [execute()] and [setup()],
    leaves them. *)
Theorem run_teardown_exactly_once (this : handle) (s : Machine World) :
  let t := heap s this in
  let o1 := setup_outcome t (world s) in
  let o2 := execute_outcome t (world s) in
  let o3 := teardown_outcome t (world s) in
  out_code o1 = ESP_OK ->
  events (snd (run this s)) =
    events s ++ [EvRun this; EvSetup this] ++ out_log o1 ++
      [EvExecute this] ++ out_log o2 ++ [EvTeardown this] ++ out_log o3 /\
  calls (is_teardown_of this) (events (snd (run this s))) =
    S (calls (is_teardown_of this) (events s)) /\
  world (snd (run this s)) = out_world o3 /\
  test_steps_ (heap (snd (run this s)) this) = out_steps o3.
Proof.
  intros t o1 o2 o3 Hsetup.
  destruct (run_eq this s) as (_ & Hw & He & Hh).
  destruct (run_outcomes_log t (world s)) as (L1 & L2 & L3).
  cbv zeta in Hw, He, Hh. subst t o1 o2 o3.
  rewrite Hsetup in Hw, He, Hh. cbn [Z.eqb ESP_OK negb] in Hw, He, Hh.
  assert (Hnone : forall l : list Event,
             forallb is_step_event l = true ->
             calls (is_teardown_of this) l = 0%nat).
  { intros l. apply step_events_calls. now intros []. }
  split; [exact He|]. split; [|split].
  - rewrite He, calls_app.
    match goal with
    | |- context [calls _ (?a :: ?b :: ?l1 ++ ?c :: ?l2 ++ ?d :: ?l3)] =>
        change (a :: b :: l1 ++ c :: l2 ++ d :: l3)
          with ([a; b] ++ l1 ++ [c] ++ l2 ++ [d] ++ l3)
    end.
    rewrite !calls_app, (Hnone _ L1), (Hnone _ L2), (Hnone _ L3).
    unfold calls. cbn [filter is_teardown_of List.length].
    rewrite Nat.eqb_refl. cbn [List.length]. lia.
  - exact Hw.
  - rewrite Hh, Nat.eqb_refl. reflexivity.
Qed.

(** C2: when [setup()] fails, [run()] calls neither [execute()] nor
    [teardown()], records [FAILED] with the message "Setup phase failed"
    and returns [FAILED]; the environment and the steps of the object
    are left as [setup()] leaves them. *)
Theorem run_setup_failure (this : handle) (s : Machine World) :
  let o1 := setup_outcome (heap s this) (world s) in
  out_code o1 <> ESP_OK ->
  fst (run this s) = FAILED /\
  result (getStatus (heap (snd (run this s)) this)) = FAILED /\
  message (getStatus (heap (snd (run this s)) this)) = "Setup phase failed" /\
  events (snd (run this s)) =
    events s ++ [EvRun this; EvSetup this] ++ out_log o1 /\
  world (snd (run this s)) = out_world o1 /\
  test_steps_ (heap (snd (run this s)) this) = out_steps o1 /\
  (forall k : handle,
      calls (is_execute_of k) (events (snd (run this s))) =
        calls (is_execute_of k) (events s) /\
      calls (is_teardown_of k) (events (snd (run this s))) =
        calls (is_teardown_of k) (events s)).
Proof.
  intros o1 Hsetup. apply Z.eqb_neq in Hsetup.
  destruct (run_eq this s) as (Hr & Hw & He & Hh).
  destruct (run_outcomes_log (heap s this) (world s)) as (L1 & _).
  cbv zeta in Hr, Hw, He, Hh. subst o1.
  rewrite Hsetup in Hr, Hw, He, Hh. cbn [negb orb] in Hr, Hw, He, Hh.
  rewrite app_nil_r in He.
  unfold getStatus. rewrite Hr, Hw, He, Hh, Nat.eqb_refl.
  repeat split; try reflexivity;
    rewrite calls_app;
    match goal with
    | |- context [calls ?p (?a :: ?b :: ?l)] =>
        change (a :: b :: l) with ([a; b] ++ l);
        rewrite (calls_app p), (step_events_calls p l) by
          (try (now intros []); exact L1)
    end;
    unfold calls; cbn; lia.
Qed.

(** ** Steps *)

Lemma executeStep_log (step : TestStep World) (s : Machine World) :
  steps_of (events (snd (executeStep step s))) = steps_of (events s) /\
  heap (snd (executeStep step s)) = heap s.
Proof.
  unfold executeStep. destruct (execute step) as [f|]; simpl; [|auto].
  unfold bind, emit, invoke, ret. simpl.
  destruct (f (world s)) as [r w]; simpl.
  rewrite steps_of_app. simpl. now rewrite app_nil_r.
Qed.

Lemma attempt_all_cons (step : TestStep World) (rest : list (TestStep World))
    (s : Machine World) :
  let o := executeStep step (snd (emit (EvStep (name step)) s)) in
  attempt_all (step :: rest) s =
    (fst o :: fst (attempt_all rest (snd o)), snd (attempt_all rest (snd o))).
Proof. simpl. now rewrite !bind_eq. Qed.

Lemma runSteps_from_cons (step : TestStep World)
    (rest : list (TestStep World)) (s : Machine World) :
  let o := executeStep step (snd (emit (EvStep (name step)) s)) in
  runSteps_from (step :: rest) s =
    if negb (fst o =? ESP_OK) && critical step then o
    else runSteps_from rest (snd o).
Proof.
  simpl. rewrite !bind_eq.
  destruct (executeStep step _) as [r s1]; simpl.
  destruct (negb (r =? ESP_OK)); simpl; [|reflexivity].
  now destruct (critical step).
Qed.

Lemma attempt_all_log (steps : list (TestStep World)) (s : Machine World) :
  steps_of (events (snd (attempt_all steps s))) =
    steps_of (events s) ++ map (@name World) steps.
Proof.
  revert s. induction steps as [|step rest IH]; intros s.
  - simpl. now rewrite app_nil_r.
  - rewrite attempt_all_cons. cbv zeta. cbn [snd map].
    rewrite IH, (proj1 (executeStep_log _ _)). unfold emit. cbn [snd events].
    rewrite steps_of_app. simpl. now rewrite <- app_assoc.
Qed.

(** Without a critical failure the loop of [runSteps] is [attempt_all]. *)
Lemma runSteps_from_complete (steps : list (TestStep World))
    (s : Machine World) :
  no_critical_failure steps (fst (attempt_all steps s)) ->
  runSteps_from steps s = (ESP_OK, snd (attempt_all steps s)).
Proof.
  revert s. induction steps as [|step rest IH]; intros s.
  - reflexivity.
  - rewrite attempt_all_cons, runSteps_from_cons. cbv zeta.
    unfold emit. cbn [fst snd].
    set (o := executeStep step _).
    intros H. inversion H as [|? ? ? ? Hcrit Hrest]; subst.
    rewrite (IH _ Hrest).
    destruct (Z.eqb_spec (fst o) ESP_OK) as [_|Hne];
      simpl; [reflexivity|].
    destruct (critical step); [|reflexivity].
    exfalso. apply Hne. now apply Hcrit.
Qed.

(** The loop of [runSteps] stops at the first critical failure. *)
Lemma runSteps_from_abort (pre : list (TestStep World)) (st : TestStep World)
    (post : list (TestStep World)) (rs : list esp_err_t) (r : esp_err_t)
    (s : Machine World) :
  fst (attempt_all (pre ++ [st]) s) = rs ++ [r] ->
  no_critical_failure pre rs ->
  critical st = true ->
  r <> ESP_OK ->
  runSteps_from (pre ++ st :: post) s = (r, snd (attempt_all (pre ++ [st]) s)).
Proof.
  revert rs s. induction pre as [|step pre IH]; intros rs s Hrs Hpre Hc Hr.
  - inversion Hpre; subst. cbn [app] in *.
    rewrite attempt_all_cons in *. rewrite runSteps_from_cons.
    cbv zeta in *. unfold emit in *. cbn [fst snd attempt_all ret] in *.
    set (o := executeStep st _) in *.
    injection Hrs as Hrs. rewrite Hrs, Hc.
    apply Z.eqb_neq in Hr. rewrite Hr. simpl.
    rewrite <- Hrs. now destruct o.
  - cbn [app] in *.
    rewrite attempt_all_cons in *. rewrite runSteps_from_cons.
    cbv zeta in *. unfold emit in *. cbn [fst snd] in *.
    set (o := executeStep step _) in *.
    inversion Hpre as [|? ? ? rs' Hcrit Hrest]; subst.
    cbn [app] in Hrs. injection Hrs as Hr0 Hrs1.
    rewrite (IH rs' _ Hrs1 Hrest Hc Hr).
    destruct (Z.eqb_spec (fst o) ESP_OK) as [_|Hne];
      simpl; [reflexivity|].
    destruct (critical step); [|reflexivity].
    exfalso. apply Hne. rewrite Hr0. now apply Hcrit.
Qed.

(** C3: [runSteps()] hands the steps to [executeStep] in declaration
    order. The first failing critical step ends the sequence: no later
    step is attempted and its code is returned. Failures of
    non-critical steps do not count: without a critical failure every
    step is attempted and the outcome is [ESP_OK]. *)
Theorem runSteps_contract (this : handle) (s : Machine World)
    (steps : list (TestStep World)) :
  test_steps_ (heap s this) = steps ->
  (forall pre st post rs r,
      steps = pre ++ st :: post ->
      fst (attempt_all (pre ++ [st]) s) = rs ++ [r] ->
      no_critical_failure pre rs ->
      critical st = true ->
      r <> ESP_OK ->
      runSteps this s = (r, snd (attempt_all (pre ++ [st]) s)) /\
      steps_of (events (snd (runSteps this s))) =
        steps_of (events s) ++ map (@name World) (pre ++ [st])) /\
  (no_critical_failure steps (fst (attempt_all steps s)) ->
   runSteps this s = (ESP_OK, snd (attempt_all steps s)) /\
   steps_of (events (snd (runSteps this s))) =
     steps_of (events s) ++ map (@name World) steps).
Proof.
  intros Hsteps. unfold runSteps, bind, deref. rewrite Hsteps. split.
  - intros pre st post rs r -> Hrs Hpre Hc Hr.
    rewrite (runSteps_from_abort pre st post rs r s Hrs Hpre Hc Hr).
    split; [reflexivity|]. simpl. apply attempt_all_log.
  - intros H. rewrite (runSteps_from_complete steps s H).
    split; [reflexivity|]. simpl. apply attempt_all_log.
Qed.

(** C9: a step without a bound action yields [ESP_ERR_INVALID_ARG] and
    nothing is called; otherwise the action is called once and its
    return value is the outcome. [timeout_ms] plays no part. *)
Theorem executeStep_contract (step : TestStep World) (s : Machine World) :
  (execute step = None ->
   executeStep step s = (ESP_ERR_INVALID_ARG, s)) /\
  (forall f : Action World,
      execute step = Some f ->
      fst (executeStep step s) = fst (f (world s)) /\
      world (snd (executeStep step s)) = snd (f (world s)) /\
      heap (snd (executeStep step s)) = heap s /\
      events (snd (executeStep step s)) =
        events s ++ [EvAction (name step)]) /\
  (forall tmo : Z,
      executeStep {| name := name step; execute := execute step;
                     timeout_ms := tmo; critical := critical step |} s =
      executeStep step s).
Proof.
  unfold executeStep. repeat split.
  - now intros ->.
  - rewrite H. unfold bind, emit, invoke, ret. simpl.
    now destruct (f (world s)).
  - rewrite H. unfold bind, emit, invoke, ret. simpl.
    now destruct (f (world s)).
  - rewrite H. unfold bind, emit, invoke, ret. simpl.
    now destruct (f (world s)).
  - rewrite H. unfold bind, emit, invoke, ret. simpl.
    now destruct (f (world s)).
Qed.

End BaseTestProperties.

(** ** Properties of TestManager *)

Section TestManagerProperties.

Context {World : Type} {platform : Platform World}.

Lemma executeTest_eq (h : handle) (s : Machine World) :
  executeTest (Some h) s =
    (TestResult_eqb (fst (run h s)) PASSED, snd (run h s)).
Proof.
  unfold executeTest. rewrite !bind_eq. reflexivity.
Qed.

Lemma run_each_cons (m : TestManager) (h : handle) (rest : list handle)
    (all_passed : bool) (s : Machine World) :
  let o := run h s in
  run_each m (h :: rest) all_passed s =
    if TestResult_eqb (fst o) PASSED then run_each m rest all_passed (snd o)
    else
      let m' := updateOverallResult m (result_of (heap (snd o)) h) in
      if stop_on_first_failure_ m' then (false, m', snd o)
      else run_each m' rest false (snd o).
Proof.
  cbv zeta. cbn [run_each]. rewrite bind_eq, executeTest_eq. cbn [fst snd].
  destruct (TestResult_eqb (fst (run h s)) PASSED); cbn [negb];
    [reflexivity|].
  rewrite bind_eq. unfold deref, result_of. cbn [fst snd].
  now destruct (stop_on_first_failure_ _).
Qed.

Lemma updateOverallResult_fields (m : TestManager) (r : TestResult) :
  tests_ (updateOverallResult m r) = tests_ m /\
  stop_on_first_failure_ (updateOverallResult m r) = stop_on_first_failure_ m.
Proof.
  unfold updateOverallResult.
  destruct (TestResult_eqb r FAILED); [now split|].
  destruct (TestResult_eqb r TIMEOUT && _); now split.
Qed.

Lemma run_in_order_cons (h : handle) (rest : list handle)
    (s : Machine World) :
  run_in_order (h :: rest) s =
    (fst (run h s) :: fst (run_in_order rest (snd (run h s))),
     snd (run_in_order rest (snd (run h s)))).
Proof. cbn [run_in_order]. now rewrite !bind_eq. Qed.

Lemma run_in_order_log (l : list handle) (s : Machine World) :
  runs_of (events (snd (run_in_order l s))) = runs_of (events s) ++ l.
Proof.
  revert s. induction l as [|h rest IH]; intros s.
  - simpl. now rewrite app_nil_r.
  - rewrite run_in_order_cons. cbn [snd]. rewrite IH.
    destruct (run_summary h s) as (_ & _ & ->). now rewrite <- app_assoc.
Qed.

Lemma run_in_order_frame (l : list handle) (k : handle) (s : Machine World) :
  ~ In k l -> heap (snd (run_in_order l s)) k = heap s k.
Proof.
  revert s. induction l as [|h rest IH]; intros s Hk; [reflexivity|].
  rewrite run_in_order_cons. cbn [snd].
  rewrite IH by (intros H; apply Hk; now right).
  apply run_frame. intros ->. apply Hk. now left.
Qed.

Lemma run_in_order_length (l : list handle) (s : Machine World) :
  List.length (fst (run_in_order l s)) = List.length l.
Proof.
  revert s. induction l as [|h rest IH]; intros s; [reflexivity|].
  rewrite run_in_order_cons. cbn [fst List.length]. now rewrite IH.
Qed.

(** With [stop_on_first_failure_] set, the loop ends with the first test
    that does not pass. *)
Lemma run_each_halts (m : TestManager) (pre : list handle) (h : handle)
    (post : list handle) (rs : list TestResult) (r : TestResult)
    (all_passed : bool) (s : Machine World) :
  stop_on_first_failure_ m = true ->
  fst (run_in_order (pre ++ [h]) s) = rs ++ [r] ->
  Forall (eq PASSED) rs ->
  r <> PASSED ->
  fst (fst (run_each m (pre ++ h :: post) all_passed s)) = false /\
  snd (run_each m (pre ++ h :: post) all_passed s) =
    snd (run_in_order (pre ++ [h]) s).
Proof.
  revert rs s.
  induction pre as [|t pre IH]; intros rs s Hstop Hrs Hpre Hr; cbn [app] in *;
    rewrite run_in_order_cons in *; rewrite run_each_cons;
    cbv zeta; cbn [fst snd run_in_order ret] in *.
  - destruct rs as [|x [|y rs]]; cbn [app] in Hrs; try discriminate Hrs.
    injection Hrs as Hrs. rewrite Hrs.
    destruct (TestResult_eqb r PASSED) eqn:E;
      [apply TestResult_eqb_eq in E; contradiction|].
    rewrite (proj2 (updateOverallResult_fields _ _)), Hstop. now split.
  - destruct rs as [|x rs]; cbn [app] in Hrs; injection Hrs as Ht Hrs.
    + pose proof (run_in_order_length (pre ++ [h]) (snd (run t s))) as Hlen.
      rewrite Hrs, length_app in Hlen. simpl in Hlen. lia.
    + inversion Hpre as [|? ? Hp Hrest]. rewrite <- Hp in Ht.
      rewrite Ht, TestResult_eqb_refl. now apply (IH rs).
Qed.

Lemma runAllTests_nonempty (m : TestManager) (s : Machine World) :
  tests_ m <> [] ->
  let t := wrap32 (xTaskGetTickCount (world s) * portTICK_PERIOD_MS) in
  let m1 := set_overall_result_ (set_execution_start_time_ m t) PASSED in
  let o := run_each m1 (tests_ m) true s in
  fst (fst (runAllTests m s)) = fst (fst o) /\
  overall_result_ (snd (fst (runAllTests m s))) =
    overall_result_ (snd (fst o)) /\
  tests_ (snd (fst (runAllTests m s))) = tests_ (snd (fst o)) /\
  snd (runAllTests m s) = snd o.
Proof.
  intros Hne. unfold runAllTests.
  destruct (tests_ m) as [|h rest] eqn:E; [contradiction|].
  rewrite !bind_eq. unfold now_ms, ret. cbn [fst snd tests_].
  cbn [set_overall_result_ set_execution_start_time_ tests_].
  rewrite E. now destruct (run_each _ _ _ _) as [[b m'] s'].
Qed.

Lemma run_each_tests_ (ts : list handle) (m : TestManager)
    (all_passed : bool) (s : Machine World) :
  tests_ (snd (fst (run_each m ts all_passed s))) = tests_ m.
Proof.
  revert m all_passed s.
  induction ts as [|h rest IH]; intros m all_passed s; [reflexivity|].
  rewrite run_each_cons. cbv zeta.
  destruct (TestResult_eqb _ PASSED); [apply IH|].
  destruct (stop_on_first_failure_ _); cbn [fst snd]; [|rewrite IH];
    apply updateOverallResult_fields.
Qed.

(** The tracked result keeps agreeing with the recorded results as the
    loop proceeds over objects that are registered once. *)
Lemma run_each_tracked (ts done : list handle) (m : TestManager)
    (all_passed : bool) (s : Machine World) :
  NoDup (done ++ ts) ->
  tracked_agrees m (heap s) done ->
  tracked_agrees (snd (fst (run_each m ts all_passed s)))
    (heap (snd (run_each m ts all_passed s))) (done ++ ts).
Proof.
  revert done m all_passed s.
  induction ts as [|h rest IH]; intros done m all_passed s Hnd Hinv.
  - now rewrite app_nil_r.
  - rewrite run_each_cons. cbv zeta.
    destruct (run_summary h s) as (Hres & Hcases & _).
    assert (Hh : ~ In h done).
    { apply NoDup_remove_2 in Hnd. intros Hin. apply Hnd.
      apply in_or_app. now left. }
    assert (Hkeep : forall k, In k done ->
              result_of (heap (snd (run h s))) k = result_of (heap s) k).
    { intros k Hk. unfold result_of. rewrite run_frame; [reflexivity|].
      intros ->. contradiction. }
    assert (Hnd' : NoDup ((done ++ [h]) ++ rest))
      by now rewrite <- app_assoc.
    replace (done ++ h :: rest) with ((done ++ [h]) ++ rest)
      by now rewrite <- app_assoc.
    rewrite Hres.
    destruct Hcases as [Hp | Hf]; rewrite Hp || rewrite Hf; cbn [TestResult_eqb].
    + apply IH; [exact Hnd'|].
      destruct Hinv as [[Ho Hall] | [Ho Hex]]; [left | right];
        (split; [exact Ho|]).
      * apply Forall_app. split.
        -- rewrite Forall_forall in *. intros k Hk.
           rewrite Hkeep by exact Hk. now apply Hall.
        -- constructor; [|constructor]. now rewrite Hres.
      * apply Exists_app. left.
        rewrite Exists_exists in *. destruct Hex as (k & Hk & Hkf).
        exists k. split; [exact Hk|]. now rewrite Hkeep.
    + assert (Hinv' : tracked_agrees (updateOverallResult m FAILED)
                        (heap (snd (run h s))) (done ++ [h])).
      { right. split; [reflexivity|].
        apply Exists_app. right. constructor. now rewrite Hres. }
      destruct (stop_on_first_failure_ _); [|now apply IH].
      cbn [fst snd]. destruct Hinv' as [[Ho _] | [Ho Hex]];
        [discriminate Ho|].
      right. split; [exact Ho|]. apply Exists_app. now left.
Qed.

Lemma fold_overall_flags (hp : handle -> BaseTest World) (l : list handle)
    (hf ht ap : bool) :
  fold_left (overall_flags hp) l (hf, ht, ap) =
    (hf || existsb (fun k => TestResult_eqb (result_of hp k) FAILED) l,
     ht || existsb (fun k => TestResult_eqb (result_of hp k) TIMEOUT) l,
     ap && forallb (fun k => TestResult_eqb (result_of hp k) PASSED) l).
Proof.
  revert hf ht ap. induction l as [|k l IH]; intros hf ht ap; cbn [fold_left].
  - simpl. now rewrite !orb_false_r, andb_true_r.
  - unfold overall_flags at 2. fold (result_of hp k).
    cbn [existsb forallb].
    destruct (result_of hp k); rewrite IH; cbn [TestResult_eqb];
      rewrite ?orb_true_r, ?orb_false_l, ?orb_true_l, ?andb_false_r,
        ?andb_false_l, ?andb_true_l, ?orb_false_r; reflexivity.
Qed.

(** What [getOverallResult] recomputes on a registry with which the
    tracked result agrees. *)
Lemma getOverallResult_tracked (m : TestManager)
    (hp : handle -> BaseTest World) :
  tests_ m <> [] ->
  tracked_agrees m hp (tests_ m) ->
  getOverallResult m hp = overall_result_ m.
Proof.
  intros Hne Hinv. unfold getOverallResult.
  destruct (tests_ m) as [|h rest] eqn:E; [contradiction|].
  rewrite fold_overall_flags. cbn [orb andb].
  destruct Hinv as [[Ho Hall] | [Ho Hex]]; rewrite Ho.
  - assert (Hf : forall r, r <> PASSED ->
              existsb (fun k => TestResult_eqb (result_of hp k) r)
                      (h :: rest) = false).
    { intros r Hr. apply not_true_is_false. intros Hx.
      apply existsb_exists in Hx. destruct Hx as (k & Hk & Hkr).
      rewrite Forall_forall in Hall. rewrite (Hall k Hk) in Hkr.
      apply TestResult_eqb_eq in Hkr. now apply Hr. }
    rewrite (Hf FAILED), (Hf TIMEOUT) by discriminate.
    replace (forallb _ (h :: rest)) with true; [reflexivity|].
    symmetry. apply forallb_forall. intros k Hk.
    rewrite Forall_forall in Hall. now rewrite (Hall k Hk).
  - replace (existsb _ (h :: rest)) with true; [reflexivity|].
    symmetry. apply existsb_exists. rewrite Exists_exists in Hex.
    destruct Hex as (k & Hk & Hkf). exists k. split; [exact Hk|].
    now rewrite Hkf.
Qed.

(** C4, as amended: after [runAllTests()] on a registry that is not
    empty and holds every test object once, [getOverallResult()],
    recomputed from the recorded results, equals the tracked
    [overall_result_]. *)
Theorem overall_result_agreement (m : TestManager) (s : Machine World) :
  tests_ m <> [] ->
  NoDup (tests_ m) ->
  getOverallResult (snd (fst (runAllTests m s))) (heap (snd (runAllTests m s)))
    = overall_result_ (snd (fst (runAllTests m s))).
Proof.
  intros Hne Hnd.
  destruct (runAllTests_nonempty m s Hne) as (_ & Ho & Ht & Hs).
  cbv zeta in *.
  set (m1 := set_overall_result_ _ PASSED) in *.
  pose proof (run_each_tracked (tests_ m) [] m1 true s Hnd) as Hinv.
  cbn [app] in Hinv.
  assert (H0 : tracked_agrees m1 (heap s) []) by (left; split; constructor).
  specialize (Hinv H0).
  pose proof (run_each_tests_ (tests_ m) m1 true s) as Hts.
  change (tests_ m1) with (tests_ m) in Hts.
  unfold getOverallResult. rewrite Ht, Ho, Hs.
  fold (getOverallResult (snd (fst (run_each m1 (tests_ m) true s)))
          (heap (snd (run_each m1 (tests_ m) true s)))).
  apply getOverallResult_tracked; rewrite Hts; assumption.
Qed.

(** C5: on an empty registry [runAllTests()] returns [true], sets
    [overall_result_] to [SKIPPED] and executes nothing: environment,
    objects and call log are as before. *)
Theorem runAllTests_empty (m : TestManager) (s : Machine World) :
  tests_ m = [] ->
  fst (fst (runAllTests m s)) = true /\
  overall_result_ (snd (fst (runAllTests m s))) = SKIPPED /\
  snd (runAllTests m s) = s.
Proof. intros H. unfold runAllTests. rewrite H. now repeat split. Qed.

(** C7, as amended: with [stop_on_first_failure_] set, [runAllTests()]
    ends with the first test whose [run()] does not return [PASSED]:
    the tests run are those up to it, in order, and no test object
    registered after it, and not also at or before it, is run or has
    its status changed, so that a status [NOT_RUN] stays [NOT_RUN]. *)
Theorem stop_on_first_failure_halts (m : TestManager)
    (pre : list handle) (h : handle) (post : list handle)
    (rs : list TestResult) (r : TestResult) (s : Machine World) :
  stop_on_first_failure_ m = true ->
  tests_ m = pre ++ h :: post ->
  fst (run_in_order (pre ++ [h]) s) = rs ++ [r] ->
  Forall (eq PASSED) rs ->
  r <> PASSED ->
  fst (fst (runAllTests m s)) = false /\
  snd (runAllTests m s) = snd (run_in_order (pre ++ [h]) s) /\
  runs_of (events (snd (runAllTests m s))) =
    runs_of (events s) ++ pre ++ [h] /\
  (forall k : handle,
      In k post -> ~ In k (pre ++ [h]) ->
      heap (snd (runAllTests m s)) k = heap s k /\
      (result_of (heap s) k = NOT_RUN ->
       result_of (heap (snd (runAllTests m s))) k = NOT_RUN)).
Proof.
  intros Hstop Hts Hrs Hpre Hr.
  assert (Hne : tests_ m <> []) by (rewrite Hts; now destruct pre).
  destruct (runAllTests_nonempty m s Hne) as (Hb & _ & _ & Hs).
  cbv zeta in *. rewrite Hts in Hb, Hs.
  set (m1 := set_overall_result_ _ PASSED) in *.
  destruct (run_each_halts m1 pre h post rs r true s Hstop Hrs Hpre Hr)
    as [Hfalse Hstate].
  rewrite Hb, Hs, Hfalse, Hstate, run_in_order_log.
  repeat split; try reflexivity.
  - now apply run_in_order_frame.
  - unfold result_of. now rewrite run_in_order_frame.
Qed.

(** C10: on an empty registry [getOverallResult()] is [NOT_RUN],
    whatever the tracked field holds, and also after each of the three
    run modes. *)
Theorem getOverallResult_empty (m : TestManager)
    (hp : handle -> BaseTest World) :
  tests_ m = [] ->
  getOverallResult m hp = NOT_RUN /\
  (forall s : Machine World,
      getOverallResult (snd (fst (runAllTests m s)))
        (heap (snd (runAllTests m s))) = NOT_RUN) /\
  (forall (s : Machine World) (test_name : string),
      getOverallResult (snd (fst (runTest m test_name s)))
        (heap (snd (runTest m test_name s))) = NOT_RUN) /\
  (forall (s : Machine World) (pattern : string),
      getOverallResult (snd (fst (runTestsMatching m pattern s)))
        (heap (snd (runTestsMatching m pattern s))) = NOT_RUN).
Proof.
  intros H. unfold getOverallResult, runAllTests, runTest, runTestsMatching,
    matching_tests.
  rewrite H. cbn [List.find filter fst snd ret tests_ set_overall_result_].
  rewrite H. now repeat split.
Qed.

(** *** Pattern matching *)

Lemma starts_with_spec (pattern text : string) :
  starts_with pattern text = true <->
  exists post : string, text = (pattern ++ post)%string.
Proof.
  revert text. induction pattern as [|p ps IH]; intros text; simpl.
  - split; [intros _; now exists text | reflexivity].
  - destruct text as [|c cs].
    + split; [discriminate | intros [post H]; discriminate H].
    + rewrite andb_true_iff, Ascii.eqb_eq, IH. split.
      * intros [-> [post ->]]. now exists post.
      * intros [post H]. injection H as -> ->. split; [reflexivity|].
        now exists post.
Qed.

Lemma find_from_spec (text pattern : string) (pos : nat) :
  find_from pos text pattern <> None <->
  exists pre post : string, text = (pre ++ pattern ++ post)%string.
Proof.
  split.
  - revert pos. induction text as [|c rest IH]; intros pos; simpl.
    + destruct (starts_with pattern "") eqn:E; [|congruence].
      intros _. apply starts_with_spec in E. destruct E as [post E].
      now exists ""%string, post.
    + destruct (starts_with pattern (String c rest)) eqn:E.
      * intros _. apply starts_with_spec in E. destruct E as [post E].
        now exists ""%string, post.
      * intros H. destruct (IH _ H) as (pre & post & ->).
        now exists (String c pre), post.
  - intros (pre & post & ->). revert pos.
    induction pre as [|c pre IH]; intros pos.
    + assert (E : starts_with pattern (pattern ++ post) = true)
        by (apply starts_with_spec; now exists post).
      simpl. destruct (pattern ++ post)%string; simpl; rewrite E; discriminate.
    + simpl. destruct (starts_with pattern _); [discriminate | apply IH].
Qed.

Lemma matchesPattern_spec (text pattern : string) :
  matchesPattern text pattern = true <->
  pattern = "*" \/ contains_ci text pattern.
Proof.
  unfold matchesPattern, contains_ci, find.
  destruct (String.eqb_spec pattern "*") as [->|Hne].
  - split; [now left | reflexivity].
  - rewrite <- find_from_spec with (pos := 0%nat).
    destruct (find_from 0 _ _); split; try congruence.
    + intros _. right. discriminate.
    + intros [H|H]; congruence.
Qed.

(** The tests run by the loop are the first ones of its list, all of
    them unless [stop_on_first_failure_] is set. *)
Lemma run_each_log (ts : list handle) (m : TestManager) (all_passed : bool)
    (s : Machine World) :
  exists executed skipped : list handle,
    ts = executed ++ skipped /\
    runs_of (events (snd (run_each m ts all_passed s))) =
      runs_of (events s) ++ executed /\
    (stop_on_first_failure_ m = false -> skipped = []).
Proof.
  revert m all_passed s.
  induction ts as [|h rest IH]; intros m all_passed s.
  - exists [], []. simpl. now rewrite app_nil_r.
  - rewrite run_each_cons. cbv zeta.
    destruct (run_summary h s) as (_ & _ & Hlog).
    destruct (TestResult_eqb _ PASSED).
    + destruct (IH m all_passed (snd (run h s)))
        as (ex & sk & -> & Hex & Hsk).
      exists (h :: ex), sk. rewrite Hex, Hlog, <- app_assoc. now repeat split.
    + rewrite (proj2 (updateOverallResult_fields _ _)).
      destruct (stop_on_first_failure_ m) eqn:Hstop.
      * exists [h], rest. cbn [snd]. rewrite Hlog.
        repeat split. discriminate.
      * destruct (IH (updateOverallResult m
                        (result_of (heap (snd (run h s))) h))
                     false (snd (run h s)))
          as (ex & sk & -> & Hex & Hsk).
        exists (h :: ex), sk. rewrite Hex, Hlog, <- app_assoc.
        repeat split. intros _. apply Hsk.
        now rewrite (proj2 (updateOverallResult_fields _ _)).
Qed.

(** C6: [runTestsMatching(pattern)] selects the registered tests whose
    name contains the pattern, letter case ignored, and all of them for
    the pattern "*"; the tests it runs are the selected ones, from the
    first on; with nothing selected it runs nothing and returns
    [true]. *)
Theorem runTestsMatching_selection (m : TestManager) (s : Machine World)
    (pattern : string) :
  (forall h : handle,
      In h (matching_tests m (heap s) pattern) <->
      In h (tests_ m) /\
      (pattern = "*" \/ contains_ci (getName (heap s h)) pattern)) /\
  (pattern = "*" -> matching_tests m (heap s) pattern = tests_ m) /\
  (matching_tests m (heap s) pattern = [] ->
   runTestsMatching m pattern s = (true, m, s)) /\
  (exists executed skipped : list handle,
      matching_tests m (heap s) pattern = executed ++ skipped /\
      runs_of (events (snd (runTestsMatching m pattern s))) =
        runs_of (events s) ++ executed /\
      (stop_on_first_failure_ m = false -> skipped = [])).
Proof.
  repeat split.
  - unfold matching_tests in H. now apply filter_In in H.
  - unfold matching_tests in H. apply filter_In in H.
    now apply matchesPattern_spec.
  - intros [Hin Hm]. unfold matching_tests. apply filter_In.
    split; [exact Hin | now apply matchesPattern_spec].
  - intros ->. unfold matching_tests.
    induction (tests_ m) as [|h l IH]; [reflexivity|].
    simpl. now rewrite IH.
  - intros H. unfold runTestsMatching. now rewrite H.
  - unfold runTestsMatching.
    destruct (matching_tests m (heap s) pattern) as [|h l] eqn:E.
    + exists [], []. simpl. now rewrite app_nil_r.
    + rewrite !bind_eq. unfold now_ms, ret. cbn [fst snd].
      set (m1 := set_overall_result_ _ PASSED).
      destruct (run_each_log (h :: l) m1 true s) as (ex & sk & Hsplit & H).
      exists ex, sk. split; [exact Hsplit | exact H].
Qed.

(** *** Statistics *)

Lemma wrap32_small (z : Z) : 0 <= z < 2 ^ 32 -> wrap32 z = z.
Proof. intros H. unfold wrap32. now apply Z.mod_small. Qed.

Lemma count_result_cons (hp : handle -> BaseTest World) (r : TestResult)
    (k : handle) (l : list handle) :
  count_result hp r (k :: l) =
    (if TestResult_eqb (result_of hp k) r then 1 else 0) + count_result hp r l.
Proof.
  unfold count_result. simpl.
  destruct (TestResult_eqb (result_of hp k) r); simpl List.length; lia.
Qed.

Lemma count_result_partition (hp : handle -> BaseTest World)
    (l : list handle) :
  count_result hp PASSED l + count_result hp FAILED l +
  count_result hp SKIPPED l + count_result hp TIMEOUT l +
  count_result hp NOT_RUN l + count_result hp RUNNING l =
  Z.of_nat (List.length l).
Proof.
  induction l as [|k l IH]; [reflexivity|].
  rewrite !count_result_cons. cbn [List.length]. rewrite Nat2Z.inj_succ.
  destruct (result_of hp k); cbn [TestResult_eqb]; lia.
Qed.

(** A counter of [getStatistics] that is bumped for the state [r]
    counts the tests in that state. *)
Lemma fold_count_bucket (hp : handle -> BaseTest World)
    (get : TestStatistics -> Z) (r : TestResult) :
  (forall st k, get (count_test hp st k) =
                if TestResult_eqb (result_of hp k) r
                then wrap32 (get st + 1) else get st) ->
  forall (l : list handle) (st : TestStatistics),
    0 <= get st ->
    get st + Z.of_nat (List.length l) < 2 ^ 32 ->
    get (fold_left (count_test hp) l st) = get st + count_result hp r l.
Proof.
  intros Hget l. induction l as [|k l IH]; intros st Hlo Hhi.
  - cbn. unfold count_result. simpl. lia.
  - cbn [fold_left]. rewrite count_result_cons.
    cbn [List.length] in Hhi. rewrite Nat2Z.inj_succ in Hhi.
    specialize (Hget st k).
    destruct (TestResult_eqb (result_of hp k) r).
    + rewrite wrap32_small in Hget by lia. rewrite IH; lia.
    + rewrite IH; lia.
Qed.

Lemma fold_count_fixed (hp : handle -> BaseTest World) (l : list handle)
    (st : TestStatistics) :
  total_tests (fold_left (count_test hp) l st) = total_tests st /\
  success_rate (fold_left (count_test hp) l st) = success_rate st.
Proof.
  revert st. induction l as [|k l IH]; intros st; [now split|].
  cbn [fold_left]. destruct (IH (count_test hp st k)) as [-> ->]. now split.
Qed.

(** The accumulated duration is the sum of the durations, reduced
    modulo 2^32. *)
Lemma fold_count_duration (hp : handle -> BaseTest World) (l : list handle)
    (st : TestStatistics) :
  0 <= total_duration_ms st < 2 ^ 32 ->
  total_duration_ms (fold_left (count_test hp) l st) =
    wrap32 (total_duration_ms st + sum_durations hp l).
Proof.
  revert st. induction l as [|k l IH]; intros st Hst.
  - cbn. rewrite Z.add_0_r. symmetry. now apply wrap32_small.
  - cbn [fold_left sum_durations fold_right]. rewrite IH.
    + cbn [count_test total_duration_ms]. unfold wrap32.
      rewrite Zplus_mod_idemp_l. f_equal.
      fold (sum_durations hp l). lia.
    + cbn [count_test total_duration_ms]. unfold wrap32.
      apply Z.mod_pos_bound. lia.
Qed.

(** C8, as amended: [getStatistics()] counts the registered tests and,
    in its four buckets, those in state [PASSED], [FAILED], [SKIPPED]
    and [TIMEOUT], tests in state [NOT_RUN] or [RUNNING] being in no
    bucket; [total_duration_ms] is the sum of the durations modulo
    2^32, hence the sum itself when that is below 2^32; [success_rate]
    is the single precision value of passed / total * 100, and zero for
    an empty registry. *)
Theorem getStatistics_contract (m : TestManager)
    (hp : handle -> BaseTest World) :
  Z.of_nat (List.length (tests_ m)) < 2 ^ 32 ->
  let stats := getStatistics m hp in
  let n := Z.of_nat (List.length (tests_ m)) in
  total_tests stats = n /\
  passed_tests stats = count_result hp PASSED (tests_ m) /\
  failed_tests stats = count_result hp FAILED (tests_ m) /\
  skipped_tests stats = count_result hp SKIPPED (tests_ m) /\
  timeout_tests stats = count_result hp TIMEOUT (tests_ m) /\
  passed_tests stats + failed_tests stats + skipped_tests stats +
    timeout_tests stats =
    n - count_result hp NOT_RUN (tests_ m)
      - count_result hp RUNNING (tests_ m) /\
  total_duration_ms stats = wrap32 (sum_durations hp (tests_ m)) /\
  (0 <= sum_durations hp (tests_ m) < 2 ^ 32 ->
   total_duration_ms stats = sum_durations hp (tests_ m)) /\
  success_rate stats =
    if n =? 0 then float_zero
    else float_mul
           (float_div (float_of_uint32 (count_result hp PASSED (tests_ m)))
                      (float_of_uint32 n))
           float_100.
Proof.
  intros Hn. cbv zeta. unfold getStatistics.
  set (stats0 := {| total_tests := _; passed_tests := 0 |}).
  set (stats := fold_left (count_test hp) (tests_ m) stats0).
  assert (Htotal : total_tests stats = Z.of_nat (List.length (tests_ m))).
  { unfold stats. rewrite (proj1 (fold_count_fixed _ _ _)). cbn.
    apply wrap32_small. lia. }
  assert (Hrate : success_rate stats = float_zero).
  { unfold stats. now rewrite (proj2 (fold_count_fixed _ _ _)). }
  assert (Hp : passed_tests stats = count_result hp PASSED (tests_ m)).
  { unfold stats. rewrite (fold_count_bucket hp passed_tests PASSED);
      cbn; try lia. intros st k. cbn. reflexivity. }
  assert (Hf : failed_tests stats = count_result hp FAILED (tests_ m)).
  { unfold stats. rewrite (fold_count_bucket hp failed_tests FAILED);
      cbn; try lia. intros st k. cbn. reflexivity. }
  assert (Hs : skipped_tests stats = count_result hp SKIPPED (tests_ m)).
  { unfold stats. rewrite (fold_count_bucket hp skipped_tests SKIPPED);
      cbn; try lia. intros st k. cbn. reflexivity. }
  assert (Ht : timeout_tests stats = count_result hp TIMEOUT (tests_ m)).
  { unfold stats. rewrite (fold_count_bucket hp timeout_tests TIMEOUT);
      cbn; try lia. intros st k. cbn. reflexivity. }
  assert (Hd : total_duration_ms stats =
               wrap32 (sum_durations hp (tests_ m))).
  { unfold stats. rewrite fold_count_duration; cbn; [reflexivity | lia]. }
  pose proof (count_result_partition hp (tests_ m)) as Hpart.
  rewrite Htotal.
  destruct (Z.ltb_spec 0 (Z.of_nat (List.length (tests_ m)))) as [Hpos|Hzero];
    cbn [total_tests passed_tests failed_tests skipped_tests timeout_tests
         total_duration_ms success_rate];
    rewrite ?Htotal, ?Hp, ?Hf, ?Hs, ?Ht, ?Hd, ?Hrate.
  - destruct (Z.eqb_spec (Z.of_nat (List.length (tests_ m))) 0); [lia|].
    repeat split; try lia. intros H. now apply wrap32_small.
  - destruct (Z.eqb_spec (Z.of_nat (List.length (tests_ m))) 0); [|lia].
    repeat split; try lia. intros H. now apply wrap32_small.
Qed.

End TestManagerProperties.

(** ** The properties on the concrete registry *)

(** C1 on the memory test, whose second step fails: [execute()]
    fails and [teardown()] is called once. *)
Lemma run_teardown_exactly_once_witness :
  out_code (setup_outcome (heap DemoPsram.machine 0%nat)
              (world DemoPsram.machine)) = ESP_OK /\
  out_code (execute_outcome (heap DemoPsram.machine 0%nat)
              (world DemoPsram.machine)) = ESP_FAIL /\
  events (snd (run 0%nat DemoPsram.machine)) =
    [EvRun 0%nat; EvSetup 0%nat; EvExecute 0%nat;
     EvStep "Check PSRAM availability"; EvAction "Check PSRAM availability";
     EvStep "Verify PSRAM size"; EvAction "Verify PSRAM size";
     EvTeardown 0%nat] /\
  calls (is_teardown_of 0%nat) (events (snd (run 0%nat DemoPsram.machine)))
    = 1%nat /\
  world (snd (run 0%nat DemoPsram.machine)) = 5%nat.
Proof.
  assert (Hsetup : out_code (setup_outcome (heap DemoPsram.machine 0%nat)
                               (world DemoPsram.machine)) = ESP_OK)
    by (vm_compute; reflexivity).
  pose (H := run_teardown_exactly_once 0%nat DemoPsram.machine Hsetup).
  split; [exact Hsetup|]. split; [vm_compute; reflexivity|].
  split; [exact (proj1 H)|].
  split; [exact (proj1 (proj2 H)) | exact (proj1 (proj2 (proj2 H)))].
Defined.

(** C2 on the test whose setup phase fails. *)
Lemma run_setup_failure_witness :
  fst (run 3%nat Demo.machine) = FAILED /\
  events (snd (run 3%nat Demo.machine)) = [EvRun 3%nat; EvSetup 3%nat] /\
  world (snd (run 3%nat Demo.machine)) = 1%nat.
Proof.
  assert (H : out_code (setup_outcome (heap Demo.machine 3%nat)
                          (world Demo.machine)) <> ESP_OK)
    by (vm_compute; discriminate).
  pose (R := run_setup_failure 3%nat Demo.machine H).
  split; [exact (proj1 R)|].
  split; [exact (proj1 (proj2 (proj2 (proj2 R))))|].
  exact (proj1 (proj2 (proj2 (proj2 (proj2 R))))).
Defined.

(** C3 on [A(critical), B(critical, fails), C(critical)] and on
    [A(non-critical, fails), B(critical)]. *)
Lemma runSteps_contract_witness :
  (runSteps 0%nat (Demo.with_steps Demo.steps_abc) =
     (ESP_FAIL,
      snd (attempt_all (firstn 2 Demo.steps_abc)
             (Demo.with_steps Demo.steps_abc))) /\
   steps_of (events (snd (runSteps 0%nat (Demo.with_steps Demo.steps_abc))))
     = ["A"; "B"]) /\
  (runSteps 0%nat (Demo.with_steps Demo.steps_ab) =
     (ESP_OK,
      snd (attempt_all Demo.steps_ab (Demo.with_steps Demo.steps_ab))) /\
   steps_of (events (snd (runSteps 0%nat (Demo.with_steps Demo.steps_ab))))
     = ["A"; "B"]).
Proof.
  split.
  - refine (proj1 (runSteps_contract 0%nat (Demo.with_steps Demo.steps_abc)
                     Demo.steps_abc eq_refl)
              (firstn 1 Demo.steps_abc) (nth 1 Demo.steps_abc Demo.unbound_step)
              (skipn 2 Demo.steps_abc) [ESP_OK] ESP_FAIL
              eq_refl eq_refl _ eq_refl _).
    + repeat constructor.
    + discriminate.
  - refine (proj2 (runSteps_contract 0%nat (Demo.with_steps Demo.steps_ab)
                     Demo.steps_ab eq_refl) _).
    vm_compute. repeat constructor; discriminate.
Defined.

(** C9 on a step without action and on a bound step. *)
Lemma executeStep_contract_witness :
  executeStep Demo.unbound_step Demo.machine =
    (ESP_ERR_INVALID_ARG, Demo.machine) /\
  fst (executeStep (nth 1 Demo.steps_abc Demo.unbound_step) Demo.machine)
    = ESP_FAIL.
Proof.
  split.
  - exact (proj1 (executeStep_contract Demo.unbound_step Demo.machine)
             eq_refl).
  - exact (proj1 (proj1 (proj2 (executeStep_contract
             (nth 1 Demo.steps_abc Demo.unbound_step) Demo.machine))
             Demo.fail eq_refl)).
Defined.

(** C4: on the empty registry the two results differ. *)
Lemma overall_result_disagrees_on_empty_registry :
  getOverallResult (snd (fst (runAllTests TestManager_new Demo.machine)))
    (heap (snd (runAllTests TestManager_new Demo.machine))) = NOT_RUN /\
  overall_result_ (snd (fst (runAllTests TestManager_new Demo.machine)))
    = SKIPPED /\
  getOverallResult (snd (fst (runAllTests TestManager_new Demo.machine)))
    (heap (snd (runAllTests TestManager_new Demo.machine))) <>
  overall_result_ (snd (fst (runAllTests TestManager_new Demo.machine))).
Proof. vm_compute. repeat split; discriminate. Qed.

(** They also differ when an object is registered twice and passes on
    its second run only. *)
Example overall_result_disagrees_on_shared_object :
  let o := runAllTests Demo.manager_twice Demo.machine in
  getOverallResult (snd (fst o)) (heap (snd o)) = PASSED /\
  overall_result_ (snd (fst o)) = FAILED.
Proof. vm_compute. now split. Qed.

(** C4, as amended, on the registry [pass, fail, pass]. *)
Lemma overall_result_agreement_witness :
  let o := runAllTests Demo.manager Demo.machine in
  getOverallResult (snd (fst o)) (heap (snd o)) =
    overall_result_ (snd (fst o)).
Proof.
  refine (overall_result_agreement Demo.manager Demo.machine _ _).
  - discriminate.
  - vm_compute. repeat constructor; simpl; intuition discriminate.
Defined.

(** C5 on the manager as constructed. *)
Lemma runAllTests_empty_witness :
  fst (fst (runAllTests TestManager_new Demo.machine)) = true /\
  overall_result_ (snd (fst (runAllTests TestManager_new Demo.machine)))
    = SKIPPED /\
  snd (runAllTests TestManager_new Demo.machine) = Demo.machine.
Proof. exact (runAllTests_empty TestManager_new Demo.machine eq_refl). Defined.

(** C6 on the registry "BNO055", "PSRAM", "WiFi". *)
Lemma runTestsMatching_selection_witness :
  (In 0%nat (matching_tests Demo.manager Demo.objects "no") <->
   In 0%nat (tests_ Demo.manager) /\
   ("no" = "*" \/ contains_ci "BNO055" "no")) /\
  matching_tests Demo.manager Demo.objects "*" = tests_ Demo.manager /\
  runTestsMatching Demo.manager "zzz" Demo.machine =
    (true, Demo.manager, Demo.machine).
Proof.
  split; [|split].
  - exact (proj1 (runTestsMatching_selection Demo.manager Demo.machine "no")
             0%nat).
  - exact (proj1 (proj2 (runTestsMatching_selection Demo.manager
             Demo.machine "*")) eq_refl).
  - exact (proj1 (proj2 (proj2 (runTestsMatching_selection Demo.manager
             Demo.machine "zzz"))) eq_refl).
Defined.

Example runTestsMatching_examples :
  matching_tests Demo.manager Demo.objects "no" = [0%nat] /\
  matching_tests Demo.manager Demo.objects "*" = [0%nat; 1%nat; 2%nat] /\
  matching_tests Demo.manager Demo.objects "zzz" = [] /\
  matching_tests Demo.manager Demo.objects "wIfI" = [2%nat] /\
  fst (fst (runTestsMatching Demo.manager "zzz" Demo.machine)) = true.
Proof. vm_compute. now repeat split. Qed.

(** C7: a test object registered after the failing test and also
    before it has been run, and its status is [PASSED], not
    [NOT_RUN]. *)
Lemma stop_on_first_failure_shared_object :
  let m := setStopOnFirstFailure Demo.manager_again true in
  let o := runAllTests m Demo.machine in
  tests_ m = [0%nat; 1%nat; 0%nat] /\
  result_of (heap Demo.machine) 0%nat = NOT_RUN /\
  fst (fst o) = false /\
  runs_of (events (snd o)) = [0%nat; 1%nat] /\
  result_of (heap (snd o)) 1%nat = FAILED /\
  nth_error (tests_ m) 2 = Some 0%nat /\
  result_of (heap (snd o)) 0%nat = PASSED /\
  result_of (heap (snd o)) 0%nat <> NOT_RUN.
Proof. vm_compute. repeat split; discriminate. Qed.

(** C7, as amended, on [pass, fail, pass]: the first two tests are run
    and the third stays [NOT_RUN]. *)
Lemma stop_on_first_failure_halts_witness :
  let m := setStopOnFirstFailure Demo.manager true in
  fst (fst (runAllTests m Demo.machine)) = false /\
  runs_of (events (snd (runAllTests m Demo.machine))) = [0%nat; 1%nat] /\
  result_of (heap (snd (runAllTests m Demo.machine))) 2%nat = NOT_RUN.
Proof.
  cbv zeta.
  assert (Hrs : fst (run_in_order ([0%nat] ++ [1%nat]) Demo.machine) =
                [PASSED] ++ [FAILED]) by (vm_compute; reflexivity).
  assert (Hpre : Forall (eq PASSED) [PASSED]) by repeat constructor.
  assert (Hr : FAILED <> PASSED) by discriminate.
  pose (H := stop_on_first_failure_halts
               (setStopOnFirstFailure Demo.manager true)
               [0%nat] 1%nat [2%nat] [PASSED] FAILED Demo.machine
               eq_refl eq_refl Hrs Hpre Hr).
  split; [exact (proj1 H)|].
  split; [exact (proj1 (proj2 (proj2 H)))|].
  refine (proj2 (proj2 (proj2 (proj2 H)) 2%nat _ _) eq_refl).
  - now left.
  - simpl. intuition discriminate.
Defined.

(** C8: two tests of 2^31 ms each accumulate to zero. *)
Lemma total_duration_wraps_around :
  sum_durations Demo.long_objects (tests_ Demo.manager_two) = 4294967296 /\
  total_duration_ms (getStatistics Demo.manager_two Demo.long_objects) = 0 /\
  total_duration_ms (getStatistics Demo.manager_two Demo.long_objects) <>
    sum_durations Demo.long_objects (tests_ Demo.manager_two).
Proof. vm_compute. repeat split; discriminate. Qed.

(** C8, as amended, after a run in which two tests pass and one
    fails. *)
Lemma getStatistics_contract_witness :
  let hp := heap (snd (runAllTests Demo.manager Demo.machine)) in
  let stats := getStatistics Demo.manager hp in
  total_tests stats = 3 /\
  passed_tests stats = count_result hp PASSED (tests_ Demo.manager) /\
  failed_tests stats = count_result hp FAILED (tests_ Demo.manager) /\
  total_duration_ms stats = wrap32 (sum_durations hp (tests_ Demo.manager)).
Proof.
  cbv zeta.
  assert (Hn : Z.of_nat (List.length (tests_ Demo.manager)) < 2 ^ 32)
    by (vm_compute; reflexivity).
  pose (H := getStatistics_contract Demo.manager
               (heap (snd (runAllTests Demo.manager Demo.machine))) Hn).
  cbv zeta in H.
  split; [exact (proj1 H)|].
  split; [exact (proj1 (proj2 H))|].
  split; [exact (proj1 (proj2 (proj2 H)))|].
  exact (proj1 (proj2 (proj2 (proj2 (proj2 (proj2 (proj2 H))))))).
Defined.

(** Two of three tests passed: 66.67 per cent, as the nearest single
    precision number to 0.6666667 * 100. *)
Example getStatistics_two_of_three :
  let hp := heap (snd (runAllTests Demo.manager Demo.machine)) in
  let stats := getStatistics Demo.manager hp in
  total_tests stats = 3 /\ passed_tests stats = 2 /\
  failed_tests stats = 1 /\ total_duration_ms stats = 80 /\
  success_rate stats = S754_finite false 8738134 (-17).
Proof. vm_compute. now repeat split. Qed.

(** C10 on the manager as constructed. *)
Lemma getOverallResult_empty_witness :
  getOverallResult TestManager_new Demo.objects = NOT_RUN /\
  getOverallResult (snd (fst (runAllTests TestManager_new Demo.machine)))
    (heap (snd (runAllTests TestManager_new Demo.machine))) = NOT_RUN.
Proof.
  pose (H := getOverallResult_empty TestManager_new Demo.objects eq_refl).
  split; [exact (proj1 H) | exact (proj1 (proj2 H) Demo.machine)].
Defined.

(** ** Further properties of BaseTest *)

Section MoreBaseTestProperties.

Context {World : Type} {platform : Platform World}.

(** X1: [run()] returns [PASSED] exactly when [setup()], [execute()] and
    [teardown()], called one after the other, all return [ESP_OK]; in
    every other case it returns [FAILED]. *)
Theorem run_passes_iff_phases_succeed (this : handle) (s : Machine World) :
  let t := heap s this in
  (fst (run this s) = PASSED <->
   out_code (setup_outcome t (world s)) = ESP_OK /\
   out_code (execute_outcome t (world s)) = ESP_OK /\
   out_code (teardown_outcome t (world s)) = ESP_OK) /\
  (fst (run this s) <> PASSED -> fst (run this s) = FAILED).
Proof.
  cbv zeta. destruct (run_eq this s) as (Hr & _). cbv zeta in Hr.
  rewrite Hr.
  destruct (Z.eqb_spec (out_code (setup_outcome (heap s this) (world s)))
              ESP_OK) as [E1|E1];
    destruct (Z.eqb_spec (out_code (execute_outcome (heap s this) (world s)))
                ESP_OK) as [E2|E2];
    destruct (Z.eqb_spec (out_code (teardown_outcome (heap s this) (world s)))
                ESP_OK) as [E3|E3];
    cbn [negb orb]; (split; [|congruence]);
    (split; [try discriminate; now repeat split | intros (H1 & H2 & H3)]);
    try reflexivity; contradiction.
Qed.

(** X2: the message recorded by [run()] names the first phase that
    failed, so that a failure of [teardown()] after a failed
    [execute()] is not reported; [error_code] is [ESP_FAIL], as an
    unsigned 32-bit number, after a failure and [ESP_OK] after a
    success. *)
Theorem run_reports_first_failure (this : handle) (s : Machine World) :
  let t := heap s this in
  let r1 := out_code (setup_outcome t (world s)) in
  let r2 := out_code (execute_outcome t (world s)) in
  let r3 := out_code (teardown_outcome t (world s)) in
  let st' := getStatus (heap (snd (run this s)) this) in
  message st' =
    (if negb (Z.eqb r1 ESP_OK) then "Setup phase failed"
     else if negb (Z.eqb r2 ESP_OK) then "Execute phase failed"
     else if negb (Z.eqb r3 ESP_OK) then "Teardown phase failed"
     else "Test completed successfully") /\
  error_code st' =
    (if TestResult_eqb (result st') PASSED then wrap32 ESP_OK
     else wrap32 ESP_FAIL).
Proof.
  cbv zeta. unfold getStatus.
  destruct (run_eq this s) as (_ & _ & _ & Hh). cbv zeta in Hh.
  rewrite Hh, Nat.eqb_refl.
  cbn [with_test_steps with_status status_ message error_code result].
  split; [reflexivity|].
  now destruct (negb _ || negb _ || negb _).
Qed.

(** X3: [start_time] is the clock at the entry of [run()] and
    [duration_ms] the clock difference, modulo 2^32, up to the end of
    the first failing phase (so before [teardown()] when [execute()]
    failed) or of [teardown()]; it is the elapsed time itself whenever
    that is below 2^32 ms, also when the millisecond clock wrapped
    around in between. *)
Theorem run_timer (this : handle) (s : Machine World) :
  let t := heap s this in
  let o1 := setup_outcome t (world s) in
  let o2 := execute_outcome t (world s) in
  let o3 := teardown_outcome t (world s) in
  let w_stop :=
    if negb (Z.eqb (out_code o1) ESP_OK) then out_world o1
    else if negb (Z.eqb (out_code o2) ESP_OK) then out_world o2
    else out_world o3 in
  let st' := getStatus (heap (snd (run this s)) this) in
  start_time st' = clock_ms (world s) /\
  duration_ms st' = wrap32 (clock_ms w_stop - clock_ms (world s)) /\
  0 <= duration_ms st' < 2 ^ 32 /\
  (forall elapsed : Z,
      0 <= elapsed < 2 ^ 32 ->
      clock_ms w_stop = wrap32 (clock_ms (world s) + elapsed) ->
      duration_ms st' = elapsed).
Proof.
  cbv zeta. unfold getStatus.
  destruct (run_eq this s) as (_ & _ & _ & Hh). cbv zeta in Hh.
  rewrite Hh, Nat.eqb_refl.
  cbn [with_test_steps with_status status_ start_time duration_ms].
  assert (Hstop :
    out_world
      (if negb (out_code (setup_outcome (heap s this) (world s)) =? ESP_OK)
       then setup_outcome (heap s this) (world s)
       else if negb (out_code (execute_outcome (heap s this) (world s))
                     =? ESP_OK)
            then execute_outcome (heap s this) (world s)
            else teardown_outcome (heap s this) (world s)) =
    (if negb (out_code (setup_outcome (heap s this) (world s)) =? ESP_OK)
     then out_world (setup_outcome (heap s this) (world s))
     else if negb (out_code (execute_outcome (heap s this) (world s))
                   =? ESP_OK)
          then out_world (execute_outcome (heap s this) (world s))
          else out_world (teardown_outcome (heap s this) (world s)))).
  { now destruct (negb _); [|destruct (negb _)]. }
  rewrite Hstop.
  split; [reflexivity|]. split; [reflexivity|]. split.
  - unfold wrap32. apply Z.mod_pos_bound. lia.
  - intros elapsed He ->. unfold wrap32.
    rewrite Zminus_mod_idemp_l.
    replace (clock_ms (world s) + elapsed - clock_ms (world s))
      with elapsed by lia.
    now apply Z.mod_small.
Qed.

Context {members : PSRAMTest_members World}.



End MoreBaseTestProperties.

(** ** Further properties of TestManager *)

Section MoreTestManagerProperties.

Context {World : Type} {platform : Platform World}.

(** The loop keeps [all_passed] and the tracked result in step. *)
Lemma run_each_verdict (ts : list handle) (m : TestManager)
    (all_passed : bool) (s : Machine World) :
  (all_passed = true /\ overall_result_ m = PASSED) \/
  (all_passed = false /\ overall_result_ m = FAILED) ->
  (fst (fst (run_each m ts all_passed s)) = true /\
   overall_result_ (snd (fst (run_each m ts all_passed s))) = PASSED) \/
  (fst (fst (run_each m ts all_passed s)) = false /\
   overall_result_ (snd (fst (run_each m ts all_passed s))) = FAILED).
Proof.
  revert m all_passed s.
  induction ts as [|h rest IH]; intros m all_passed s Hinv; [exact Hinv|].
  rewrite run_each_cons. cbv zeta.
  destruct (run_summary h s) as (Hres & Hcases & _). rewrite Hres.
  destruct Hcases as [-> | ->]; cbn [TestResult_eqb]; [now apply IH|].
  change (updateOverallResult m FAILED) with (set_overall_result_ m FAILED).
  destruct (stop_on_first_failure_ _); [now right | apply IH; now right].
Qed.

(** Without [stop_on_first_failure_] the loop runs its whole list. *)
Lemma run_each_complete (ts : list handle) (m : TestManager)
    (all_passed : bool) (s : Machine World) :
  stop_on_first_failure_ m = false ->
  snd (run_each m ts all_passed s) = snd (run_in_order ts s) /\
  fst (fst (run_each m ts all_passed s)) =
    all_passed &&
    forallb (fun r => TestResult_eqb r PASSED) (fst (run_in_order ts s)).
Proof.
  revert m all_passed s.
  induction ts as [|h rest IH]; intros m all_passed s Hstop.
  - simpl. now rewrite andb_true_r.
  - rewrite run_each_cons, run_in_order_cons. cbv zeta.
    cbn [fst snd forallb].
    destruct (TestResult_eqb (fst (run h s)) PASSED); [now apply IH|].
    rewrite (proj2 (updateOverallResult_fields _ _)), Hstop.
    rewrite andb_false_r.
    destruct (IH (updateOverallResult m (result_of (heap (snd (run h s))) h))
                 false (snd (run h s))) as [-> ->]; [|now split].
    now rewrite (proj2 (updateOverallResult_fields _ _)).
Qed.

(** X5: what [runAllTests()] and [runTestsMatching()] return goes with
    the tracked result: [true] with [overall_result_] = [PASSED],
    [false] with [overall_result_] = [FAILED], whenever at least one
    test is selected; the tracked result is never [TIMEOUT]. *)
Theorem run_modes_track_verdict (m : TestManager) (s : Machine World) :
  (tests_ m <> [] ->
   (fst (fst (runAllTests m s)) = true /\
    overall_result_ (snd (fst (runAllTests m s))) = PASSED) \/
   (fst (fst (runAllTests m s)) = false /\
    overall_result_ (snd (fst (runAllTests m s))) = FAILED)) /\
  (forall pattern : string,
      matching_tests m (heap s) pattern <> [] ->
      (fst (fst (runTestsMatching m pattern s)) = true /\
       overall_result_ (snd (fst (runTestsMatching m pattern s))) = PASSED) \/
      (fst (fst (runTestsMatching m pattern s)) = false /\
       overall_result_ (snd (fst (runTestsMatching m pattern s))) = FAILED)).
Proof.
  split.
  - intros Hne.
    destruct (runAllTests_nonempty m s Hne) as (-> & -> & _).
    apply run_each_verdict. now left.
  - intros pattern Hne. unfold runTestsMatching.
    destruct (matching_tests m (heap s) pattern) as [|h l]; [contradiction|].
    rewrite !bind_eq. unfold now_ms, ret. cbn [fst snd].
    cbn [overall_result_ set_execution_end_time_].
    apply run_each_verdict. now left.
Qed.

(** X6: without [stop_on_first_failure_], [runAllTests()] runs every
    registered test once, in registration order, and returns [true]
    exactly when every [run()] returned [PASSED]. *)
Theorem runAllTests_runs_every_test (m : TestManager) (s : Machine World) :
  stop_on_first_failure_ m = false ->
  snd (runAllTests m s) = snd (run_in_order (tests_ m) s) /\
  runs_of (events (snd (runAllTests m s))) = runs_of (events s) ++ tests_ m /\
  fst (fst (runAllTests m s)) =
    forallb (fun r => TestResult_eqb r PASSED)
            (fst (run_in_order (tests_ m) s)).
Proof.
  intros Hstop.
  assert (H : snd (runAllTests m s) = snd (run_in_order (tests_ m) s) /\
              fst (fst (runAllTests m s)) =
                forallb (fun r => TestResult_eqb r PASSED)
                        (fst (run_in_order (tests_ m) s))).
  { destruct (tests_ m) as [|h l] eqn:E.
    - unfold runAllTests. rewrite E. now split.
    - assert (Hne : tests_ m <> []) by (rewrite E; discriminate).
      destruct (runAllTests_nonempty m s Hne) as (-> & _ & _ & ->).
      cbv zeta. rewrite E.
      destruct (run_each_complete (h :: l)
                  (set_overall_result_
                     (set_execution_start_time_ m
                        (wrap32 (xTaskGetTickCount (world s) *
                                 portTICK_PERIOD_MS))) PASSED)
                  true s Hstop) as [-> ->].
      now split. }
  destruct H as [Hs Hb]. rewrite Hs, Hb, run_in_order_log. now repeat split.
Qed.

(** X7: [runTest(name)] with a name that no registered test bears
    returns [false] and does nothing: no test is run and the manager is
    as before. *)
Theorem runTest_unknown_name (m : TestManager) (test_name : string)
    (s : Machine World) :
  (forall h : handle, In h (tests_ m) -> getName (heap s h) <> test_name) ->
  runTest m test_name s = (false, m, s).
Proof.
  intros Hnone. unfold runTest.
  destruct (List.find _ (tests_ m)) as [h|] eqn:E; [|reflexivity].
  apply find_some in E. destruct E as [Hin Hname].
  apply String.eqb_eq in Hname. now apply Hnone in Hin.
Qed.

(** X8: [runTest(name)] runs the first registered test of that name,
    and only that one; it returns [true] exactly when that [run()]
    returned [PASSED] and leaves the registry and the tracked
    [overall_result_] as they were. *)
Theorem runTest_runs_first_match (m : TestManager) (test_name : string)
    (pre : list handle) (h : handle) (post : list handle)
    (s : Machine World) :
  tests_ m = pre ++ h :: post ->
  getName (heap s h) = test_name ->
  (forall k : handle, In k pre -> getName (heap s k) <> test_name) ->
  fst (fst (runTest m test_name s)) = TestResult_eqb (fst (run h s)) PASSED /\
  snd (runTest m test_name s) = snd (run h s) /\
  runs_of (events (snd (runTest m test_name s))) = runs_of (events s) ++ [h] /\
  tests_ (snd (fst (runTest m test_name s))) = tests_ m /\
  overall_result_ (snd (fst (runTest m test_name s))) = overall_result_ m.
Proof.
  intros Hts Hname Hpre. unfold runTest. rewrite Hts.
  assert (E : List.find (fun k => String.eqb (getName (heap s k)) test_name)
                (pre ++ h :: post) = Some h).
  { clear Hts. induction pre as [|k pre IH]; simpl.
    - now rewrite Hname, String.eqb_refl.
    - destruct (String.eqb_spec (getName (heap s k)) test_name) as [Hk|_].
      + exfalso. apply (Hpre k); [now left | exact Hk].
      + apply IH. intros k' Hk'. apply Hpre. now right. }
  rewrite E, !bind_eq, executeTest_eq. unfold now_ms, ret. cbn [fst snd].
  destruct (run_summary h s) as (_ & _ & Hlog).
  now repeat split.
Qed.

(** X9: on a registry that is not empty, [runTestsMatching("*")] is
    [runAllTests()]: same value, same manager fields, same effects. On
    the empty registry it leaves the manager untouched. *)
Theorem runTestsMatching_star (m : TestManager) (s : Machine World) :
  (tests_ m <> [] -> runTestsMatching m "*" s = runAllTests m s) /\
  (tests_ m = [] -> runTestsMatching m "*" s = (true, m, s)).
Proof.
  assert (Hall : matching_tests m (heap s) "*" = tests_ m).
  { unfold matching_tests. induction (tests_ m) as [|h l IH];
      [reflexivity|]. simpl. now rewrite IH. }
  unfold runTestsMatching, runAllTests. rewrite Hall.
  destruct (tests_ m) as [|h l] eqn:E; split; try congruence; intros _.
  cbn [tests_ set_overall_result_ set_execution_start_time_].
  rewrite !bind_eq. unfold now_ms, ret. cbn [fst snd].
  cbn [tests_ set_overall_result_ set_execution_start_time_].
  now rewrite E.
Qed.

End MoreTestManagerProperties.

Section AggregationProperties.

Context {World : Type} {platform : Platform World}.

Lemma existsb_same_elements {A : Type} (f : A -> bool) (l1 l2 : list A) :
  (forall x, In x l1 <-> In x l2) -> existsb f l1 = existsb f l2.
Proof.
  intros H. apply eq_true_iff_eq. rewrite !existsb_exists.
  split; intros (x & Hx & Hf); exists x; split; try exact Hf; now apply H.
Qed.

Lemma forallb_same_elements {A : Type} (f : A -> bool) (l1 l2 : list A) :
  (forall x, In x l1 <-> In x l2) -> forallb f l1 = forallb f l2.
Proof.
  intros H. apply eq_true_iff_eq. rewrite !forallb_forall.
  split; intros Hall x Hx; apply Hall; now apply H.
Qed.

(** [getOverallResult] on a registry that is not empty, by the three
    tests it makes. *)
Lemma getOverallResult_decision (m : TestManager)
    (hp : handle -> BaseTest World) :
  tests_ m <> [] ->
  getOverallResult m hp =
    if existsb (fun k => TestResult_eqb (result_of hp k) FAILED) (tests_ m)
    then FAILED
    else if existsb (fun k => TestResult_eqb (result_of hp k) TIMEOUT)
                    (tests_ m)
    then TIMEOUT
    else if forallb (fun k => TestResult_eqb (result_of hp k) PASSED)
                    (tests_ m)
    then PASSED
    else SKIPPED.
Proof.
  intros Hne. unfold getOverallResult.
  destruct (tests_ m) as [|h l]; [contradiction|].
  now rewrite fold_overall_flags.
Qed.

(** X10: folding [updateOverallResult] over the results of a batch
    yields the worst of them: [FAILED] once one is [FAILED] (or the
    field held [FAILED] before), else [TIMEOUT] once one is [TIMEOUT],
    else the field is unchanged; in particular the order of the results
    does not matter and [FAILED] is never overwritten. *)
Theorem updateOverallResult_keeps_worst (m : TestManager)
    (rs : list TestResult) :
  overall_result_ (update_all m rs) =
    (if TestResult_eqb (overall_result_ m) FAILED
        || existsb (fun r => TestResult_eqb r FAILED) rs
     then FAILED
     else if existsb (fun r => TestResult_eqb r TIMEOUT) rs then TIMEOUT
     else overall_result_ m) /\
  tests_ (update_all m rs) = tests_ m /\
  stop_on_first_failure_ (update_all m rs) = stop_on_first_failure_ m.
Proof.
  unfold update_all. revert m.
  induction rs as [|r rs IH]; intros m; cbn [fold_left existsb].
  - rewrite orb_false_r. split; [|now split].
    now destruct (overall_result_ m).
  - destruct (IH (updateOverallResult m r)) as (-> & -> & ->).
    destruct (updateOverallResult_fields m r) as [-> ->].
    split; [|now split].
    unfold updateOverallResult.
    destruct r, (overall_result_ m) eqn:E; cbn; rewrite ?E; cbn;
      try reflexivity;
      now destruct (existsb (fun r => TestResult_eqb r FAILED) rs),
                   (existsb (fun r => TestResult_eqb r TIMEOUT) rs).
Qed.

(** X11: on a registry that is not empty, [getOverallResult()] is
    [FAILED] exactly when some test is [FAILED]; [TIMEOUT] when none is
    [FAILED] and some is [TIMEOUT]; [PASSED] exactly when every test is
    [PASSED]; [SKIPPED] otherwise. It is never [NOT_RUN] or
    [RUNNING]. *)
Theorem getOverallResult_cases (m : TestManager)
    (hp : handle -> BaseTest World) :
  tests_ m <> [] ->
  let some (r : TestResult) :=
    exists k, In k (tests_ m) /\ result_of hp k = r in
  let all_passed :=
    forall k, In k (tests_ m) -> result_of hp k = PASSED in
  (getOverallResult m hp = FAILED <-> some FAILED) /\
  (getOverallResult m hp = TIMEOUT <-> ~ some FAILED /\ some TIMEOUT) /\
  (getOverallResult m hp = PASSED <-> all_passed) /\
  (getOverallResult m hp = SKIPPED <->
   ~ some FAILED /\ ~ some TIMEOUT /\ ~ all_passed) /\
  getOverallResult m hp <> NOT_RUN /\
  getOverallResult m hp <> RUNNING.
Proof.
  intros Hne. cbv zeta. rewrite (getOverallResult_decision m hp Hne).
  assert (Hex : forall r,
            existsb (fun k => TestResult_eqb (result_of hp k) r) (tests_ m)
              = true <->
            exists k, In k (tests_ m) /\ result_of hp k = r).
  { intros r. rewrite existsb_exists.
    split; intros (k & Hk & H); exists k; split; try exact Hk;
      now apply TestResult_eqb_eq. }
  assert (Hall :
            forallb (fun k => TestResult_eqb (result_of hp k) PASSED)
                    (tests_ m) = true <->
            forall k, In k (tests_ m) -> result_of hp k = PASSED).
  { rewrite forallb_forall.
    split; intros H k Hk; apply TestResult_eqb_eq; now apply H. }
  assert (Hconflict : forall r,
            r <> PASSED ->
            (exists k, In k (tests_ m) /\ result_of hp k = r) ->
            ~ (forall k, In k (tests_ m) -> result_of hp k = PASSED)).
  { intros r Hr (k & Hk & Hkr) H. rewrite (H k Hk) in Hkr. now apply Hr. }
  destruct (existsb (fun k => TestResult_eqb (result_of hp k) FAILED)
              (tests_ m)) eqn:Ef.
  { apply Hex in Ef.
    pose proof (Hconflict FAILED (fun H => ltac:(discriminate H)) Ef) as Hc.
    repeat split; try discriminate; auto; tauto. }
  assert (Hnf : ~ (exists k, In k (tests_ m) /\ result_of hp k = FAILED)).
  { intros H. apply Hex in H. congruence. }
  destruct (existsb (fun k => TestResult_eqb (result_of hp k) TIMEOUT)
              (tests_ m)) eqn:Et.
  { apply Hex in Et.
    pose proof (Hconflict TIMEOUT (fun H => ltac:(discriminate H)) Et) as Hc.
    repeat split; try discriminate; auto; tauto. }
  assert (Hnt : ~ (exists k, In k (tests_ m) /\ result_of hp k = TIMEOUT)).
  { intros H. apply Hex in H. congruence. }
  destruct (forallb (fun k => TestResult_eqb (result_of hp k) PASSED)
              (tests_ m)) eqn:Ep.
  - pose proof (proj1 Hall eq_refl) as Hp.
    repeat split; try discriminate; auto; tauto.
  - assert (Hnp : ~ (forall k, In k (tests_ m) -> result_of hp k = PASSED)).
    { intros H. apply (proj2 Hall) in H. discriminate. }
    repeat split; try discriminate; auto; tauto.
Qed.

(** X12: [getOverallResult()] depends on which test objects are
    registered, not on their order nor on how often each is
    registered. *)
Theorem getOverallResult_order_independent (m1 m2 : TestManager)
    (hp : handle -> BaseTest World) :
  (forall k : handle, In k (tests_ m1) <-> In k (tests_ m2)) ->
  getOverallResult m1 hp = getOverallResult m2 hp.
Proof.
  intros Hsame.
  destruct (tests_ m1) as [|h1 l1] eqn:E1.
  - destruct (tests_ m2) as [|h2 l2] eqn:E2.
    + unfold getOverallResult. now rewrite E1, E2.
    + exfalso. apply (proj2 (Hsame h2)). now left.
  - assert (Hne1 : tests_ m1 <> []) by (rewrite E1; discriminate).
    assert (Hne2 : tests_ m2 <> []).
    { intros E2. rewrite E2 in Hsame. apply (proj1 (Hsame h1)). now left. }
    rewrite (getOverallResult_decision m1 hp Hne1),
            (getOverallResult_decision m2 hp Hne2), E1.
    rewrite !(existsb_same_elements _ (h1 :: l1) (tests_ m2)) by exact Hsame.
    now rewrite (forallb_same_elements _ (h1 :: l1) (tests_ m2))
      by exact Hsame.
Qed.

Lemma getStatistics_buckets (m : TestManager)
    (hp : handle -> BaseTest World) :
  Z.of_nat (List.length (tests_ m)) < 2 ^ 32 ->
  total_tests (getStatistics m hp) = Z.of_nat (List.length (tests_ m)) /\
  passed_tests (getStatistics m hp) = count_result hp PASSED (tests_ m) /\
  failed_tests (getStatistics m hp) = count_result hp FAILED (tests_ m).
Proof.
  intros Hn. unfold getStatistics.
  set (stats0 := {| total_tests := _; passed_tests := 0 |}).
  set (stats := fold_left (count_test hp) (tests_ m) stats0).
  assert (Htotal : total_tests stats = Z.of_nat (List.length (tests_ m))).
  { unfold stats. rewrite (proj1 (fold_count_fixed _ _ _)). cbn.
    apply wrap32_small. lia. }
  assert (Hp : passed_tests stats = count_result hp PASSED (tests_ m)).
  { unfold stats. rewrite (fold_count_bucket hp passed_tests PASSED);
      cbn; try lia. intros st k. cbn. reflexivity. }
  assert (Hf : failed_tests stats = count_result hp FAILED (tests_ m)).
  { unfold stats. rewrite (fold_count_bucket hp failed_tests FAILED);
      cbn; try lia. intros st k. cbn. reflexivity. }
  destruct (0 <? total_tests stats); cbn; now rewrite Htotal, Hp, Hf.
Qed.

Lemma count_result_all (hp : handle -> BaseTest World) (r : TestResult)
    (l : list handle) :
  count_result hp r l = Z.of_nat (List.length l) <->
  forallb (fun k => TestResult_eqb (result_of hp k) r) l = true.
Proof.
  induction l as [|k l IH]; [now split|].
  rewrite count_result_cons. cbn [forallb List.length].
  rewrite Nat2Z.inj_succ.
  pose proof (count_result_partition hp l) as Hpart.
  assert (Hle : 0 <= count_result hp r l <= Z.of_nat (List.length l)).
  { unfold count_result.
    pose proof (filter_length_le
      (fun h => TestResult_eqb (result_of hp h) r) l). lia. }
  destruct (TestResult_eqb (result_of hp k) r); cbn [andb].
  - rewrite <- IH. lia.
  - split; [lia | discriminate].
Qed.

Lemma count_result_some (hp : handle -> BaseTest World) (r : TestResult)
    (l : list handle) :
  0 < count_result hp r l <->
  existsb (fun k => TestResult_eqb (result_of hp k) r) l = true.
Proof.
  induction l as [|k l IH]; [split; [cbn; lia | discriminate]|].
  rewrite count_result_cons. cbn [existsb].
  assert (Hle : 0 <= count_result hp r l).
  { unfold count_result. lia. }
  destruct (TestResult_eqb (result_of hp k) r); cbn [orb].
  - split; [reflexivity | lia].
  - rewrite <- IH. lia.
Qed.

(** X13: the two summaries of a registry agree. On a registry that is
    not empty (and of fewer than 2^32 tests), [getOverallResult()] is
    [PASSED] exactly when [getStatistics()] counts every test as
    passed, and [FAILED] exactly when it counts a failed test. *)
Theorem statistics_agree_with_overall_result (m : TestManager)
    (hp : handle -> BaseTest World) :
  tests_ m <> [] ->
  Z.of_nat (List.length (tests_ m)) < 2 ^ 32 ->
  (getOverallResult m hp = PASSED <->
   passed_tests (getStatistics m hp) = total_tests (getStatistics m hp)) /\
  (getOverallResult m hp = FAILED <->
   0 < failed_tests (getStatistics m hp)).
Proof.
  intros Hne Hn.
  destruct (getStatistics_buckets m hp Hn) as (-> & -> & ->).
  rewrite (getOverallResult_decision m hp Hne).
  rewrite count_result_all, count_result_some.
  assert (Hclash : forall r,
            r <> PASSED ->
            existsb (fun k => TestResult_eqb (result_of hp k) r) (tests_ m)
              = true ->
            forallb (fun k => TestResult_eqb (result_of hp k) PASSED)
                    (tests_ m) = false).
  { intros r Hr Hex. apply not_true_is_false. intros Hall.
    apply existsb_exists in Hex. destruct Hex as (k & Hk & Hkr).
    rewrite forallb_forall in Hall. specialize (Hall k Hk).
    apply TestResult_eqb_eq in Hkr, Hall. congruence. }
  pose proof (Hclash FAILED (fun H => ltac:(discriminate H))) as Hcf.
  pose proof (Hclash TIMEOUT (fun H => ltac:(discriminate H))) as Hct.
  destruct (existsb (fun k => TestResult_eqb (result_of hp k) FAILED)
              (tests_ m));
    destruct (existsb (fun k => TestResult_eqb (result_of hp k) TIMEOUT)
                (tests_ m));
    try rewrite (Hcf eq_refl); try rewrite (Hct eq_refl);
    try destruct (forallb (fun k => TestResult_eqb (result_of hp k) PASSED)
                    (tests_ m));
    repeat split; congruence.
Qed.

End AggregationProperties.

(** ** Registration and lookup *)

Section RegistryProperties.

Context {World : Type}.

Lemma find_first {A : Type} (f : A -> bool) (l : list A) (x : A) :
  List.find f l = Some x <->
  exists pre post, l = pre ++ x :: post /\ f x = true /\
                   forall y, In y pre -> f y = false.
Proof.
  induction l as [|a l IH]; simpl.
  - split; [discriminate|]. intros (pre & post & H & _).
    now destruct pre.
  - destruct (f a) eqn:Ea.
    + split.
      * intros [= ->]. exists [], l. now repeat split.
      * intros (pre & post & H & Hx & Hpre). destruct pre as [|b pre].
        -- now injection H as ->.
        -- injection H as -> _. rewrite (Hpre b) in Ea by now left.
           discriminate.
    + rewrite IH. split.
      * intros (pre & post & -> & Hx & Hpre). exists (a :: pre), post.
        repeat split; [exact Hx|]. intros y [<-|Hy]; auto.
      * intros (pre & post & H & Hx & Hpre). destruct pre as [|b pre].
        -- injection H as -> _. congruence.
        -- injection H as -> ->. exists pre, post.
           repeat split; [exact Hx|]. intros y Hy. apply Hpre. now right.
Qed.

Lemma find_snoc {A : Type} (f : A -> bool) (l : list A) (x : A) :
  List.find f (l ++ [x]) =
    match List.find f l with
    | Some y => Some y
    | None => if f x then Some x else None
    end.
Proof.
  induction l as [|a l IH]; simpl; [reflexivity|].
  now destruct (f a).
Qed.

(** X14: [getTest(name)] yields the first registered test of that name,
    and nothing exactly when the name is not among [getTestNames()]. *)
Theorem getTest_first_match (m : TestManager) (hp : handle -> BaseTest World)
    (nm : string) :
  (forall h : handle,
      getTest m hp nm = Some h <->
      exists pre post : list handle,
        tests_ m = pre ++ h :: post /\
        getName (hp h) = nm /\
        forall k, In k pre -> getName (hp k) <> nm) /\
  (getTest m hp nm = None <-> ~ In nm (getTestNames m hp)).
Proof.
  unfold getTest, getTestNames. split.
  - intros h. rewrite find_first. split;
      intros (pre & post & Hl & Hh & Hpre); exists pre, post;
      (split; [exact Hl|]); split.
    + now apply String.eqb_eq.
    + intros k Hk. apply String.eqb_neq. now apply Hpre.
    + now apply String.eqb_eq.
    + intros k Hk. apply String.eqb_neq. now apply Hpre.
  - rewrite in_map_iff. split.
    + intros Hnone (k & Hname & Hk).
      apply (find_none _ _ Hnone) in Hk. apply String.eqb_neq in Hk.
      contradiction.
    + intros Hnot. destruct (List.find _ (tests_ m)) as [k|] eqn:E;
        [|reflexivity].
      exfalso. apply Hnot. apply find_some in E. destruct E as [Hk Hname].
      exists k. split; [now apply String.eqb_eq | exact Hk].
Qed.

(** X15: after [addTest] the new test is found under its name unless an
    earlier registration bears the same name, which then still wins;
    lookups that succeeded before are unchanged, the count grows by one
    and the name is appended; registering a null pointer changes
    nothing. *)
Theorem addTest_then_getTest (m : TestManager)
    (hp : handle -> BaseTest World) (h : handle) (nm : string) :
  getTest (addTest m (Some h)) hp nm =
    match getTest m hp nm with
    | Some k => Some k
    | None => if String.eqb (getName (hp h)) nm then Some h else None
    end /\
  getTestCount (addTest m (Some h)) = S (getTestCount m) /\
  getTestNames (addTest m (Some h)) hp =
    getTestNames m hp ++ [getName (hp h)] /\
  addTest m None = m.
Proof.
  unfold getTest, getTestCount, getTestNames. cbn [addTest set_tests_ tests_].
  rewrite find_snoc, length_app, map_app. cbn [List.length map].
  repeat split. lia.
Qed.

End RegistryProperties.

(** ** Pattern matching, continued *)

Lemma tolower_star (c : ascii) : tolower c = "*"%char <-> c = "*"%char.
Proof.
  destruct c as [[] [] [] [] [] [] [] []];
    split; intros H; try reflexivity; discriminate H.
Qed.

Lemma transform_tolower_star (p : string) :
  transform_tolower p = "*" <-> p = "*".
Proof.
  destruct p as [|c [|d p]]; cbn [transform_tolower]; split; intros H;
    try discriminate H.
  - injection H as H. apply (proj1 (tolower_star c)) in H. now subst.
  - injection H as ->. reflexivity.
Qed.

Lemma transform_tolower_length (t : string) :
  String.length (transform_tolower t) = String.length t.
Proof. induction t as [|c t IH]; simpl; congruence. Qed.

Lemma append_length (a b : string) :
  String.length (a ++ b)%string = (String.length a + String.length b)%nat.
Proof. induction a as [|c a IH]; simpl; congruence. Qed.

(** X16: [matchesPattern] ignores letter case in the name and in the
    pattern: names that differ in case only match the same patterns,
    and patterns that differ in case only select the same names. *)
Theorem matchesPattern_ignores_case (t1 t2 p1 p2 : string) :
  transform_tolower t1 = transform_tolower t2 ->
  transform_tolower p1 = transform_tolower p2 ->
  matchesPattern t1 p1 = matchesPattern t2 p2.
Proof.
  intros Ht Hp. unfold matchesPattern. rewrite Ht, Hp.
  destruct (String.eqb_spec p1 "*") as [E1|E1];
    destruct (String.eqb_spec p2 "*") as [E2|E2]; try reflexivity; exfalso.
  - apply E2. apply transform_tolower_star. rewrite <- Hp.
    now apply transform_tolower_star.
  - apply E1. apply transform_tolower_star. rewrite Hp.
    now apply transform_tolower_star.
Qed.

(** X17: every name matches itself and the empty pattern; a pattern
    other than "*" that matches is no longer than the name, so that
    "*" is a wildcard only when it is the whole pattern. *)
Theorem matchesPattern_bounds (text pattern : string) :
  matchesPattern text text = true /\
  matchesPattern text "" = true /\
  (matchesPattern text pattern = true ->
   pattern = "*" \/ (String.length pattern <= String.length text)%nat).
Proof.
  repeat split.
  - apply matchesPattern_spec. right. exists ""%string, ""%string.
    simpl. clear pattern. induction (transform_tolower text) as [|c t IH];
      simpl; congruence.
  - apply matchesPattern_spec. right.
    now exists ""%string, (transform_tolower text).
  - intros H. apply matchesPattern_spec in H.
    destruct H as [H | (pre & post & H)]; [now left | right].
    apply (f_equal String.length) in H.
    rewrite !append_length, !transform_tolower_length in H. lia.
Qed.

(** ** Rendering of results *)

(** X18: [resultToString], [getResultColor] and [getResultIcon] give
    different texts for different results, and none of the names is
    "UNKNOWN". *)
Theorem result_rendering_injective (a b : TestResult) :
  (resultToString a = resultToString b -> a = b) /\
  (getResultColor a = getResultColor b -> a = b) /\
  (getResultIcon a = getResultIcon b -> a = b) /\
  resultToString a <> "UNKNOWN".
Proof.
  destruct a, b; repeat split; intros H; try reflexivity; discriminate H.
Qed.

(** ** Timeouts, step failures and the test task *)

Section TaskProperties.

Context {World : Type} {platform : Platform World}.

(** X19: [checkTestTimeout] compares the time elapsed since
    [start_time] with [test_timeout_ms_], and does so correctly across
    a wrap-around of the 32-bit millisecond clock, as long as less than
    2^32 ms have elapsed; it reads the clock and changes nothing. *)
Theorem checkTestTimeout_elapsed (m : TestManager) (test : option handle)
    (start_time elapsed : Z) (s : Machine World) :
  0 <= elapsed < 2 ^ 32 ->
  clock_ms (world s) = wrap32 (start_time + elapsed) ->
  checkTestTimeout m test start_time s = (test_timeout_ms_ m <? elapsed, s).
Proof.
  intros He Hclock. unfold checkTestTimeout. rewrite bind_eq.
  unfold now_ms, ret. cbn [fst snd]. fold (clock_ms (world s)).
  rewrite Hclock. unfold wrap32. rewrite Zminus_mod_idemp_l.
  replace (start_time + elapsed - start_time) with elapsed by lia.
  now rewrite Z.mod_small.
Qed.

(** A failure of the loop of [runSteps] comes from a critical step. *)
Lemma runSteps_from_failure (steps : list (TestStep World))
    (s : Machine World) :
  fst (runSteps_from steps s) <> ESP_OK ->
  exists pre st post rs,
    steps = pre ++ st :: post /\
    critical st = true /\
    fst (attempt_all (pre ++ [st]) s) = rs ++ [fst (runSteps_from steps s)] /\
    no_critical_failure pre rs /\
    snd (runSteps_from steps s) = snd (attempt_all (pre ++ [st]) s).
Proof.
  revert s. induction steps as [|step rest IH]; intros s.
  - simpl. intros H. now contradiction H.
  - rewrite runSteps_from_cons. cbv zeta.
    set (o := executeStep step (snd (emit (EvStep (name step)) s))).
    destruct (Z.eqb_spec (fst o) ESP_OK) as [Hok|Hne]; cbn [negb andb].
    + intros H. destruct (IH (snd o) H)
        as (pre & st & post & rs & -> & Hc & Hrs & Hpre & Hs).
      exists (step :: pre), st, post, (fst o :: rs).
      cbn [app]. rewrite attempt_all_cons. cbv zeta. fold o. cbn [fst snd].
      rewrite Hrs, Hs. repeat split; try assumption.
      constructor; [intros _; exact Hok | exact Hpre].
    + destruct (critical step) eqn:Hcrit.
      * intros _. exists [], step, rest, [].
        cbn [app]. rewrite attempt_all_cons. cbv zeta. fold o.
        cbn [fst snd attempt_all ret]. repeat split; try assumption.
        constructor.
      * intros H. destruct (IH (snd o) H)
          as (pre & st & post & rs & -> & Hc & Hrs & Hpre & Hs).
        exists (step :: pre), st, post, (fst o :: rs).
        cbn [app]. rewrite attempt_all_cons. cbv zeta. fold o. cbn [fst snd].
        rewrite Hrs, Hs. repeat split; try assumption.
        constructor; [intros Hc'; congruence | exact Hpre].
Qed.

(** X20: when [runSteps()] returns a failure, the code is that of a
    critical step, the last step attempted, and no critical step before
    it failed: a failure of a non-critical step is never returned. *)
Theorem runSteps_failure_origin (this : handle) (s : Machine World) :
  fst (runSteps this s) <> ESP_OK ->
  exists (pre : list (TestStep World)) (st : TestStep World)
         (post : list (TestStep World)) (rs : list esp_err_t),
    test_steps_ (heap s this) = pre ++ st :: post /\
    critical st = true /\
    fst (attempt_all (pre ++ [st]) s) = rs ++ [fst (runSteps this s)] /\
    no_critical_failure pre rs /\
    snd (runSteps this s) = snd (attempt_all (pre ++ [st]) s).
Proof.
  unfold runSteps. rewrite bind_eq. unfold deref. cbn [fst snd].
  apply runSteps_from_failure.
Qed.

(** X21: the test task logs that all tests passed, that is
    [getOverallResult()] is [PASSED], exactly when the [run()] of both
    its tests returned [PASSED]; both tests are run, the PSRAM test
    first, and the statistics count two tests. *)
Theorem test_execution_task_verdict (psram_test bno055_test : handle)
    (s : Machine World) :
  psram_test <> bno055_test ->
  let out := test_execution_task psram_test bno055_test s in
  let runs := run_in_order [psram_test; bno055_test] s in
  (fst (fst out) = PASSED <-> fst runs = [PASSED; PASSED]) /\
  snd out = snd runs /\
  runs_of (events (snd out)) =
    runs_of (events s) ++ [psram_test; bno055_test] /\
  total_tests (snd (fst out)) = 2.
Proof.
  intros Hne. cbv zeta. unfold test_execution_task. rewrite bind_eq.
  set (tm := addTest _ (Some bno055_test)).
  assert (Hts : tests_ tm = [psram_test; bno055_test]) by reflexivity.
  assert (Hstop : stop_on_first_failure_ tm = false) by reflexivity.
  assert (Hnonempty : tests_ tm <> []) by (rewrite Hts; discriminate).
  destruct (runAllTests_nonempty tm s Hnonempty) as (_ & _ & Htests & Hs).
  cbv zeta in Htests, Hs.
  rewrite run_each_tests_ in Htests. cbn [tests_ set_overall_result_
    set_execution_start_time_] in Htests.
  destruct (run_each_complete (tests_ tm)
              (set_overall_result_
                 (set_execution_start_time_ tm
                    (wrap32 (xTaskGetTickCount (world s) *
                             portTICK_PERIOD_MS))) PASSED)
              true s Hstop) as [Hstate _].
  rewrite Hstate in Hs. rewrite Hts in Hs.
  cbn [fst snd]. rewrite Hs, run_in_order_log.
  set (m' := snd (fst (runAllTests tm s))) in *.
  assert (Hm' : tests_ m' = [psram_test; bno055_test]) by congruence.
  assert (Hne' : tests_ m' <> []) by (rewrite Hm'; discriminate).
  split; [|split; [reflexivity | split; [reflexivity|]]].
  - rewrite (getOverallResult_decision m' _ Hne'), Hm'.
    rewrite !run_in_order_cons. cbn [fst snd run_in_order ret].
    set (s1 := snd (run psram_test s)).
    destruct (run_summary psram_test s) as (H1 & C1 & _).
    destruct (run_summary bno055_test s1) as (H2 & C2 & _).
    assert (H1' : result_of (heap (snd (run bno055_test s1))) psram_test
                  = fst (run psram_test s)).
    { unfold result_of. rewrite run_frame by exact Hne. exact H1. }
    cbn [existsb forallb]. rewrite H1', H2.
    destruct C1 as [-> | ->], C2 as [-> | ->]; cbn; split; congruence.
  - unfold getStatistics.
    rewrite (proj1 (fold_count_fixed _ _ _)). cbn [total_tests].
    rewrite Hm'. cbn.
    destruct (0 <? wrap32 2) eqn:E; cbn; [reflexivity | discriminate E].
Qed.

End TaskProperties.

(** ** The driver of the orientation sensor *)

Section Bno055Properties.

Import Bno055.

Lemma byte_in_range (b : Z) :
  0 <= b < 256 -> In b (map Z.of_nat (seq 0 256)).
Proof.
  intros H. apply in_map_iff. exists (Z.to_nat b).
  split; [lia|]. apply in_seq. lia.
Qed.

(** All byte pairs, checked one by one. *)
Lemma quat_component_checked :
  forallb
    (fun p : Z * Z =>
       match float_value (quat_component (fst p) (snd p)) with
       | Some q =>
           Qeq_bool q (int16_le (fst p) (snd p) # 16384) &&
           Qle_bool (-2) q && negb (Qle_bool 2 q)
       | None => false
       end)
    (list_prod (map Z.of_nat (seq 0 256)) (map Z.of_nat (seq 0 256)))
  = true.
Proof. vm_compute. reflexivity. Qed.

Lemma quat_component_value (lsb msb : Z) :
  0 <= lsb < 256 ->
  0 <= msb < 256 ->
  exact_component (quat_component lsb msb) lsb msb.
Proof.
  intros Hl Hm.
  pose proof quat_component_checked as H.
  rewrite forallb_forall in H.
  specialize (H (lsb, msb)
                (proj2 (in_prod_iff _ _ lsb msb)
                   (conj (byte_in_range lsb Hl) (byte_in_range msb Hm)))).
  cbn [fst snd] in H. unfold exact_component.
  destruct (float_value (quat_component lsb msb)) as [q|]; [|discriminate].
  rewrite !andb_true_iff in H. destruct H as ((Hq & Hlo) & Hhi).
  apply Qeq_bool_iff in Hq. apply Qle_bool_iff in Hlo.
  exists q. split; [reflexivity|]. split; [exact Hq|]. split; [exact Hlo|].
  apply Qnot_le_lt. intros Hle. apply Qle_bool_iff in Hle.
  rewrite Hle in Hhi. discriminate Hhi.
Qed.

Context {Bus : Type} {platform : Platform Bus} {i2c : I2cBus Bus}.

Lemma read_ack_loop_repeat (cmd : list i2c_cmd) (n : nat) :
  read_ack_loop cmd n = cmd ++ repeat (I2cReadByte I2C_MASTER_ACK) n.
Proof.
  revert cmd. induction n as [|n IH]; intros cmd; cbn [read_ack_loop repeat].
  - now rewrite app_nil_r.
  - rewrite IH. unfold i2c_master_read_byte. now rewrite <- app_assoc.
Qed.

Lemma address_byte (addr rw : Z) :
  0 <= addr < 128 -> 0 <= rw <= 1 ->
  Z.lor (Z.shiftl addr 1) rw mod 256 = 2 * addr + rw.
Proof.
  intros Ha Hrw.
  assert (H : Z.lor (Z.shiftl addr 1) rw = 2 * addr + rw).
  { assert (Hcases : rw = 0 \/ rw = 1) by lia.
    destruct Hcases as [-> | ->]; destruct addr as [|p|p]; try lia;
      cbn; lia. }
  rewrite H. apply Z.mod_small. lia.
Qed.

Lemma read_burst_cmd_frame (d : driver) (reg_addr len : Z) :
  0 <= bno055_i2c_addr d < 128 ->
  0 <= reg_addr < 256 ->
  read_burst_cmd d reg_addr len =
    [I2cStart;
     I2cWriteByte (2 * bno055_i2c_addr d) true;
     I2cWriteByte reg_addr true;
     I2cStart;
     I2cWriteByte (2 * bno055_i2c_addr d + 1) true]
    ++ repeat (I2cReadByte I2C_MASTER_ACK) (Z.to_nat (len - 1))
    ++ [I2cReadByte I2C_MASTER_NACK; I2cStop].
Proof.
  intros Ha Hr. unfold read_burst_cmd, i2c_master_write_byte,
    i2c_master_read_byte.
  rewrite read_ack_loop_repeat.
  rewrite (address_byte _ I2C_MASTER_WRITE Ha) by (cbv; split; discriminate).
  rewrite (address_byte _ I2C_MASTER_READ Ha) by (cbv; split; discriminate).
  rewrite (Z.mod_small reg_addr) by lia.
  unfold I2C_MASTER_WRITE, I2C_MASTER_READ. rewrite Z.add_0_r.
  cbn [app]. rewrite <- !app_assoc. reflexivity.
Qed.

(** X23: a burst read of [len] bytes on the initialized driver is one
    transaction on the bus, lasting at most 200 ms: it addresses the
    sensor for writing, sends the register, restarts, addresses the
    sensor for reading and reads [len] bytes, acknowledging all but the
    last. Its code is the one of the transaction and the bytes it
    delivers are those the bus answered, in order. A length of zero, or
    a null buffer, is refused without any traffic. *)
Theorem read_burst_frame (d : driver) (reg_addr len : Z) (bus : Bus) :
  bno055_initialized d = true ->
  0 <= bno055_i2c_addr d < 128 ->
  0 <= reg_addr < 256 ->
  (1 <= len ->
   let frame :=
     [I2cStart;
      I2cWriteByte (2 * bno055_i2c_addr d) true;
      I2cWriteByte reg_addr true;
      I2cStart;
      I2cWriteByte (2 * bno055_i2c_addr d + 1) true]
     ++ repeat (I2cReadByte I2C_MASTER_ACK) (Z.to_nat (len - 1))
     ++ [I2cReadByte I2C_MASTER_NACK; I2cStop] in
   let answer :=
     i2c_master_cmd_begin (bno055_i2c_port d) frame
       (200 / portTICK_PERIOD_MS) bus in
   bno055_read_burst reg_addr true len d bus =
     (fst (fst answer),
      map (fun i => snd (fst answer) i mod 256) (seq 0 (Z.to_nat len)),
      snd answer)) /\
  bno055_read_burst reg_addr true 0 d bus = (ESP_ERR_INVALID_ARG, [], bus) /\
  bno055_read_burst reg_addr false len d bus = (ESP_ERR_INVALID_ARG, [], bus).
Proof.
  intros Hinit Ha Hr. split; [|split].
  - intros Hlen. cbv zeta. unfold bno055_read_burst. rewrite Hinit.
    destruct (Z.eqb_spec len 0) as [E|_]; [lia|]. cbn [negb orb].
    rewrite (read_burst_cmd_frame d reg_addr len Ha Hr).
    now destruct (i2c_master_cmd_begin _ _ _ bus) as [[ret bytes] bus'].
  - unfold bno055_read_burst. cbn [Z.eqb]. now rewrite orb_true_r.
  - unfold bno055_read_burst. cbn [negb]. now rewrite orb_true_r.
Qed.

(** X22: when the burst read of the eight bytes at the quaternion
    register succeeds, [bno055_get_quaternion] succeeds and delivers
    the components w, x, y, z made of the byte pairs 0-1, 2-3, 4-5 and
    6-7, each the little-endian, signed 16-bit number of its pair
    divided by 16384, exactly; when the burst read fails, its code is
    returned and nothing is delivered. *)
Theorem quat_component_exact (d : driver) (bus bus' : Bus) (ret : esp_err_t)
    (buffer : list Z) :
  bno055_read_burst BNO055_QUATERNION_DATA_W_LSB_ADDR true 8 d bus =
    (ret, buffer, bus') ->
  (ret = ESP_OK ->
   exists q : bno055_quaternion_t,
     bno055_get_quaternion true d bus = (ESP_OK, Some q, bus') /\
     exact_component (w q) (nth 0 buffer 0) (nth 1 buffer 0) /\
     exact_component (x q) (nth 2 buffer 0) (nth 3 buffer 0) /\
     exact_component (y q) (nth 4 buffer 0) (nth 5 buffer 0) /\
     exact_component (z q) (nth 6 buffer 0) (nth 7 buffer 0)) /\
  (ret <> ESP_OK ->
   bno055_get_quaternion true d bus = (ret, None, bus')).
Proof.
  intros Hburst. unfold bno055_get_quaternion. cbn [negb].
  rewrite Hburst. split.
  - intros ->. cbn [Z.eqb ESP_OK negb].
    eexists. split; [reflexivity|]. cbn [w x y z].
    assert (Hbytes : forall i : nat, 0 <= nth i buffer 0 < 256).
    { unfold bno055_read_burst in Hburst.
      destruct (negb (bno055_initialized d) || negb true ||
                (8 =? 0)); [discriminate Hburst|].
      destruct (i2c_master_cmd_begin _ _ _ bus) as [[r bytes] b].
      injection Hburst as _ <- _. intros i.
      do 8 (destruct i as [|i];
            [cbn [nth]; apply Z.mod_pos_bound; lia|]).
      cbn [nth]. destruct i; lia. }
    repeat split; apply quat_component_value; apply Hbytes.
  - intros Hne. apply Z.eqb_neq in Hne. now rewrite Hne.
Qed.

(** X24: before [bno055_init] has succeeded no function of the driver
    touches the bus: register writes, mode changes and the reset answer
    [ESP_ERR_INVALID_STATE], the reads [ESP_ERR_INVALID_ARG]; reading a
    quaternion into a null pointer is refused in any state. *)
Theorem bno055_needs_init (d : driver) (bus : Bus) (reg_addr data len : Z)
    (out : bool) :
  (bno055_initialized d = false ->
   bno055_write_reg reg_addr data d bus = (ESP_ERR_INVALID_STATE, bus) /\
   bno055_set_mode data d bus = (ESP_ERR_INVALID_STATE, bus) /\
   bno055_set_power_mode data d bus = (ESP_ERR_INVALID_STATE, bus) /\
   bno055_reset d bus = (ESP_ERR_INVALID_STATE, bus) /\
   bno055_read_reg reg_addr out d bus = (ESP_ERR_INVALID_ARG, None, bus) /\
   bno055_get_chip_id out d bus = (ESP_ERR_INVALID_ARG, None, bus) /\
   bno055_read_burst reg_addr out len d bus = (ESP_ERR_INVALID_ARG, [], bus) /\
   bno055_get_quaternion out d bus = (ESP_ERR_INVALID_ARG, None, bus)) /\
  bno055_get_quaternion false d bus = (ESP_ERR_INVALID_ARG, None, bus).
Proof.
  split; [|reflexivity]. intros Hinit.
  unfold bno055_reset, bno055_set_mode, bno055_set_power_mode,
    bno055_get_chip_id, bno055_get_quaternion, bno055_write_reg,
    bno055_read_reg, bno055_read_burst.
  rewrite Hinit. cbn. repeat split. now destruct out.
Qed.

Lemma bno055_deinit_clears (port : Z) (d : driver) (bus : Bus) :
  bno055_initialized (snd (fst (bno055_deinit port d bus))) = false.
Proof.
  unfold bno055_deinit. now destruct (i2c_driver_delete port bus).
Qed.

(** X25: starting from a driver that is not initialized, [bno055_init]
    leaves it initialized exactly when it returns [ESP_OK]: after any
    failure, also one met after the I2C driver was installed, the
    driver is not initialized. A null configuration is refused with
    nothing changed, and a chip id other than 0xA0 is
    [ESP_ERR_NOT_FOUND]. *)
Theorem bno055_init_outcome (config : option bno055_config_t) (d : driver)
    (bus : Bus) :
  bno055_initialized d = false ->
  (bno055_initialized (snd (fst (bno055_init config d bus))) = true <->
   fst (fst (bno055_init config d bus)) = ESP_OK) /\
  (config = None ->
   bno055_init config d bus = (ESP_ERR_INVALID_ARG, d, bus)) /\
  (forall c : bno055_config_t,
      config = Some c ->
      let d1 := {| bno055_i2c_port := i2c_port c;
                   bno055_i2c_addr := i2c_addr c mod 256;
                   bno055_initialized := true |} in
      let cfg := {| mode := I2C_MODE_MASTER; sda_io_num := sda_pin c;
                    scl_io_num := scl_pin c;
                    sda_pullup_en := GPIO_PULLUP_ENABLE;
                    scl_pullup_en := GPIO_PULLUP_ENABLE;
                    clk_speed := i2c_freq c |} in
      let o1 := i2c_param_config (i2c_port c) cfg bus in
      let o2 := i2c_driver_install (i2c_port c) I2C_MODE_MASTER (snd o1) in
      let o3 :=
        bno055_get_chip_id true d1
          (vTaskDelay (100 / portTICK_PERIOD_MS) (snd o2)) in
      fst o1 = ESP_OK -> fst o2 = ESP_OK -> fst (fst o3) = ESP_OK ->
      snd (fst o3) <> Some 160 ->
      fst (fst (bno055_init config d bus)) = ESP_ERR_NOT_FOUND).
Proof.
  intros Hinit. split; [|split].
  - unfold bno055_init. destruct config as [c|];
      [|cbn [fst snd]; rewrite Hinit; split; discriminate].
    destruct (i2c_param_config _ _ bus) as [r1 b1].
    destruct (Z.eqb_spec r1 ESP_OK) as [_|N1]; cbn [negb];
      [|cbn [fst snd bno055_initialized]; rewrite Hinit; split;
        [discriminate | intros E; now contradiction N1]].
    destruct (i2c_driver_install _ _ b1) as [r2 b2].
    destruct (Z.eqb_spec r2 ESP_OK) as [_|N2]; cbn [negb];
      [|cbn [fst snd bno055_initialized]; rewrite Hinit; split;
        [discriminate | intros E; now contradiction N2]].
    cbn [bno055_i2c_port bno055_i2c_addr].
    destruct (bno055_get_chip_id _ _ _) as [[r3 id] b3].
    destruct (Z.eqb_spec r3 ESP_OK) as [_|N3]; cbn [negb].
    2:{ pose proof (bno055_deinit_clears (i2c_port c)
          {| bno055_i2c_port := i2c_port c;
             bno055_i2c_addr := i2c_addr c mod 256;
             bno055_initialized := true |} b3) as Hc.
        destruct (bno055_deinit _ _ b3) as [[r d'] b']. cbn [fst snd] in *.
        rewrite Hc. split; [discriminate | intros E; now contradiction N3]. }
    destruct (negb match id with Some i => i =? 160 | None => false end).
    { pose proof (bno055_deinit_clears (i2c_port c)
          {| bno055_i2c_port := i2c_port c;
             bno055_i2c_addr := i2c_addr c mod 256;
             bno055_initialized := true |} b3) as Hc.
      destruct (bno055_deinit _ _ b3) as [[r d'] b']. cbn [fst snd] in *.
      rewrite Hc. split; discriminate. }
    destruct (bno055_reset _ b3) as [r4 b4].
    destruct (Z.eqb_spec r4 ESP_OK) as [_|N4]; cbn [negb].
    2:{ pose proof (bno055_deinit_clears (i2c_port c)
          {| bno055_i2c_port := i2c_port c;
             bno055_i2c_addr := i2c_addr c mod 256;
             bno055_initialized := true |} b4) as Hc.
        destruct (bno055_deinit _ _ b4) as [[r d'] b']. cbn [fst snd] in *.
        rewrite Hc. split; [discriminate | intros E; now contradiction N4]. }
    destruct (bno055_set_mode _ _ b4) as [r5 b5].
    destruct (Z.eqb_spec r5 ESP_OK) as [_|N5]; cbn [negb].
    2:{ pose proof (bno055_deinit_clears (i2c_port c)
          {| bno055_i2c_port := i2c_port c;
             bno055_i2c_addr := i2c_addr c mod 256;
             bno055_initialized := true |} b5) as Hc.
        destruct (bno055_deinit _ _ b5) as [[r d'] b']. cbn [fst snd] in *.
        rewrite Hc. split; [discriminate | intros E; now contradiction N5]. }
    cbn [fst snd bno055_initialized]. now split.
  - now intros ->.
  - intros c -> . cbv zeta. intros H1 H2 H3 Hid.
    unfold bno055_init.
    destruct (i2c_param_config _ _ bus) as [r1 b1]. cbn [fst snd] in *.
    subst r1. cbn [Z.eqb ESP_OK negb].
    destruct (i2c_driver_install _ _ b1) as [r2 b2]. cbn [fst snd] in *.
    subst r2. cbn [Z.eqb ESP_OK negb bno055_i2c_port bno055_i2c_addr].
    destruct (bno055_get_chip_id _ _ _) as [[r3 id] b3]. cbn [fst snd] in *.
    subst r3. cbn [Z.eqb ESP_OK negb].
    assert (Hneg : negb match id with Some i => i =? 160 | None => false end
                   = true).
    { destruct id as [i|]; [|reflexivity].
      destruct (Z.eqb_spec i 160) as [->|_]; [now contradiction Hid|].
      reflexivity. }
    rewrite Hneg. now destruct (bno055_deinit _ _ b3) as [[r d'] b'].
Qed.

End Bno055Properties.

(** ** The memory test *)

Lemma validateMemoryPattern_from_spec (buffer : list Z) (pattern : Z)
    (i0 : nat) :
  (fst (validateMemoryPattern_from i0 buffer pattern) = ESP_OK <->
   Forall (eq pattern) buffer) /\
  (fst (validateMemoryPattern_from i0 buffer pattern) = ESP_OK /\
   snd (validateMemoryPattern_from i0 buffer pattern) = None \/
   fst (validateMemoryPattern_from i0 buffer pattern) = ESP_FAIL /\
   exists (i : nat) (b : Z),
     snd (validateMemoryPattern_from i0 buffer pattern) = Some ((i0 + i)%nat, b)
     /\ nth_error buffer i = Some b /\ b <> pattern /\
     forall j, (j < i)%nat -> nth_error buffer j = Some pattern).
Proof.
  revert i0. induction buffer as [|b rest IH]; intros i0;
    cbn [validateMemoryPattern_from].
  - split; [split; [constructor | reflexivity] | now left].
  - destruct (Z.eqb_spec b pattern) as [->|Hne]; cbn [negb].
    + destruct (IH (S i0)) as [Hiff Hcases]. split.
      * rewrite Hiff. split; [now constructor | now inversion 1].
      * destruct Hcases as [H | (Hf & i & b & Hs & Hn & Hb & Hj)];
          [now left | right].
        split; [exact Hf|]. exists (S i), b.
        rewrite Hs. repeat split; try assumption.
        -- f_equal. f_equal. lia.
        -- intros [|j] Hlt; [reflexivity|]. apply Hj. lia.
    + split.
      * split; [discriminate|]. inversion 1; subst. now contradiction Hne.
      * right. split; [reflexivity|]. exists 0%nat, b.
        rewrite Nat.add_0_r. repeat split; try assumption.
        intros j Hj. lia.
Qed.

(** X26: [validateMemoryPattern] returns [ESP_OK] exactly when every
    byte of the buffer is the pattern, taken as a [uint8_t] (so modulo
    256), and [ESP_FAIL] otherwise, the offset reported being that of
    the first byte that differs; a buffer just filled by [memset] with
    a value is accepted for that value, whatever it is. *)
Theorem validateMemoryPattern_spec (buffer : list Z) (pattern : Z) :
  (fst (validateMemoryPattern buffer pattern) = ESP_OK <->
   Forall (eq (pattern mod 256)) buffer) /\
  (fst (validateMemoryPattern buffer pattern) <> ESP_OK ->
   fst (validateMemoryPattern buffer pattern) = ESP_FAIL /\
   exists (i : nat) (b : Z),
     snd (validateMemoryPattern buffer pattern) = Some (i, b) /\
     nth_error buffer i = Some b /\ b <> pattern mod 256 /\
     forall j, (j < i)%nat -> nth_error buffer j = Some (pattern mod 256)) /\
  (forall size : nat,
     fst (validateMemoryPattern (memset pattern size) pattern) = ESP_OK) /\
  (forall other : Z,
     other mod 256 = pattern mod 256 ->
     validateMemoryPattern buffer other = validateMemoryPattern buffer pattern).
Proof.
  unfold validateMemoryPattern, to_uint8.
  destruct (validateMemoryPattern_from_spec buffer (pattern mod 256) 0)
    as [Hiff Hcases].
  split; [exact Hiff|]. split; [|split].
  - intros Hne. destruct Hcases as [[H _] | [Hf H]]; [contradiction|].
    split; [exact Hf | exact H].
  - intros size.
    apply (proj1 (validateMemoryPattern_from_spec _ (pattern mod 256) 0)).
    unfold memset.
    induction size as [|n IH]; cbn [repeat]; now constructor.
  - now intros other ->.
Qed.

(** ** The messaging bridge *)

Section Ros2Properties.

Import Ros2.

Context {Env : Type} {platform : Platform Env} {rtos : Rtos Env}.

Lemma ros2_status_eqb_eq (a b : ros2_status_t) :
  ros2_status_eqb a b = true <-> a = b.
Proof. destruct a, b; simpl; split; congruence. Qed.

(** X27: [ros2_manager_bno055_to_imu_msg] numbers the messages
    consecutively modulo 2^32, stamps them with the millisecond clock
    times 10^6, which never overflows the 64-bit field, copies the four
    components of the quaternion, and fills each covariance matrix with
    -1 on the diagonal and 0 elsewhere; a null argument is refused
    without using up a sequence number. *)
Theorem bno055_to_imu_msg_contents (q : Bno055.bno055_quaternion_t)
    (g : manager Env) (env : Env) :
  (exists m : ros2_imu_msg_t,
      ros2_manager_bno055_to_imu_msg (Some q) true g env =
        (ESP_OK, Some m,
         snd (ros2_manager_bno055_to_imu_msg (Some q) true g env)) /\
      seq m = sequence_number g /\
      sequence_number (snd (ros2_manager_bno055_to_imu_msg (Some q) true g env))
        = wrap32 (sequence_number g + 1) /\
      timestamp_ns m = clock_ms env * 1000000 /\
      0 <= timestamp_ns m < 2 ^ 64 /\
      (orientation_w m, orientation_x m, orientation_y m, orientation_z m) =
        (Bno055.w q, Bno055.x q, Bno055.y q, Bno055.z q) /\
      (forall r c : nat,
          (r < 3)%nat -> (c < 3)%nat ->
          forall cov,
            In cov [orientation_covariance m; angular_velocity_covariance m;
                    linear_acceleration_covariance m] ->
            nth (3 * r + c) cov float_zero =
              if Nat.eqb r c then float_minus_one else float_zero)) /\
  (forall imu_msg : bool,
      ros2_manager_bno055_to_imu_msg None imu_msg g env =
        (ESP_ERR_INVALID_ARG, None, g)) /\
  ros2_manager_bno055_to_imu_msg (Some q) false g env =
    (ESP_ERR_INVALID_ARG, None, g).
Proof.
  split; [|split; reflexivity].
  eexists. split; [reflexivity|]. cbn [snd seq sequence_number timestamp_ns
    orientation_w orientation_x orientation_y orientation_z
    orientation_covariance angular_velocity_covariance
    linear_acceleration_covariance].
  assert (Hclock : 0 <= clock_ms env < 2 ^ 32).
  { unfold clock_ms, wrap32. apply Z.mod_pos_bound. lia. }
  fold (clock_ms env).
  assert (Hts : wrap64 (clock_ms env * 1000000) = clock_ms env * 1000000).
  { unfold wrap64. apply Z.mod_small. nia. }
  rewrite Hts. repeat split; try reflexivity; try nia.
  intros r c Hr Hc cov [<- | [<- | [<- | []]]];
    destruct r as [|[|[|r]]]; try lia;
    destruct c as [|[|[|c]]]; try lia; reflexivity.
Qed.

Lemma notify_status_change_step (n : ros2_status_t) (g : manager Env)
    (env : Env) :
  let out := notify_status_change n g env in
  current_status (fst out) = n /\
  connection_callback (fst out) = connection_callback g /\
  ros2_manager_initialized (fst out) = ros2_manager_initialized g /\
  ros2_manager_started (fst out) = ros2_manager_started g /\
  publish_task_handle (fst out) = publish_task_handle g /\
  subscribe_task_handle (fst out) = subscribe_task_handle g /\
  connection_attempts (current_stats (fst out)) =
    connection_attempts (current_stats g) /\
  (if ros2_status_eqb (current_status g) n then out = (g, env)
   else
     snd out = match connection_callback g with
               | Some callback => callback n env
               | None => env
               end /\
     disconnection_events (current_stats (fst out)) =
       if ros2_status_eqb n ROS2_STATUS_DISCONNECTED
       then wrap32 (disconnection_events (current_stats g) + 1)
       else disconnection_events (current_stats g)).
Proof.
  cbv zeta. unfold notify_status_change.
  destruct (ros2_status_eqb (current_status g) n) eqn:E; cbn [negb fst snd].
  - apply ros2_status_eqb_eq in E. now repeat split.
  - cbn [current_status connection_callback ros2_manager_initialized
         ros2_manager_started publish_task_handle subscribe_task_handle
         current_stats].
    assert (Hstats :
      connection_attempts
        (if negb (ros2_status_eqb (current_status g) ROS2_STATUS_DISCONNECTED)
            && ros2_status_eqb n ROS2_STATUS_DISCONNECTED
         then with_disconnection_events (current_stats g)
                (wrap32 (disconnection_events (current_stats g) + 1))
         else current_stats g) = connection_attempts (current_stats g)).
    { now destruct (_ && _). }
    repeat split; try exact Hstats.
    destruct (ros2_status_eqb n ROS2_STATUS_DISCONNECTED) eqn:En.
    + apply ros2_status_eqb_eq in En. subst n. now rewrite E.
    + now rewrite andb_false_r.
Qed.

(** X28: over a series of notifications the status ends as the last
    one notified, the connection callback is called once for every
    notification that changes the status and for no other, and
    [disconnection_events] counts the changes to DISCONNECTED, every
    one of them. *)
Theorem notify_counts_changes (l : list ros2_status_t) (g : manager Env)
    (env : Env) :
  0 <= disconnection_events (current_stats g) < 2 ^ 32 ->
  let out := notify_each l g env in
  let changed := changes (current_status g) l in
  current_status (fst out) = last l (current_status g) /\
  snd out =
    fold_left (fun e n => match connection_callback g with
                          | Some callback => callback n e
                          | None => e
                          end) changed env /\
  disconnection_events (current_stats (fst out)) =
    wrap32 (disconnection_events (current_stats g) +
            Z.of_nat (List.length
              (filter (fun n => ros2_status_eqb n ROS2_STATUS_DISCONNECTED)
                      changed))).
Proof.
  cbv zeta. revert g env.
  induction l as [|n rest IH]; intros g env Hd.
  - cbn. rewrite Z.add_0_r. split; [reflexivity|]. split; [reflexivity|].
    symmetry. now apply wrap32_small.
  - cbn [notify_each changes].
    pose proof (notify_status_change_step n g env) as Hstep.
    cbv zeta in Hstep.
    destruct (notify_status_change n g env) as [g1 env1] eqn:E1.
    cbn [fst snd] in Hstep.
    destruct Hstep as (Hst & Hcb & _ & _ & _ & _ & _ & Hcase).
    assert (Hlast : last (n :: rest) (current_status g) = last rest n).
    { destruct rest as [|a rest']; [reflexivity|].
      change (last (n :: a :: rest') (current_status g))
        with (last (a :: rest') (current_status g)).
      generalize (current_status g). clear. revert a.
      induction rest' as [|b rest' IHr]; intros a d; [reflexivity|].
      change (last (a :: b :: rest') d) with (last (b :: rest') d).
      change (last (a :: b :: rest') n) with (last (b :: rest') n).
      apply IHr. }
    rewrite Hlast.
    destruct (ros2_status_eqb (current_status g) n) eqn:En.
    + injection Hcase as -> ->. apply ros2_status_eqb_eq in En.
      destruct (IH g env Hd) as (H1 & H2 & H3).
      rewrite H1, H2, H3, En. now repeat split.
    + destruct Hcase as [Henv Hcount].
      assert (Hd1 : 0 <= disconnection_events (current_stats g1) < 2 ^ 32).
      { rewrite Hcount. destruct (ros2_status_eqb n _); [|exact Hd].
        unfold wrap32. apply Z.mod_pos_bound. lia. }
      destruct (IH g1 env1 Hd1) as (H1 & H2 & H3).
      rewrite H1, H2, H3, Hst, Hcb, Henv, Hcount.
      split; [reflexivity|]. split; [reflexivity|].
      cbn [filter].
      destruct (ros2_status_eqb n ROS2_STATUS_DISCONNECTED);
        [|reflexivity].
      cbn [List.length]. rewrite Nat2Z.inj_succ. unfold wrap32.
      rewrite Zplus_mod_idemp_l. f_equal. lia.
Qed.

(** X29: [ros2_manager_start] is refused before initialization and
    does nothing when the manager is started already; otherwise it
    returns [ESP_OK] or [ESP_ERR_NO_MEM], leaves the manager started
    and counts a connection attempt exactly on [ESP_OK], and in both
    cases leaves the status CONNECTING. [ros2_manager_stop] does
    nothing on a stopped manager; otherwise it clears both task
    handles and leaves the manager stopped and DISCONNECTED, which
    counts as a disconnection unless it was DISCONNECTED already. *)
Theorem ros2_start_stop (g : manager Env) (env : Env) :
  (ros2_manager_initialized g = false ->
   ros2_manager_start g env = (ESP_ERR_INVALID_STATE, g, env)) /\
  (ros2_manager_initialized g = true -> ros2_manager_started g = true ->
   ros2_manager_start g env = (ESP_OK, g, env)) /\
  (ros2_manager_initialized g = true -> ros2_manager_started g = false ->
   let ret := fst (fst (ros2_manager_start g env)) in
   let g' := snd (fst (ros2_manager_start g env)) in
   (ret = ESP_OK \/ ret = ESP_ERR_NO_MEM) /\
   (ros2_manager_started g' = true <-> ret = ESP_OK) /\
   current_status g' = ROS2_STATUS_CONNECTING /\
   connection_attempts (current_stats g') =
     if ret =? ESP_OK
     then wrap32 (connection_attempts (current_stats g) + 1)
     else connection_attempts (current_stats g)) /\
  (ros2_manager_started g = false ->
   ros2_manager_stop g env = (ESP_OK, g, env)) /\
  (ros2_manager_started g = true ->
   let g' := snd (fst (ros2_manager_stop g env)) in
   fst (fst (ros2_manager_stop g env)) = ESP_OK /\
   ros2_manager_started g' = false /\
   current_status g' = ROS2_STATUS_DISCONNECTED /\
   publish_task_handle g' = 0 /\
   subscribe_task_handle g' = 0 /\
   disconnection_events (current_stats g') =
     if ros2_status_eqb (current_status g) ROS2_STATUS_DISCONNECTED
     then disconnection_events (current_stats g)
     else wrap32 (disconnection_events (current_stats g) + 1)).
Proof.
  split; [|split; [|split; [|split]]].
  - intros H. unfold ros2_manager_start. now rewrite H.
  - intros Hi Hs. unfold ros2_manager_start. now rewrite Hi, Hs.
  - intros Hi Hs. cbv zeta. unfold ros2_manager_start. rewrite Hi, Hs.
    cbn [negb].
    pose proof (notify_status_change_step ROS2_STATUS_CONNECTING g env)
      as Hstep. cbv zeta in Hstep.
    destruct (notify_status_change ROS2_STATUS_CONNECTING g env)
      as [g1 env1]. cbn [fst snd] in Hstep.
    destruct Hstep as (Hst & _ & _ & Hstarted & _ & _ & Hatt & _).
    destruct (xTaskCreate "ros2_publish" env1) as [[p1 h1] env2].
    destruct p1; cbn [negb fst snd].
    2:{ rewrite Hstarted, Hs, Hst, Hatt.
        repeat split; try (now right); try discriminate. }
    destruct (xTaskCreate "ros2_subscribe" env2) as [[p2 h2] env3].
    destruct p2; cbn [negb fst snd set_tasks ros2_manager_started
      current_status current_stats connection_attempts
      with_connection_attempts].
    + rewrite Hst, Hatt. repeat split; now left.
    + rewrite Hstarted, Hs, Hst, Hatt.
      repeat split; try (now right); try discriminate.
  - intros H. unfold ros2_manager_stop. now rewrite H.
  - intros Hs. cbv zeta. unfold ros2_manager_stop. rewrite Hs. cbn [negb].
    match goal with
    | |- context [notify_status_change ?n ?g0 ?e0] =>
        pose proof (notify_status_change_step n g0 e0) as Hstep;
        cbv zeta in Hstep;
        destruct (notify_status_change n g0 e0) as [g1 env1] eqn:E
    end.
    cbn [fst snd set_tasks ros2_manager_started current_status current_stats
         publish_task_handle subscribe_task_handle connection_callback
         ros2_manager_initialized] in Hstep.
    destruct Hstep as (Hst & _ & _ & Hstarted & Hpub & Hsub & _ & Hcase).
    cbn [fst snd]. rewrite Hst, Hstarted, Hpub, Hsub.
    repeat split.
    destruct (ros2_status_eqb (current_status g) ROS2_STATUS_DISCONNECTED).
    + injection Hcase as -> _. reflexivity.
    + now destruct Hcase as [_ ->].
Qed.

End Ros2Properties.

(** ** Stopping a selection *)

Section MatchingStops.

Context {World : Type} {platform : Platform World}.

(** X30: [runTestsMatching()] honours [stop_on_first_failure_] as
    [runAllTests()] does: with the flag set it returns [false] right
    after the first selected test whose [run()] does not return
    [PASSED], and the selected tests after that one are not run. *)
Theorem runTestsMatching_halts (m : TestManager) (pattern : string)
    (pre : list handle) (h : handle) (post : list handle)
    (rs : list TestResult) (r : TestResult) (s : Machine World) :
  stop_on_first_failure_ m = true ->
  matching_tests m (heap s) pattern = pre ++ h :: post ->
  fst (run_in_order (pre ++ [h]) s) = rs ++ [r] ->
  Forall (eq PASSED) rs ->
  r <> PASSED ->
  fst (fst (runTestsMatching m pattern s)) = false /\
  snd (runTestsMatching m pattern s) = snd (run_in_order (pre ++ [h]) s) /\
  runs_of (events (snd (runTestsMatching m pattern s))) =
    runs_of (events s) ++ pre ++ [h].
Proof.
  intros Hstop Hsel Hrs Hpre Hr. unfold runTestsMatching. rewrite Hsel.
  destruct (pre ++ h :: post) as [|a l] eqn:E; [now destruct pre|].
  rewrite <- E. rewrite !bind_eq. unfold now_ms, ret. cbn [fst snd].
  set (m1 := set_overall_result_ _ PASSED).
  destruct (run_each_halts m1 pre h post rs r true s Hstop Hrs Hpre Hr)
    as [Hfalse Hstate].
  rewrite Hfalse, Hstate, run_in_order_log. now repeat split.
Qed.

End MatchingStops.

(** ** The further properties on the concrete registry and bus *)

(** X1 on a passing and on a failing test. *)
Lemma run_passes_iff_phases_succeed_witness :
  fst (run 0%nat Demo.machine) = PASSED /\
  fst (run 1%nat Demo.machine) = FAILED.
Proof.
  split.
  - apply (proj1 (run_passes_iff_phases_succeed 0%nat Demo.machine)).
    now repeat split.
  - apply (proj2 (run_passes_iff_phases_succeed 1%nat Demo.machine)).
    intros H.
    apply (proj1 (run_passes_iff_phases_succeed 1%nat Demo.machine)) in H.
    destruct H as (_ & H & _). discriminate H.
Defined.

(** X3 on a test of three phases, each advancing the clock by 10 ms. *)
Lemma run_timer_witness :
  duration_ms (getStatus (heap (snd (run 0%nat Demo.machine)) 0%nat)) = 30.
Proof.
  refine (proj2 (proj2 (proj2 (run_timer 0%nat Demo.machine))) 30 _ _).
  - lia.
  - vm_compute. reflexivity.
Defined.


(** X5 on the registry [pass, fail, pass]. *)
Lemma run_modes_track_verdict_witness :
  (fst (fst (runAllTests Demo.manager Demo.machine)) = true /\
   overall_result_ (snd (fst (runAllTests Demo.manager Demo.machine)))
     = PASSED) \/
  (fst (fst (runAllTests Demo.manager Demo.machine)) = false /\
   overall_result_ (snd (fst (runAllTests Demo.manager Demo.machine)))
     = FAILED).
Proof.
  apply (proj1 (run_modes_track_verdict Demo.manager Demo.machine)).
  discriminate.
Defined.

(** X6 on the registry [pass, fail, pass]. *)
Lemma runAllTests_runs_every_test_witness :
  runs_of (events (snd (runAllTests Demo.manager Demo.machine))) =
    [0%nat; 1%nat; 2%nat].
Proof.
  exact (proj1 (proj2 (runAllTests_runs_every_test Demo.manager Demo.machine
                         eq_refl))).
Defined.

(** X7: no test is called "GPS". *)
Lemma runTest_unknown_name_witness :
  runTest Demo.manager "GPS" Demo.machine = (false, Demo.manager, Demo.machine).
Proof.
  apply runTest_unknown_name.
  intros h [<- | [<- | [<- | []]]]; discriminate.
Defined.

(** X8: "PSRAM" is the second test. *)
Lemma runTest_runs_first_match_witness :
  runs_of (events (snd (runTest Demo.manager "PSRAM" Demo.machine))) =
    [1%nat] /\
  overall_result_ (snd (fst (runTest Demo.manager "PSRAM" Demo.machine))) =
    NOT_RUN.
Proof.
  assert (Hpre : forall k : handle,
             In k [0%nat] -> getName (heap Demo.machine k) <> "PSRAM").
  { intros k [<- | []]. discriminate. }
  pose (H := runTest_runs_first_match Demo.manager "PSRAM" [0%nat] 1%nat
               [2%nat] Demo.machine eq_refl eq_refl Hpre).
  split.
  - exact (proj1 (proj2 (proj2 H))).
  - exact (proj2 (proj2 (proj2 (proj2 H)))).
Defined.

(** X9 on the registry of three tests. *)
Lemma runTestsMatching_star_witness :
  runTestsMatching Demo.manager "*" Demo.machine =
    runAllTests Demo.manager Demo.machine.
Proof.
  apply (proj1 (runTestsMatching_star Demo.manager Demo.machine)).
  discriminate.
Defined.

(** X11 on the registry before any run: no test has passed. *)
Lemma getOverallResult_cases_witness :
  getOverallResult Demo.manager Demo.objects <> NOT_RUN /\
  (getOverallResult Demo.manager Demo.objects = PASSED <->
   forall k, In k (tests_ Demo.manager) ->
             result_of Demo.objects k = PASSED).
Proof.
  assert (Hne : tests_ Demo.manager <> []) by discriminate.
  pose (H := getOverallResult_cases Demo.manager Demo.objects Hne).
  split.
  - exact (proj1 (proj2 (proj2 (proj2 (proj2 H))))).
  - exact (proj1 (proj2 (proj2 H))).
Defined.

(** X12 on the registry and its reverse. *)
Lemma getOverallResult_order_independent_witness :
  getOverallResult Demo.manager Demo.objects =
  getOverallResult (set_tests_ Demo.manager [2%nat; 1%nat; 0%nat])
    Demo.objects.
Proof.
  apply getOverallResult_order_independent.
  intros k. cbn. tauto.
Defined.

(** X13 on the registry after a run. *)
Lemma statistics_agree_with_overall_result_witness :
  getOverallResult Demo.manager
    (heap (snd (runAllTests Demo.manager Demo.machine))) = FAILED <->
  0 < failed_tests
        (getStatistics Demo.manager
           (heap (snd (runAllTests Demo.manager Demo.machine)))).
Proof.
  assert (Hne : tests_ Demo.manager <> []) by discriminate.
  assert (Hn : Z.of_nat (List.length (tests_ Demo.manager)) < 2 ^ 32)
    by (vm_compute; reflexivity).
  exact (proj2 (statistics_agree_with_overall_result Demo.manager
                  (heap (snd (runAllTests Demo.manager Demo.machine)))
                  Hne Hn)).
Defined.

(** X14: "WiFi" is found, "GPS" is not. *)
Lemma getTest_first_match_witness :
  getTest Demo.manager Demo.objects "WiFi" = Some 2%nat /\
  getTest Demo.manager Demo.objects "GPS" = None.
Proof.
  split.
  - apply (proj1 (getTest_first_match Demo.manager Demo.objects "WiFi")).
    exists [0%nat; 1%nat], []. repeat split.
    intros k [<- | [<- | []]]; discriminate.
  - apply (proj2 (getTest_first_match Demo.manager Demo.objects "GPS")).
    intros [H | [H | [H | []]]]; discriminate H.
Defined.

(** X16: "WiFi" and "wifi", "IF" and "if". *)
Lemma matchesPattern_ignores_case_witness :
  matchesPattern "WiFi" "IF" = matchesPattern "wifi" "if".
Proof. exact (matchesPattern_ignores_case "WiFi" "wifi" "IF" "if" eq_refl eq_refl). Defined.

(** X17: "PSRAM*" is longer than "PSRAM". *)
Lemma matchesPattern_bounds_witness :
  matchesPattern "PSRAM" "PSRAM*" = false.
Proof.
  destruct (matchesPattern "PSRAM" "PSRAM*") eqn:E; [|reflexivity].
  apply (proj2 (proj2 (matchesPattern_bounds "PSRAM" "PSRAM*"))) in E.
  destruct E as [E | E]; [discriminate E | simpl in E; lia].
Defined.

(** X19: 56 ms after a start at 4294967290 ms the clock reads 50 ms. *)
Lemma checkTestTimeout_elapsed_witness :
  checkTestTimeout TestManager_new None 4294967290 DemoBus.machine_at_50 =
    (false, DemoBus.machine_at_50).
Proof.
  refine (checkTestTimeout_elapsed TestManager_new None 4294967290 56
            DemoBus.machine_at_50 _ _).
  - lia.
  - vm_compute. reflexivity.
Defined.

(** X20 on [A(critical), B(critical, fails), C(critical)]. *)
Lemma runSteps_failure_origin_witness :
  exists (pre : list (TestStep nat)) (st : TestStep nat)
         (post : list (TestStep nat)) (rs : list esp_err_t),
    test_steps_ (heap (Demo.with_steps Demo.steps_abc) 0%nat) =
      pre ++ st :: post /\
    critical st = true /\
    fst (attempt_all (pre ++ [st]) (Demo.with_steps Demo.steps_abc)) =
      rs ++ [fst (runSteps 0%nat (Demo.with_steps Demo.steps_abc))] /\
    no_critical_failure pre rs /\
    snd (runSteps 0%nat (Demo.with_steps Demo.steps_abc)) =
      snd (attempt_all (pre ++ [st]) (Demo.with_steps Demo.steps_abc)).
Proof.
  apply runSteps_failure_origin. vm_compute. discriminate.
Defined.

(** X21 with a second test that fails. *)
Lemma test_execution_task_verdict_witness :
  total_tests (snd (fst (test_execution_task 0%nat 1%nat Demo.machine))) = 2.
Proof.
  assert (Hne : 0%nat <> 1%nat) by discriminate.
  exact (proj2 (proj2 (proj2
           (test_execution_task_verdict 0%nat 1%nat Demo.machine Hne)))).
Defined.

(** X22 on a bus that answers with the bytes 00 40, 01 00, FF FF,
    00 C0: the components are 16384, 1, -1 and -16384 units. *)
Lemma quat_component_exact_witness :
  exists q : Bno055.bno055_quaternion_t,
    @Bno055.bno055_get_quaternion nat Demo.platform DemoBus.quaternion_bus
      true DemoBus.ready 0%nat = (ESP_OK, Some q, 1%nat) /\
    exact_component (Bno055.w q) 0 64 /\
    exact_component (Bno055.x q) 1 0 /\
    exact_component (Bno055.y q) 255 255 /\
    exact_component (Bno055.z q) 0 192.
Proof.
  assert (Hburst :
    @Bno055.bno055_read_burst nat Demo.platform DemoBus.quaternion_bus
      Bno055.BNO055_QUATERNION_DATA_W_LSB_ADDR true 8 DemoBus.ready 0%nat =
    (ESP_OK, [0; 64; 1; 0; 255; 255; 0; 192], 1%nat))
    by (vm_compute; reflexivity).
  exact (proj1 (@quat_component_exact nat Demo.platform
                  DemoBus.quaternion_bus DemoBus.ready 0%nat 1%nat ESP_OK
                  [0; 64; 1; 0; 255; 255; 0; 192] Hburst) eq_refl).
Defined.

(** X23 on the burst of eight bytes that reads a quaternion. *)
Lemma read_burst_frame_witness :
  Bno055.bno055_read_burst 32 true 8 DemoBus.ready 0%nat =
    (ESP_OK, [160; 160; 160; 160; 160; 160; 160; 160], 1%nat).
Proof.
  assert (Ha : 0 <= Bno055.bno055_i2c_addr DemoBus.ready < 128)
    by (vm_compute; split; [discriminate | reflexivity]).
  assert (Hr : 0 <= 32 < 256) by lia.
  assert (Hl : 1 <= 8) by lia.
  exact (proj1 (read_burst_frame DemoBus.ready 32 8 0%nat eq_refl Ha Hr) Hl).
Defined.

(** X24 on the driver before initialization. *)
Lemma bno055_needs_init_witness :
  Bno055.bno055_reset Bno055.driver_initial 0%nat =
    (ESP_ERR_INVALID_STATE, 0%nat).
Proof.
  exact (proj1 (proj2 (proj2 (proj2
           (proj1 (bno055_needs_init Bno055.driver_initial 0%nat 0 0 0 true)
              eq_refl))))).
Defined.

(** X25 on a bus that answers with the chip id 0xA0. *)
Lemma bno055_init_outcome_witness :
  Bno055.bno055_initialized
    (snd (fst (Bno055.bno055_init (Some DemoBus.config)
                 Bno055.driver_initial 0%nat))) = true.
Proof.
  apply (proj2 (proj1 (bno055_init_outcome (Some DemoBus.config)
                         Bno055.driver_initial 0%nat eq_refl))).
  vm_compute. reflexivity.
Defined.

(** X26 on a buffer whose third byte differs, and on the pattern 426,
    which is 0xAA as a [uint8_t]. *)
Lemma validateMemoryPattern_spec_witness :
  fst (validateMemoryPattern [170; 170; 85] 170) = ESP_FAIL /\
  fst (validateMemoryPattern (memset 170 4) 426) = ESP_OK.
Proof.
  split.
  - apply (proj1 (proj2 (validateMemoryPattern_spec [170; 170; 85] 170))).
    vm_compute. discriminate.
  - apply (proj1 (validateMemoryPattern_spec (memset 170 4) 426)).
    vm_compute. repeat constructor.
Defined.

(** X27 on the identity quaternion, with the last sequence number. *)
Lemma bno055_to_imu_msg_contents_witness :
  Ros2.ros2_manager_bno055_to_imu_msg None true DemoRtos.initialized 5%nat =
    (ESP_ERR_INVALID_ARG, None, DemoRtos.initialized) /\
  Ros2.sequence_number
    (snd (Ros2.ros2_manager_bno055_to_imu_msg (Some DemoRtos.identity) true
            DemoRtos.initialized 5%nat)) = 0.
Proof.
  pose (H := bno055_to_imu_msg_contents DemoRtos.identity
               DemoRtos.initialized 5%nat).
  split; [exact (proj1 (proj2 H) true)|].
  destruct (proj1 H) as (m & _ & _ & Hseq & _). exact Hseq.
Defined.

(** X28 on connecting, connected, connected again, disconnected. *)
Lemma notify_counts_changes_witness :
  snd (Ros2.notify_each
         [Ros2.ROS2_STATUS_CONNECTING; Ros2.ROS2_STATUS_CONNECTED;
          Ros2.ROS2_STATUS_CONNECTED; Ros2.ROS2_STATUS_DISCONNECTED]
         DemoRtos.initialized 0%nat) = 3%nat /\
  Ros2.disconnection_events
    (Ros2.current_stats
       (fst (Ros2.notify_each
               [Ros2.ROS2_STATUS_CONNECTING; Ros2.ROS2_STATUS_CONNECTED;
                Ros2.ROS2_STATUS_CONNECTED; Ros2.ROS2_STATUS_DISCONNECTED]
               DemoRtos.initialized 0%nat))) = 1.
Proof.
  assert (Hd : 0 <= Ros2.disconnection_events
                      (Ros2.current_stats DemoRtos.initialized) < 2 ^ 32)
    by (vm_compute; split; [discriminate | reflexivity]).
  pose (H := notify_counts_changes
               [Ros2.ROS2_STATUS_CONNECTING; Ros2.ROS2_STATUS_CONNECTED;
                Ros2.ROS2_STATUS_CONNECTED; Ros2.ROS2_STATUS_DISCONNECTED]
               DemoRtos.initialized 0%nat Hd).
  split.
  - exact (proj1 (proj2 H)).
  - exact (proj2 (proj2 H)).
Defined.

(** X29: starting the initialized manager. *)
Lemma ros2_start_stop_witness :
  Ros2.current_status
    (snd (fst (Ros2.ros2_manager_start DemoRtos.initialized 0%nat))) =
    Ros2.ROS2_STATUS_CONNECTING.
Proof.
  exact (proj1 (proj2 (proj2
           (proj1 (proj2 (proj2 (ros2_start_stop DemoRtos.initialized 0%nat)))
              eq_refl eq_refl)))).
Defined.

(** X30 on [pass, fail, pass], all selected. *)
Lemma runTestsMatching_halts_witness :
  runs_of (events (snd (runTestsMatching
                          (setStopOnFirstFailure Demo.manager true) "*"
                          Demo.machine))) = [0%nat; 1%nat].
Proof.
  assert (Hrs : fst (run_in_order ([0%nat] ++ [1%nat]) Demo.machine) =
                [PASSED] ++ [FAILED]) by (vm_compute; reflexivity).
  assert (Hpre : Forall (eq PASSED) [PASSED]) by repeat constructor.
  assert (Hr : FAILED <> PASSED) by discriminate.
  assert (Hsel : matching_tests (setStopOnFirstFailure Demo.manager true)
                   (heap Demo.machine) "*" = [0%nat] ++ 1%nat :: [2%nat])
    by (vm_compute; reflexivity).
  exact (proj2 (proj2 (runTestsMatching_halts
                         (setStopOnFirstFailure Demo.manager true) "*"
                         [0%nat] 1%nat [2%nat] [PASSED] FAILED Demo.machine
                         eq_refl Hsel Hrs Hpre Hr))).
Defined.
